(** * Pharmacy inventory API: location hierarchy, inventory filters,
      request and search logging, pagination and admin permissions.

    A shallow embedding of the Django application under [api/]:
    [models.py], [serializers.py], [filters.py], [middleware.py],
    [views.py], [pagination.py] and [permissions.py].

    Conventions.
    - A Python [str] is a [string] holding its UTF-8 encoding, so the
      Persian labels of the source are written as they are.  Equality,
      concatenation and the substring test agree with Python's on
      code points.
    - [None] is [option]'s [None]; a dictionary key that may be absent
      is an [option] around the value.
    - A database table keyed by primary key is a [gmap Z row]; a
      foreign key is the key of the referenced row.
    - A Python exception that the code does not catch is the [Raise]
      result of the enclosing function.
    - A [Decimal] is a rational number, a date is its day number.
    - The digits and the white space of [str.isdigit] and [int] are
      those of the Unicode character database, held as tables of
      code point ranges. *)

From stdpp Require Import gmap strings list fin_maps pretty.
From Stdlib Require Import ZArith QArith Qcanon Ascii.

#[local] Open Scope Z_scope.

(* ===================================================================== *)
(** * Python built-ins used by the application *)
(* ===================================================================== *)

Module Py.

(** [str(x)] as an f-string prints it, for a value that is a string
    or [None]. *)
Definition str (o : option string) : string := default "None" o.

(** [s.startswith(p)]. *)
Definition startswith (s p : string) : bool := String.prefix p s.

(** [needle in hay] on strings. *)
Fixpoint contains (needle hay : string) : bool :=
  String.prefix needle hay ||
  match hay with
  | EmptyString => false
  | String _ rest => contains needle rest
  end.

(** [s.split(sep)[0]]: everything before the first separator. *)
Fixpoint split_first (sep : ascii) (s : string) : string :=
  match s with
  | EmptyString => EmptyString
  | String c rest =>
      if Ascii.eqb c sep then EmptyString else String c (split_first sep rest)
  end.

(** Truthiness of a string or [None]: [if x:]. *)
Definition truthy (o : option string) : bool :=
  match o with
  | Some s => negb (String.eqb s "")
  | None => false
  end.

(** [int(True) = 1], [int(False) = 0]: [bool] is a subclass of [int]
    and compares as that integer. *)
Definition int_of_bool (b : bool) : Z := if b then 1 else 0.

(** [int(d)] of a [Decimal]: the integer part, rounded towards zero. *)
Definition int_of_decimal (d : Qc) : Z :=
  Z.quot (Qnum (this d)) (Z.pos (Qden (this d))).

(** Lower case on the ASCII letters, other bytes unchanged: the case
    folding of an ASCII-only case-insensitive match. *)
Definition ascii_lower (c : ascii) : ascii :=
  let n := N_of_ascii c in
  if ((65 <=? n) && (n <=? 90))%N then ascii_of_N (n + 32) else c.

Fixpoint lower (s : string) : string :=
  match s with
  | EmptyString => EmptyString
  | String c rest => String (ascii_lower c) (lower rest)
  end.

(** The code points of a [str], which is held as UTF-8.  [pending]
    continuation bytes are still to be read into [acc]. *)
Fixpoint code_points (pending : nat) (acc : N) (s : string) : list N :=
  match s with
  | EmptyString => []
  | String c rest =>
      let b := N_of_ascii c in
      match pending with
      | O =>
          if (b <? 128)%N then b :: code_points 0 0 rest
          else if (b <? 224)%N then code_points 1 (b mod 32) rest
          else if (b <? 240)%N then code_points 2 (b mod 16) rest
          else code_points 3 (b mod 8) rest
      | S O => (acc * 64 + b mod 64)%N :: code_points 0 0 rest
      | S k => code_points k (acc * 64 + b mod 64) rest
      end
  end.

(** The run [lo..hi] of a table that holds a code point. *)
Definition in_ranges (ranges : list (N * N)) (cp : N) : option (N * N) :=
  List.find (λ r : N * N, (r.1 <=? cp) && (cp <=? r.2))%N ranges.

(** The characters with a decimal value (Unicode 14, category Nd), in
    runs: the value of [cp] in the run [lo..hi] is [(cp - lo) mod 10].
    [int] reads these as digits. *)
Definition decimal_ranges : list (N * N) :=
  [
    (48, 57); (1632, 1641); (1776, 1785); (1984, 1993); (2406,
    2415); (2534, 2543); (2662, 2671); (2790, 2799); (2918, 2927);
    (3046, 3055); (3174, 3183); (3302, 3311); (3430, 3439); (3558,
    3567); (3664, 3673); (3792, 3801); (3872, 3881); (4160, 4169);
    (4240, 4249); (6112, 6121); (6160, 6169); (6470, 6479); (6608,
    6617); (6784, 6793); (6800, 6809); (6992, 7001); (7088, 7097);
    (7232, 7241); (7248, 7257); (42528, 42537); (43216, 43225);
    (43264, 43273); (43472, 43481); (43504, 43513); (43600,
    43609); (44016, 44025); (65296, 65305); (66720, 66729);
    (68912, 68921); (69734, 69743); (69872, 69881); (69942,
    69951); (70096, 70105); (70384, 70393); (70736, 70745);
    (70864, 70873); (71248, 71257); (71360, 71369); (71472,
    71481); (71904, 71913); (72016, 72025); (72784, 72793);
    (73040, 73049); (73120, 73129); (92768, 92777); (92864,
    92873); (93008, 93017); (120782, 120831); (123200, 123209);
    (123632, 123641); (125264, 125273); (130032, 130041)
  ]%N.

(** The characters for which [str.isdigit] holds (Unicode 14, numeric
    type Digit or Decimal): the decimal digits and, among others, the
    superscript, subscript and circled digits. *)
Definition digit_ranges : list (N * N) :=
  [
    (48, 57); (178, 179); (185, 185); (1632, 1641); (1776, 1785);
    (1984, 1993); (2406, 2415); (2534, 2543); (2662, 2671); (2790,
    2799); (2918, 2927); (3046, 3055); (3174, 3183); (3302, 3311);
    (3430, 3439); (3558, 3567); (3664, 3673); (3792, 3801); (3872,
    3881); (4160, 4169); (4240, 4249); (4969, 4977); (6112, 6121);
    (6160, 6169); (6470, 6479); (6608, 6618); (6784, 6793); (6800,
    6809); (6992, 7001); (7088, 7097); (7232, 7241); (7248, 7257);
    (8304, 8304); (8308, 8313); (8320, 8329); (9312, 9320); (9332,
    9340); (9352, 9360); (9450, 9450); (9461, 9469); (9471, 9471);
    (10102, 10110); (10112, 10120); (10122, 10130); (42528,
    42537); (43216, 43225); (43264, 43273); (43472, 43481);
    (43504, 43513); (43600, 43609); (44016, 44025); (65296,
    65305); (66720, 66729); (68160, 68163); (68912, 68921);
    (69216, 69224); (69714, 69722); (69734, 69743); (69872,
    69881); (69942, 69951); (70096, 70105); (70384, 70393);
    (70736, 70745); (70864, 70873); (71248, 71257); (71360,
    71369); (71472, 71481); (71904, 71913); (72016, 72025);
    (72784, 72793); (73040, 73049); (73120, 73129); (92768,
    92777); (92864, 92873); (93008, 93017); (120782, 120831);
    (123200, 123209); (123632, 123641); (125264, 125273); (127232,
    127242); (130032, 130041)
  ]%N.

(** The white space that [int] strips: ASCII white space, and the
    white space beyond ASCII. *)
Definition space_ranges : list (N * N) :=
  [ (9, 13); (32, 32); (133, 133); (160, 160); (5760, 5760);
    (8192, 8202); (8232, 8233); (8239, 8239); (8287, 8287);
    (12288, 12288) ]%N.

Definition decimal (cp : N) : option N :=
  (λ r : N * N, (cp - r.1) mod 10)%N <$> in_ranges decimal_ranges cp.

Definition is_digit (cp : N) : bool :=
  match in_ranges digit_ranges cp with Some _ => true | None => false end.

Definition is_space (cp : N) : bool :=
  match in_ranges space_ranges cp with Some _ => true | None => false end.

(** [s.isdigit()]: not empty, and digits only. *)
Definition isdigit (s : string) : bool :=
  match code_points 0 0 s with
  | [] => false
  | cps => forallb is_digit cps
  end.

Fixpoint lstrip (cps : list N) : list N :=
  match cps with
  | [] => []
  | c :: rest => if is_space c then lstrip rest else cps
  end.

Definition strip (cps : list N) : list N :=
  rev (lstrip (rev (lstrip cps))).

(** [sys.int_info.default_max_str_digits]: a longer decimal literal is
    refused. *)
Definition max_str_digits : N := 4300.

(** The digits of an integer literal: decimal digits of any script,
    single underscores between them, [count] digits so far. *)
Fixpoint digits_value (acc : Z) (count : N) (after_digit : bool) (cps : list N)
  : option Z :=
  match cps with
  | [] =>
      if after_digit && (count <=? max_str_digits)%N then Some acc else None
  | c :: rest =>
      match decimal c with
      | Some d => digits_value (acc * 10 + Z.of_N d) (count + 1) true rest
      | None =>
          if (c =? 95)%N && after_digit then digits_value acc count false rest
          else None
      end
  end.

(** [int(s)]; [None] is [ValueError]. *)
Definition int (s : string) : option Z :=
  match strip (code_points 0 0 s) with
  | c :: rest =>
      if (c =? 45)%N then Z.opp <$> digits_value 0 0 false rest
      else if (c =? 43)%N then digits_value 0 0 false rest
      else digits_value 0 0 false (c :: rest)
  | [] => None
  end.

End Py.
(* ===================================================================== *)
(** * models.py *)
(* ===================================================================== *)

Module Models.

Record Role := { role_name : string }.

(** [User]: the fields the application reads or writes.  [role] is a
    nullable foreign key; the referenced row is held directly. *)
Record User := {
  contact_number : string;
  role : option Role;
  is_staff : bool;
  is_superuser : bool;
}.

#[global] Instance Role_eq_dec : EqDecision Role.
Proof. solve_decision. Defined.

#[global] Instance User_eq_dec : EqDecision User.
Proof. solve_decision. Defined.

Record Location := {
  loc_name : string;
  loc_type : string;
  loc_parent : option Z;      (* parent_id, nullable self reference *)
}.

Record Manufacturer := {
  man_name : string;
  man_country : string;
}.

Record Drug := {
  generic_name : string;
  brand_name : option string;
  irc : string;
  dosage : string;
  form : string;
  manufacturer : Z;
  requires_prescription : bool;
}.

Record Pharmacy := {
  ph_name : string;
  license_number : string;
  is_24_hours : bool;
  location : Z;
}.

Record PharmacyInventory := {
  inv_id : Z;
  drug : Z;
  pharmacy : Z;
  batch_number : option string;
  expire_date : Z;            (* day number of the date *)
  quantity : Z;               (* PositiveIntegerField: 0 <= quantity *)
  price : Qc;                 (* DecimalField *)
}.

Record InventorySearchLog := {
  sl_user : option User;
  sl_query_params : string;
  sl_ip_address : option string;
  sl_timestamp : Z;
}.

Record RequestLog := {
  rl_user : option User;
  rl_endpoint : string;
  rl_method : string;
  rl_request_payload : string;
  rl_response_status : Z;
  rl_ip_address : option string;
  rl_timestamp : Z;
}.

(** The relational tables the filters join over. *)
Record Tables := {
  locations : gmap Z Location;
  manufacturers : gmap Z Manufacturer;
  drugs : gmap Z Drug;
  pharmacies : gmap Z Pharmacy;
}.

(** [location.parent]: the row the foreign key points to. *)
Definition parent_of (db : Tables) (l : Location) : option Location :=
  k ← loc_parent l; locations db !! k.

(** [User.save]: staff and superuser status follow the role. *)
Definition User_save (u : User) : User :=
  match role u with
  | Some r =>
      if String.eqb (role_name r) "Admin"
      then {| contact_number := contact_number u; role := role u;
              is_staff := true; is_superuser := true |}
      else {| contact_number := contact_number u; role := role u;
              is_staff := false; is_superuser := false |}
  | None =>
      {| contact_number := contact_number u; role := role u;
         is_staff := false; is_superuser := false |}
  end.

End Models.

(* ===================================================================== *)
(** * serializers.py: LocationSerializer.validate *)
(* ===================================================================== *)

Module Serializers.
Import Models.

(** Result of a validator: the validated data, or
    [serializers.ValidationError(detail)] with [detail] a dictionary
    from field name to message. *)
Inductive Validation (A : Type) : Type :=
| Valid (data : A)
| ValidationError (detail : list (string * string)).
Arguments Valid {A} data.
Arguments ValidationError {A} detail.

Definition accepted {A} (v : Validation A) : bool :=
  match v with
  | Valid _ => true
  | ValidationError _ => false
  end.

(** What the caller sees of a validation: nothing on success, the
    error detail on failure. *)
Definition verdict {A} (v : Validation A) : option (list (string * string)) :=
  match v with
  | Valid _ => None
  | ValidationError detail => Some detail
  end.

(** The validated attributes of a location write.  A key that the
    request does not carry is [None]; [parent] may be present and
    null, which is [Some None]. *)
Record LocationData := {
  d_name : option string;
  d_type : option string;
  d_parent : option (option Location);
}.

(** The four level labels of the source. *)
Definition PROVINCE : string := "استان".
Definition COUNTY : string := "شهرستان".
Definition CITY : string := "شهر".
Definition DISTRICT : string := "منطقه".

(** [hierarchy]: child type to the type its parent must have. *)
Definition hierarchy : gmap string string :=
  {[ "منطقه" := "شهر"; "شهر" := "شهرستان"; "شهرستان" := "استان" ]}.

(** [data.get('type', getattr(self.instance, 'type', None))] *)
Definition final_type (instance : option Location) (data : LocationData)
  : option string :=
  match d_type data with
  | Some t => Some t
  | None => loc_type <$> instance
  end.

(** [data.get('parent', getattr(self.instance, 'parent', None))] *)
Definition final_parent (db : Tables) (instance : option Location)
    (data : LocationData) : option Location :=
  match d_parent data with
  | Some p => p
  | None => instance ≫= parent_of db
  end.

Definition validate (db : Tables) (instance : option Location)
    (data : LocationData) : Validation LocationData :=
  let loc_type := final_type instance data in
  let parent := final_parent db instance data in
  (* Rule 1: a province cannot have a parent. *)
  if decide (loc_type = Some "استان") then
    match parent with
    | Some _ =>
        ValidationError
          [("parent", "یک استان (Province) نمی‌تواند والد داشته باشد.")]
    | None => Valid data
    end
  else
    match parent with
    | None =>
        (* Rule 2: other locations must have a parent. *)
        ValidationError
          [("parent",
            "یک '" +:+ Py.str loc_type +:+ "' باید یک والد داشته باشد.")]
    | Some parent =>
        (* Rule 3: the parent must be of the required type. *)
        let required_parent_type := t ← loc_type; hierarchy !! t in
        if decide (Some (Models.loc_type parent) = required_parent_type)
        then Valid data
        else
          ValidationError
            [("parent",
              "والد یک '" +:+ Py.str loc_type +:+ "' باید از نوع '"
              +:+ Py.str required_parent_type
              +:+ "' باشد، اما والد ارائه شده از نوع '"
              +:+ Models.loc_type parent +:+ "' است.")]
    end.

(** The predecessor table as the specification words it:
    District: City, City: County, County: Province. *)
Definition required_parent (t : string) : option string :=
  if decide (t = DISTRICT) then Some CITY
  else if decide (t = CITY) then Some COUNTY
  else if decide (t = COUNTY) then Some PROVINCE
  else None.

(** The hierarchy rule on a (type, parent) pair, as the specification
    words it. *)
Definition hierarchy_ok (t : option string) (parent : option Location) : bool :=
  if decide (t = Some PROVINCE) then bool_decide (parent = None)
  else
    match parent with
    | None => false
    | Some p => bool_decide (t ≫= required_parent = Some (loc_type p))
    end.

(** An update request that carries neither [type] nor [parent]. *)
Definition unrelated_update (name : option string) : LocationData :=
  {| d_name := name; d_type := None; d_parent := None |}.

End Serializers.

(* ===================================================================== *)
(** * filters.py: PharmacyInventoryFilter *)
(* ===================================================================== *)

Module Filters.
Import Models.

(** The cleaned values of the filter form: [None] for a parameter that
    was not supplied (or did not clean to a value). *)
Record InventoryParams := {
  p_drug : option Qc;
  p_drug_name : option string;
  p_drug_brand_name : option string;
  p_drug_form : option string;
  p_drug_irc : option string;
  p_manufacturer_name : option string;
  p_pharmacy : option Qc;
  p_pharmacy_name : option string;
  p_pharmacy_is_24_hours : option bool;
  p_location_district : option string;
  p_location_city : option string;
  p_location_county : option string;
  p_location_province : option string;
  p_batch_number : option string;
  p_has_stock : option bool;
  p_expire_date_after : option Z;
  p_expire_date_before : option Z;
  p_price_min : option Qc;
  p_price_max : option Qc;
}.

Definition no_params : InventoryParams :=
  {| p_drug := None; p_drug_name := None; p_drug_brand_name := None;
     p_drug_form := None; p_drug_irc := None; p_manufacturer_name := None;
     p_pharmacy := None; p_pharmacy_name := None;
     p_pharmacy_is_24_hours := None;
     p_location_district := None; p_location_city := None;
     p_location_county := None; p_location_province := None;
     p_batch_number := None; p_has_stock := None;
     p_expire_date_after := None; p_expire_date_before := None;
     p_price_min := None; p_price_max := None |}.

Section Lookups.

(** The case folding of the database's case-insensitive match. *)
Variable fold : string → string.

Variable db : Tables.

(** ** Field paths: the joins a [field_name] walks.  A missing row or a
       null foreign key gives [None], the SQL NULL. *)

Definition drug_ (r : PharmacyInventory) : option Drug := drugs db !! drug r.
Definition drug__generic_name r : option string := generic_name <$> drug_ r.
Definition drug__brand_name r : option string := drug_ r ≫= brand_name.
Definition drug__form r : option string := form <$> drug_ r.
Definition drug__irc r : option string := irc <$> drug_ r.
Definition drug__manufacturer r : option Manufacturer :=
  d ← drug_ r; manufacturers db !! manufacturer d.
Definition drug__manufacturer__name r : option string :=
  man_name <$> drug__manufacturer r.

Definition pharmacy_ (r : PharmacyInventory) : option Pharmacy :=
  pharmacies db !! pharmacy r.
Definition pharmacy__name r : option string := ph_name <$> pharmacy_ r.
Definition pharmacy__is_24_hours r : option bool := is_24_hours <$> pharmacy_ r.
Definition pharmacy__location r : option Location :=
  p ← pharmacy_ r; locations db !! location p.
Definition pharmacy__location__name r : option string :=
  loc_name <$> pharmacy__location r.
Definition pharmacy__location__parent r : option Location :=
  pharmacy__location r ≫= parent_of db.
Definition pharmacy__location__parent__name r : option string :=
  loc_name <$> pharmacy__location__parent r.
Definition pharmacy__location__parent__parent r : option Location :=
  pharmacy__location__parent r ≫= parent_of db.
Definition pharmacy__location__parent__parent__name r : option string :=
  loc_name <$> pharmacy__location__parent__parent r.
Definition pharmacy__location__parent__parent__parent r : option Location :=
  pharmacy__location__parent__parent r ≫= parent_of db.
Definition pharmacy__location__parent__parent__parent__name r : option string :=
  loc_name <$> pharmacy__location__parent__parent__parent r.

(** ** Lookup expressions on a nullable column. *)

Definition exact {A} `{EqDecision A} (col : option A) (v : A) : bool :=
  match col with
  | Some c => bool_decide (c = v)
  | None => false
  end.

Definition icontains (col : option string) (v : string) : bool :=
  match col with
  | Some c => Py.contains (fold v) (fold c)
  | None => false
  end.

Definition gt (col : option Z) (v : Z) : bool :=
  match col with
  | Some c => bool_decide (v < c)
  | None => false
  end.

(** ** Filter classes.  A filter whose value is empty ([None], or the
       empty string) leaves the query set as it is. *)

Definition CharFilter (col : option string)
    (lookup_expr : option string → string → bool) (value : option string) : bool :=
  match value with
  | None => true
  | Some v => if decide (v = "") then true else lookup_expr col v
  end.

(** [NumberFilter] on an integer key: the form cleans the value to a
    [Decimal], and the key lookup prepares it with [int]. *)
Definition NumberFilter (col : option Z) (value : option Qc) : bool :=
  match value with
  | None => true
  | Some v => exact col (Py.int_of_decimal v)
  end.

(** [BooleanFilter] with the default lookup, [exact]. *)
Definition BooleanFilter (col : option bool) (value : option bool) : bool :=
  match value with
  | None => true
  | Some v => exact col v
  end.

(** [BooleanFilter(field_name=..., lookup_expr='gt')] on an integer
    column: the column is compared with the Boolean value. *)
Definition BooleanFilter_gt (col : option Z) (value : option bool) : bool :=
  match value with
  | None => true
  | Some v => gt col (Py.int_of_bool v)
  end.

(** [DateFromToRangeFilter]: inclusive bounds, each optional. *)
Definition DateFromToRangeFilter (col : option Z) (after before : option Z) : bool :=
  match col, after, before with
  | _, None, None => true
  | Some c, Some a, Some b => bool_decide (a ≤ c) && bool_decide (c ≤ b)
  | Some c, Some a, None => bool_decide (a ≤ c)
  | Some c, None, Some b => bool_decide (c ≤ b)
  | None, _, _ => false
  end.

(** [RangeFilter] on a decimal column: inclusive bounds, each optional,
    compared as decimal numbers. *)
Definition RangeFilter (col : option Qc) (vmin vmax : option Qc) : bool :=
  match col, vmin, vmax with
  | _, None, None => true
  | Some c, Some a, Some b => bool_decide (a ≤ c)%Qc && bool_decide (c ≤ b)%Qc
  | Some c, Some a, None => bool_decide (a ≤ c)%Qc
  | Some c, None, Some b => bool_decide (c ≤ b)%Qc
  | None, _, _ => false
  end.

(** ** The filters of [PharmacyInventoryFilter], in declaration order. *)

Definition f_drug (p : InventoryParams) r := NumberFilter (Some (drug r)) (p_drug p).
Definition f_drug_name p r := CharFilter (drug__generic_name r) icontains (p_drug_name p).
Definition f_drug_brand_name p r :=
  CharFilter (drug__brand_name r) icontains (p_drug_brand_name p).
Definition f_drug_form p r := CharFilter (drug__form r) icontains (p_drug_form p).
Definition f_drug_irc p r := CharFilter (drug__irc r) exact (p_drug_irc p).
Definition f_manufacturer_name p r :=
  CharFilter (drug__manufacturer__name r) icontains (p_manufacturer_name p).
Definition f_pharmacy (p : InventoryParams) r :=
  NumberFilter (Some (pharmacy r)) (p_pharmacy p).
Definition f_pharmacy_name p r :=
  CharFilter (pharmacy__name r) icontains (p_pharmacy_name p).
Definition f_pharmacy_is_24_hours p r :=
  BooleanFilter (pharmacy__is_24_hours r) (p_pharmacy_is_24_hours p).
Definition f_location_district p r :=
  CharFilter (pharmacy__location__name r) icontains (p_location_district p).
Definition f_location_city p r :=
  CharFilter (pharmacy__location__parent__name r) icontains (p_location_city p).
Definition f_location_county p r :=
  CharFilter (pharmacy__location__parent__parent__name r) icontains
    (p_location_county p).
Definition f_location_province p r :=
  CharFilter (pharmacy__location__parent__parent__parent__name r) icontains
    (p_location_province p).
Definition f_batch_number p r :=
  CharFilter (batch_number r) icontains (p_batch_number p).
Definition f_has_stock p r := BooleanFilter_gt (Some (quantity r)) (p_has_stock p).
Definition f_expire_date p r :=
  DateFromToRangeFilter (Some (expire_date r))
    (p_expire_date_after p) (p_expire_date_before p).
Definition f_price p r :=
  RangeFilter (Some (price r)) (p_price_min p) (p_price_max p).

Definition declared_filters
  : list (InventoryParams → PharmacyInventory → bool) :=
  [ f_drug; f_drug_name; f_drug_brand_name; f_drug_form; f_drug_irc;
    f_manufacturer_name; f_pharmacy; f_pharmacy_name; f_pharmacy_is_24_hours;
    f_location_district; f_location_city; f_location_county;
    f_location_province; f_batch_number; f_has_stock; f_expire_date; f_price ].

(** [FilterSet.filter_queryset]: every filter narrows the query set in
    turn. *)
Definition filter_queryset (p : InventoryParams)
    (queryset : list PharmacyInventory) : list PharmacyInventory :=
  foldl (λ qs f, List.filter (f p) qs) queryset declared_filters.

End Lookups.

(** ** The four ancestor filters and the depth each one names. *)

Inductive Ancestor := District | City | County | Province.

Definition depth (a : Ancestor) : nat :=
  match a with
  | District => 0
  | City => 1
  | County => 2
  | Province => 3
  end%nat.

Definition ancestor_filter (fold : string → string) (db : Tables) (a : Ancestor)
  : InventoryParams → PharmacyInventory → bool :=
  match a with
  | District => f_location_district fold db
  | City => f_location_city fold db
  | County => f_location_county fold db
  | Province => f_location_province fold db
  end.

Definition ancestor_param (a : Ancestor) (p : InventoryParams) : option string :=
  match a with
  | District => p_location_district p
  | City => p_location_city p
  | County => p_location_county p
  | Province => p_location_province p
  end.

(** The node [k] parent links above a location, when the chain is that
    long. *)
Fixpoint ancestor_at (db : Tables) (k : nat) (l : Location) : option Location :=
  match k with
  | O => Some l
  | S k' => p ← parent_of db l; ancestor_at db k' p
  end.

(** The node at depth [k] of the location chain of a record's pharmacy. *)
Definition chain_node (db : Tables) (k : nat) (r : PharmacyInventory)
  : option Location :=
  l ← pharmacy__location db r; ancestor_at db k l.

(** A value that a filter acts on: supplied and not empty. *)
Definition supplied (value : option string) (s : string) : Prop :=
  value = Some s ∧ String.eqb s "" = false.

(** The parameters of a request that supplies one ancestor filter and
    nothing else. *)
Definition only_ancestor (a : Ancestor) (s : string) : InventoryParams :=
  {| p_drug := None; p_drug_name := None; p_drug_brand_name := None;
     p_drug_form := None; p_drug_irc := None; p_manufacturer_name := None;
     p_pharmacy := None; p_pharmacy_name := None;
     p_pharmacy_is_24_hours := None;
     p_location_district := match a with District => Some s | _ => None end;
     p_location_city := match a with City => Some s | _ => None end;
     p_location_county := match a with County => Some s | _ => None end;
     p_location_province := match a with Province => Some s | _ => None end;
     p_batch_number := None; p_has_stock := None;
     p_expire_date_after := None; p_expire_date_before := None;
     p_price_min := None; p_price_max := None |}.

(** The parameters of a request that supplies [has_stock] and nothing
    else. *)
Definition only_has_stock (b : bool) : InventoryParams :=
  {| p_drug := None; p_drug_name := None; p_drug_brand_name := None;
     p_drug_form := None; p_drug_irc := None; p_manufacturer_name := None;
     p_pharmacy := None; p_pharmacy_name := None;
     p_pharmacy_is_24_hours := None;
     p_location_district := None; p_location_city := None;
     p_location_county := None; p_location_province := None;
     p_batch_number := None; p_has_stock := Some b;
     p_expire_date_after := None; p_expire_date_before := None;
     p_price_min := None; p_price_max := None |}.

End Filters.

(* ===================================================================== *)
(** * The [json] module of the standard library, as the middleware and
      the view use it *)
(* ===================================================================== *)

Module Json.

(** A decoded JSON document.  Objects keep their members in order, as a
    Python [dict] does.  A float is held by the text that [repr] prints
    for it. *)
#[local] Set Warnings "-register-all".
Inductive value : Type :=
| JNull
| JBool (b : bool)
| JInt (z : Z)
| JFloat (repr : string)
| JStr (s : string)
| JArr (items : list value)
| JObj (members : list (string * value)).
#[local] Set Warnings "register-all".

(** The double quote character. *)
Definition quote : string := String (ascii_of_N 34) EmptyString.

Definition hex_digit (n : N) : ascii :=
  if (n <? 10)%N then ascii_of_N (48 + n) else ascii_of_N (87 + n).

(** [format(n, '04x')] for [n < 65536]. *)
Definition hex4 (n : N) : string :=
  String (hex_digit (n / 4096 mod 16))
    (String (hex_digit (n / 256 mod 16))
       (String (hex_digit (n / 16 mod 16))
          (String (hex_digit (n mod 16)) EmptyString))).

(** The code points of a UTF-8 string.  [pending] continuation bytes
    are still to be read into [acc]. *)
Fixpoint utf8_code_points (pending : nat) (acc : N) (s : string) : list N :=
  match s with
  | EmptyString => []
  | String c rest =>
      let b := N_of_ascii c in
      match pending with
      | O =>
          if (b <? 128)%N then b :: utf8_code_points 0 0 rest
          else if (b <? 224)%N then utf8_code_points 1 (b mod 32) rest
          else if (b <? 240)%N then utf8_code_points 2 (b mod 16) rest
          else utf8_code_points 3 (b mod 8) rest
      | S O => (acc * 64 + b mod 64)%N :: utf8_code_points 0 0 rest
      | S k => utf8_code_points k (acc * 64 + b mod 64) rest
      end
  end.

(** One character of a string literal, with [ensure_ascii=True]. *)
Definition escape_code_point (cp : N) : string :=
  if (cp =? 34)%N then "\" +:+ quote
  else if (cp =? 92)%N then "\\"
  else if (cp =? 10)%N then "\n"
  else if (cp =? 13)%N then "\r"
  else if (cp =? 9)%N then "\t"
  else if (cp =? 12)%N then "\f"
  else if (cp =? 8)%N then "\b"
  else if ((32 <=? cp) && (cp <=? 126))%N then String (ascii_of_N cp) EmptyString
  else if (cp <? 65536)%N then "\u" +:+ hex4 cp
  else
    let v := (cp - 65536)%N in
    "\u" +:+ hex4 (55296 + v / 1024) +:+ "\u" +:+ hex4 (56320 + v mod 1024).

Definition encode_string (s : string) : string :=
  quote
  +:+ foldr (λ cp out, escape_code_point cp +:+ out) EmptyString
        (utf8_code_points 0 0 s)
  +:+ quote.

(** [json.dumps(v)] with the default separators. *)
Fixpoint dumps (v : value) : string :=
  match v with
  | JNull => "null"
  | JBool true => "true"
  | JBool false => "false"
  | JInt z => pretty z
  | JFloat repr => repr
  | JStr s => encode_string s
  | JArr items =>
      "[" +:+
      (fix items_text (l : list value) : string :=
         match l with
         | [] => EmptyString
         | x :: [] => dumps x
         | x :: rest => dumps x +:+ ", " +:+ items_text rest
         end) items
      +:+ "]"
  | JObj members =>
      "{" +:+
      (fix members_text (l : list (string * value)) : string :=
         match l with
         | [] => EmptyString
         | (k, x) :: [] => encode_string k +:+ ": " +:+ dumps x
         | (k, x) :: rest =>
             encode_string k +:+ ": " +:+ dumps x +:+ ", " +:+ members_text rest
         end) members
      +:+ "}"
  end.

(** The outcome of [json.loads]: a document; [JSONDecodeError] or
    [UnicodeDecodeError]; the plain [ValueError] of an integer literal
    longer than the digit limit of [int]; or the [RecursionError] of a
    document nested too deep. *)
Inductive LoadsResult : Type :=
| Loaded (v : value)
| DecodeError
| RaisesValueError
| RaisesRecursionError.

(** [d[key]] on the members of an object. *)
Fixpoint member (key : string) (members : list (string * value)) : option value :=
  match members with
  | [] => None
  | (k, x) :: rest => if decide (k = key) then Some x else member key rest
  end.

(** [d[key] = x]: the member keeps its place when the key is there,
    and is added at the end when not. *)
Fixpoint set_member (key : string) (x : value) (members : list (string * value))
  : list (string * value) :=
  match members with
  | [] => [(key, x)]
  | (k, y) :: rest =>
      if decide (k = key) then (k, x) :: rest else (k, y) :: set_member key x rest
  end.

End Json.

(* ===================================================================== *)
(** * Requests, responses and the state of the application *)
(* ===================================================================== *)

Module Http.
Import Models.

(** [request.user]: Django's [AnonymousUser], or the authenticated
    [User]. *)
Inductive RequestUser : Type :=
| AnonymousUser
| Authenticated (u : User).

Definition is_authenticated (u : RequestUser) : bool :=
  match u with
  | AnonymousUser => false
  | Authenticated _ => true
  end.

(** [request.user if request.user.is_authenticated else None] *)
Definition user_or_none (u : RequestUser) : option User :=
  match u with
  | AnonymousUser => None
  | Authenticated u => Some u
  end.

(** The request as the transport layer delivers it.  [GET] is the
    [QueryDict] parsed from [query_string]: every key with the list of
    its values, in order.  [body_over_limit] says whether the length
    that the request declares for its body is over
    [DATA_UPLOAD_MAX_MEMORY_SIZE] of the settings, in which case
    reading [request.body] raises. *)
Record HttpRequest := {
  method : string;
  path : string;
  query_string : string;
  GET : list (string * list string);
  body : string;
  body_over_limit : bool;
  content_type : string;
  HTTP_X_FORWARDED_FOR : option string;
  REMOTE_ADDR : option string;
  user : RequestUser;
}.

Record Response := {
  status_code : Z;
  results : list PharmacyInventory;   (* the rows of a list response *)
}.

(** Exceptions that leave a function. *)
Inductive Exception : Type :=
| TypeError
| ValueError
| RecursionError
| IntegrityError
| RequestDataTooBig
| APIException (status : Z).

Inductive Result (A : Type) : Type :=
| Ok (a : A)
| Raise (e : Exception).
Arguments Ok {A} a.
Arguments Raise {A} e.

(** [QueryDict.get(key)]: the last value of the key. *)
Fixpoint query_get (key : string) (qd : list (string * list string))
  : option string :=
  match qd with
  | [] => None
  | (k, vs) :: rest => if decide (k = key) then last vs else query_get key rest
  end.

(** What [json.dumps] sees of a [QueryDict]: [items()] gives every key
    with its last value (an empty list when the key has none). *)
Definition query_items (qd : list (string * list string)) : Json.value :=
  Json.JObj
    (map (λ kv : string * list string,
            (kv.1, match last kv.2 with
                   | Some v => Json.JStr v
                   | None => Json.JArr []
                   end)) qd).

(** Truthiness of a [QueryDict]: it has a key. *)
Definition has_params (qd : list (string * list string)) : bool :=
  match qd with
  | [] => false
  | _ :: _ => true
  end.

(** The tables of the application and its two logs. *)
Record World := {
  tables : Tables;
  inventory : list PharmacyInventory;
  search_logs : list InventorySearchLog;
  request_logs : list RequestLog;
}.

(** The [ip_address] column of both logs is a [GenericIPAddressField]
    that is not nullable.  On the way to the database the field turns
    the empty string into NULL, so a row is stored only with an address
    that is there and is not empty. *)
Definition storable_address (ip_address : option string) : bool :=
  Py.truthy ip_address.

(** The client address: the first entry of the forwarded-for header
    when the header has a value, the connection's address when not. *)
Definition client_ip (request : HttpRequest) : option string :=
  let x_forwarded_for := HTTP_X_FORWARDED_FOR request in
  if Py.truthy x_forwarded_for
  then Py.split_first "," <$> x_forwarded_for
  else REMOTE_ADDR request.

End Http.

(* ===================================================================== *)
(** * pagination.py: CustomPagination *)
(* ===================================================================== *)

Module Pagination.
Import Http.

Definition page_size : Z := 5.
Definition page_size_query_param : string := "limit".
Definition max_page_size : Z := 100.
(** Inherited from [PageNumberPagination]. *)
Definition page_query_param : string := "page".

(** What [paginate_queryset] gives the view: [None], so that the view
    serializes the whole query set; the rows of one page; the
    [NotFound] error of an invalid page; or an exception that nothing
    on the way catches. *)
Inductive Paginated (A : Type) : Type :=
| Unpaginated
| Page (rows : list A)
| NotFound
| Failed (e : Exception).
Arguments Unpaginated {A}.
Arguments Page {A} rows.
Arguments NotFound {A}.
Arguments Failed {A} e.

(** The framework's [_positive_int(s, strict, cutoff)]. *)
Definition positive_int (s : string) (strict : bool) (cutoff : Z) : option Z :=
  ret ← Py.int s;
  if (ret <? 0) || ((ret =? 0) && strict) then None
  else if cutoff =? 0 then Some ret
  else Some (Z.min ret cutoff).

(** [get_page_size]: the client's [limit], capped, or the default. *)
Definition get_page_size (request : HttpRequest) : Z :=
  match query_get page_size_query_param (GET request) with
  | Some s => default page_size (positive_int s true max_page_size)
  | None => page_size
  end.

(** [Paginator.num_pages], with no orphans. *)
Definition num_pages (count per_page : Z) : Z :=
  let hits := Z.max 1 count in
  (hits + per_page - 1) / per_page.

(** [Paginator.page(number)]: the rows of the page, or [None] for
    [InvalidPage]. *)
Definition paginator_page {A} (object_list : list A) (per_page : Z)
    (number : option Z) : option (list A) :=
  match number with
  | None => None                                   (* PageNotAnInteger *)
  | Some n =>
      let count := Z.of_nat (length object_list) in
      if (n <? 1) || (num_pages count per_page <? n) then None   (* EmptyPage *)
      else
        let bottom := (n - 1) * per_page in
        Some (take (Z.to_nat per_page) (drop (Z.to_nat bottom) object_list))
  end.

(** [PageNumberPagination.paginate_queryset] *)
Definition super_paginate_queryset {A} (queryset : list A)
    (request : HttpRequest) : Paginated A :=
  let page_size := get_page_size request in
  if page_size =? 0 then Unpaginated
  else
    let count := Z.of_nat (length queryset) in
    let page_number :=
      match query_get page_query_param (GET request) with
      | None => Some 1
      | Some s =>
          if String.eqb s "" then Some 1
          else if String.eqb s "last" then Some (num_pages count page_size)
          else Py.int s
      end in
    match paginator_page queryset page_size page_number with
    | Some rows => Page rows
    | None => NotFound
    end.

(** [CustomPagination.paginate_queryset].  The test of [page=0] calls
    [int] on every text that [isdigit] takes, outside any [try]. *)
Definition paginate_queryset {A} (queryset : list A) (request : HttpRequest)
  : Paginated A :=
  let page_number := query_get page_query_param (GET request) in
  if Py.truthy page_number && from_option Py.isdigit false page_number then
    match page_number ≫= Py.int with
    | None => Failed ValueError
    | Some n =>
        if n =? 0 then Unpaginated
        else super_paginate_queryset queryset request
    end
  else super_paginate_queryset queryset request.

(** [ListModelMixin.list] after filtering: the page when there is one,
    the whole query set when pagination is off. *)
Definition listed {A} (queryset : list A) (request : HttpRequest)
  : Result (list A) :=
  match paginate_queryset queryset request with
  | Page rows => Ok rows
  | Unpaginated => Ok queryset
  | NotFound => Raise (APIException 404)
  | Failed e => Raise e
  end.

End Pagination.

(* ===================================================================== *)
(** * middleware.py: RequestLogMiddleware *)
(* ===================================================================== *)

Module Middleware.
Import Models Http.

(** Paths to exclude from logging. *)
Definition exclude_paths : list string := ["/api/swagger/"; "/api/redoc/"].

(** ['password' in payload], by the type of the decoded document: a key
    of an object, an element of an array, a substring of a string; any
    other document is not a container and the test raises. *)
Definition contains_password (payload : Json.value) : Result bool :=
  match payload with
  | Json.JObj members =>
      Ok (match Json.member "password" members with
          | Some _ => true
          | None => false
          end)
  | Json.JArr items =>
      Ok (existsb (λ x, match x with
                        | Json.JStr s => String.eqb s "password"
                        | _ => false
                        end) items)
  | Json.JStr s => Ok (Py.contains "password" s)
  | Json.JNull | Json.JBool _ | Json.JInt _ | Json.JFloat _ => Raise TypeError
  end.

(** [payload['password'] = '********']: item assignment by a string
    key, which only an object supports. *)
Definition censor (payload : Json.value) : Result Json.value :=
  match payload with
  | Json.JObj members =>
      Ok (Json.JObj (Json.set_member "password" (Json.JStr "********") members))
  | _ => Raise TypeError
  end.

Section Recorder.

(** [json.loads] of the standard library. *)
Variable json_loads : string → Json.LoadsResult.

(** The payload to log: query parameters of a GET, or the body.  The
    [try] catches the decode errors only. *)
Definition capture_payload (request : HttpRequest) (request_body_copy : string)
  : Result string :=
  if String.eqb (method request) "GET" && has_params (GET request) then
    Ok (Json.dumps (query_items (GET request)))
  else if negb (String.eqb request_body_copy "") then
    if Py.contains "application/json" (content_type request) then
      match json_loads request_body_copy with
      | Json.DecodeError => Ok "Could not decode request body."
      | Json.RaisesValueError => Raise ValueError
      | Json.RaisesRecursionError => Raise RecursionError
      | Json.Loaded payload =>
          match contains_password payload with
          | Raise e => Raise e
          | Ok true =>
              match censor payload with
              | Raise e => Raise e
              | Ok payload => Ok (Json.dumps payload)
              end
          | Ok false => Ok (Json.dumps payload)
          end
      end
    else
      Ok ("Non-JSON body (Content-Type: " +:+ content_type request +:+ ")")
  else Ok "".

(** A request that the first branch does not take: not a GET with
    query parameters. *)
Definition reads_body (request : HttpRequest) : Prop :=
  String.eqb (method request) "GET" && has_params (GET request) = false.

(** The condition under which a request is logged. *)
Definition should_log (request : HttpRequest) : bool :=
  Py.startswith (path request) "/api/"
  && negb (bool_decide (path request ∈ exclude_paths))
  && negb (String.eqb (method request) "OPTIONS").

(** [RequestLog.objects.create(...)]: the row is added, or the
    database refuses it for its address and nothing is written. *)
Definition create_request_log (row : RequestLog) (w : World) : Result World :=
  if storable_address (rl_ip_address row) then
    Ok {| tables := tables w; inventory := inventory w;
          search_logs := search_logs w;
          request_logs := request_logs w ++ [row] |}
  else Raise IntegrityError.

(** [RequestLogMiddleware.__call__].  The body is read first, and
    that read raises, before the view runs, when the body is over the
    limit.  [get_response] runs the view and always comes back with a
    response; the middleware returns that response, or leaves by an
    exception, and in either case the state that results is given. *)
Definition call (get_response : HttpRequest → World → Response * World)
    (now : Z) (request : HttpRequest) (w : World) : Result Response * World :=
  if body_over_limit request then (Raise RequestDataTooBig, w)
  else
    let request_body_copy := body request in
    let '(response, w) := get_response request w in
    if should_log request then
      let user := user_or_none (user request) in
      let ip_address := client_ip request in
      match capture_payload request request_body_copy with
      | Raise e => (Raise e, w)
      | Ok request_payload =>
          match create_request_log
                  {| rl_user := user;
                     rl_endpoint := path request;
                     rl_method := method request;
                     rl_request_payload := request_payload;
                     rl_response_status := status_code response;
                     rl_ip_address := ip_address;
                     rl_timestamp := now |} w with
          | Ok w' => (Ok response, w')
          | Raise e => (Raise e, w)
          end
      end
    else (Ok response, w).

End Recorder.

(** [json.loads] on the documents of the examples: the text that
    [json.dumps] writes for a document reads back as that document,
    ["5"] is the number five, and ["{"] is not JSON. *)
Definition sample_documents : list Json.value :=
  [ Json.JObj [("password", Json.JStr "secret123");
               ("contact_number", Json.JStr "0911")];
    Json.JObj [("password", Json.JStr "secret123");
               ("password_confirm", Json.JStr "secret123")];
    Json.JInt 5 ].

Definition sample_loads (text : string) : Json.LoadsResult :=
  match List.find (λ v, String.eqb (Json.dumps v) text) sample_documents with
  | Some v => Json.Loaded v
  | None => Json.DecodeError
  end.

End Middleware.

(* ===================================================================== *)
(** * permissions.py: IsAdminOrSuperUser *)
(* ===================================================================== *)

Module Permissions.
Import Models Http.

(** [user.role and user.role.name == 'Admin'] *)
Definition role_is_admin (u : User) : bool :=
  match role u with
  | Some r => String.eqb (role_name r) "Admin"
  | None => false
  end.

Definition has_permission (request : HttpRequest) : bool :=
  if negb (is_authenticated (user request)) then false
  else
    match user request with
    | Authenticated u => is_superuser u || role_is_admin u
    | AnonymousUser => false
    end.

End Permissions.

(* ===================================================================== *)
(** * views.py: PharmacyInventoryViewSet.list and the other operations *)
(* ===================================================================== *)

Module Views.
Import Models Http.

Section InventoryViewSet.

(** The case folding of the database's case-insensitive match. *)
Variable fold : string → string.

(** The cleaning of the filter form: the values of the parameters, or
    [None] when a value is malformed. *)
Variable clean : list (string * list string) → option Filters.InventoryParams.

(** [super().list(request)]: filter the inventory, paginate, respond.
    A malformed filter value and an invalid page leave by the
    framework's 400 and 404 errors. *)
Definition super_list (request : HttpRequest) (w : World) : Result Response :=
  match clean (GET request) with
  | None => Raise (APIException 400)
  | Some p =>
      let queryset := Filters.filter_queryset fold (tables w) p (inventory w) in
      match Pagination.listed queryset request with
      | Ok rows => Ok {| status_code := 200; results := rows |}
      | Raise e => Raise e
      end
  end.

(** [InventorySearchLog.objects.create(...)]: the row is added, or
    the database refuses it for its address and nothing is written. *)
Definition create_search_log (row : InventorySearchLog) (w : World)
  : Result World :=
  if storable_address (sl_ip_address row) then
    Ok {| tables := tables w; inventory := inventory w;
          search_logs := search_logs w ++ [row];
          request_logs := request_logs w |}
  else Raise IntegrityError.

(** [PharmacyInventoryViewSet.list] *)
Definition PharmacyInventoryViewSet_list (now : Z) (request : HttpRequest)
    (w : World) : Result Response * World :=
  match super_list request w with
  | Raise e => (Raise e, w)
  | Ok response =>
      if has_params (GET request) then
        let user := user_or_none (user request) in
        let ip_address := client_ip request in
        match create_search_log
                {| sl_user := user;
                   sl_query_params := Json.dumps (query_items (GET request));
                   sl_ip_address := ip_address;
                   sl_timestamp := now |} w with
        | Ok w' => (Ok response, w')
        | Raise e => (Raise e, w)
        end
      else (Ok response, w)
  end.

(** The user of a log row is a foreign key with [on_delete=SET_NULL]:
    when the user is deleted the row stays and its user becomes null. *)
Definition search_log_set_null (deleted : list User) (row : InventorySearchLog)
  : InventorySearchLog :=
  match sl_user row with
  | Some u =>
      if bool_decide (u ∈ deleted) then
        {| sl_user := None; sl_query_params := sl_query_params row;
           sl_ip_address := sl_ip_address row;
           sl_timestamp := sl_timestamp row |}
      else row
  | None => row
  end.

Definition request_log_set_null (deleted : list User) (row : RequestLog)
  : RequestLog :=
  match rl_user row with
  | Some u =>
      if bool_decide (u ∈ deleted) then
        {| rl_user := None; rl_endpoint := rl_endpoint row;
           rl_method := rl_method row;
           rl_request_payload := rl_request_payload row;
           rl_response_status := rl_response_status row;
           rl_ip_address := rl_ip_address row;
           rl_timestamp := rl_timestamp row |}
      else row
  | None => row
  end.

(** The operations of the API.  The listing of the inventory is the
    view above; the search-log view set is read-only and for admins;
    every other operation is a generic view over the tables of the
    models, which may also delete users: [run] gives the response, the
    tables that result and the users deleted. *)
Inductive Operation : Type :=
| InventoryList
| SearchLogRead
| ModelOperation
    (run : HttpRequest → Tables * list PharmacyInventory
           → Response * (Tables * list PharmacyInventory) * list User).

(** The framework turns an exception of a view into a response: the
    status of an API exception, a bad request for a body over the
    limit, and a server error for any other. *)
Definition handle_exception (e : Exception) : Response :=
  match e with
  | APIException status => {| status_code := status; results := [] |}
  | RequestDataTooBig => {| status_code := 400; results := [] |}
  | TypeError | ValueError | RecursionError | IntegrityError =>
      {| status_code := 500; results := [] |}
  end.

Definition dispatch (op : Operation) (now : Z) (request : HttpRequest)
    (w : World) : Response * World :=
  match op with
  | InventoryList =>
      match PharmacyInventoryViewSet_list now request w with
      | (Ok response, w') => (response, w')
      | (Raise e, w') => (handle_exception e, w')
      end
  | SearchLogRead =>
      if Permissions.has_permission request
      then ({| status_code := 200; results := [] |}, w)
      else ({| status_code := 403; results := [] |}, w)
  | ModelOperation run =>
      let '(response, (t, i), deleted) := run request (tables w, inventory w) in
      (response,
       {| tables := t; inventory := i;
          search_logs := search_log_set_null deleted <$> search_logs w;
          request_logs := request_log_set_null deleted <$> request_logs w |})
  end.

End InventoryViewSet.

(** The cleaning of two of the string parameters, for the examples. *)
Definition sample_clean (qd : list (string * list string))
  : option Filters.InventoryParams :=
  Some
    {| Filters.p_drug := None;
       Filters.p_drug_name := query_get "drug_name" qd;
       Filters.p_drug_brand_name := None; Filters.p_drug_form := None;
       Filters.p_drug_irc := None; Filters.p_manufacturer_name := None;
       Filters.p_pharmacy := None; Filters.p_pharmacy_name := None;
       Filters.p_pharmacy_is_24_hours := None;
       Filters.p_location_district := None;
       Filters.p_location_city := query_get "location_city" qd;
       Filters.p_location_county := None; Filters.p_location_province := None;
       Filters.p_batch_number := None; Filters.p_has_stock := None;
       Filters.p_expire_date_after := None; Filters.p_expire_date_before := None;
       Filters.p_price_min := None; Filters.p_price_max := None |}.

End Views.

(* ===================================================================== *)
(** * models.py: CustomUserManager; serializers.py: UserSerializer *)
(* ===================================================================== *)

Module Accounts.
Import Models.

(** A user object with the attributes that the manager and the
    serializer set besides those of [User]: the stored password hash,
    the full name and the active flag. *)
Record Account := {
  acc_user : User;
  acc_password : string;
  acc_full_name : option string;
  acc_is_active : bool;
}.

(** [**extra_fields]: a key that is not passed is [None]. *)
Record ExtraFields := {
  e_role : option (option Role);
  e_is_staff : option bool;
  e_is_superuser : option bool;
  e_is_active : option bool;
  e_full_name : option (option string);
}.

(** The validated data of [UserSerializer]; [is_staff], [is_superuser]
    and [date_joined] are read-only and never in it. *)
Record UserData := {
  v_contact_number : option string;
  v_password : option string;
  v_full_name : option (option string);
  v_role : option (option Role);
  v_is_active : option bool;
}.

Inductive Outcome (A : Type) : Type :=
| Done (a : A)
| ValueError (message : string)
| KeyError (key : string)
| IntegrityError.
Arguments Done {A} a.
Arguments ValueError {A} message.
Arguments KeyError {A} key.
Arguments IntegrityError {A}.

(** The tables that the manager writes: the roles and the users. *)
Record Store := {
  st_roles : list Role;
  st_users : list Account;
}.

(** [contact_number] is unique: a number is taken when a stored user
    has it. *)
Definition taken (users : list Account) (contact_number : string) : bool :=
  existsb (λ a, String.eqb (Models.contact_number (acc_user a)) contact_number)
    users.

(** [user.save()] on the object. *)
Definition save (a : Account) : Account :=
  {| acc_user := User_save (acc_user a);
     acc_password := acc_password a;
     acc_full_name := acc_full_name a;
     acc_is_active := acc_is_active a |}.

Section Passwords.

(** The password hasher of [set_password], as it is salted for the
    call: the hash of a raw password, or the unusable password for
    [None].  The framework draws a fresh salt for every hash, so two
    calls do not share their hasher. *)
Variable make_password : option string → string.

Definition set_password (raw : option string) (a : Account) : Account :=
  {| acc_user := acc_user a;
     acc_password := make_password raw;
     acc_full_name := acc_full_name a;
     acc_is_active := acc_is_active a |}.

(** [self.model(contact_number=contact_number, **extra_fields)]: the
    fields passed, and the defaults of the model for the others. *)
Definition new_user (contact_number : string) (extra : ExtraFields) : Account :=
  {| acc_user :=
       {| Models.contact_number := contact_number;
          role := default None (e_role extra);
          is_staff := default false (e_is_staff extra);
          is_superuser := default false (e_is_superuser extra) |};
     acc_password := "";
     acc_full_name := default None (e_full_name extra);
     acc_is_active := default true (e_is_active extra) |}.

(** [user.save(using=self._db)] of a new user: the row is inserted,
    unless the contact number is taken. *)
Definition insert_user (user : Account) (s : Store) : Outcome Account * Store :=
  let user := save user in
  if taken (st_users s) (Models.contact_number (acc_user user)) then
    (IntegrityError, s)
  else
    (Done user, {| st_roles := st_roles s; st_users := st_users s ++ [user] |}).

(** [CustomUserManager.create_user]: the outcome and the tables after
    the call. *)
Definition create_user (s : Store) (contact_number : string)
    (password : option string) (extra_fields : ExtraFields)
  : Outcome Account * Store :=
  if String.eqb contact_number "" then
    (ValueError "The Contact Number must be set", s)
  else
    let user := new_user contact_number extra_fields in
    let user := set_password password user in
    insert_user user s.

(** [Role.objects.get_or_create(name=...)] on the table of roles. *)
Definition get_or_create (name : string) (roles : list Role) : Role * list Role :=
  match List.find (λ r, String.eqb (role_name r) name) roles with
  | Some r => (r, roles)
  | None => ({| role_name := name |}, roles ++ [{| role_name := name |}])
  end.

(** [dict.setdefault] on one key. *)
Definition setdefault {A} (value : option A) (d : A) : option A :=
  match value with
  | Some v => Some v
  | None => Some d
  end.

(** [CustomUserManager.create_superuser]: the outcome and the tables
    after the call. *)
Definition create_superuser (s : Store) (contact_number : string)
    (password : option string) (extra_fields : ExtraFields)
  : Outcome Account * Store :=
  let '(admin_role, roles) := get_or_create "Admin" (st_roles s) in
  let s := {| st_roles := roles; st_users := st_users s |} in
  let extra_fields :=
    {| e_role := setdefault (e_role extra_fields) (Some admin_role);
       e_is_staff := setdefault (e_is_staff extra_fields) true;
       e_is_superuser := setdefault (e_is_superuser extra_fields) true;
       e_is_active := setdefault (e_is_active extra_fields) true;
       e_full_name := e_full_name extra_fields |} in
  if negb (bool_decide (e_is_staff extra_fields = Some true)) then
    (ValueError "Superuser must have is_staff=True.", s)
  else if negb (bool_decide (e_is_superuser extra_fields = Some true)) then
    (ValueError "Superuser must have is_superuser=True.", s)
  else create_user s contact_number password extra_fields.

(** The [User] object built from the validated data. *)
Definition user_of_data (d : UserData) : Account :=
  {| acc_user :=
       {| Models.contact_number := default "" (v_contact_number d);
          role := default None (v_role d);
          is_staff := false;
          is_superuser := false |};
     acc_password := "";
     acc_full_name := default None (v_full_name d);
     acc_is_active := default true (v_is_active d) |}.

(** [UserSerializer.create] *)
Definition UserSerializer_create (validated_data : UserData) : Outcome Account :=
  match v_password validated_data with
  | None => KeyError "password"
  | Some password =>
      let user := user_of_data validated_data in
      let user := set_password (Some password) user in
      Done (save user)
  end.

(** [ModelSerializer.update]: every attribute in the data is set on
    the instance, which is then saved. *)
Definition super_update (instance : Account) (d : UserData) : Account :=
  save
    {| acc_user :=
         {| Models.contact_number :=
              default (Models.contact_number (acc_user instance))
                (v_contact_number d);
            role := default (role (acc_user instance)) (v_role d);
            is_staff := is_staff (acc_user instance);
            is_superuser := is_superuser (acc_user instance) |};
       acc_password := acc_password instance;
       acc_full_name := default (acc_full_name instance) (v_full_name d);
       acc_is_active := default (acc_is_active instance) (v_is_active d) |}.

(** [UserSerializer.update]: the password is taken out of the data and
    is set only when it is not empty. *)
Definition UserSerializer_update (instance : Account) (validated_data : UserData)
  : Account :=
  let password := v_password validated_data in
  let user := super_update instance validated_data in
  if Py.truthy password then save (set_password password user) else user.

End Passwords.

(** A hasher for the examples: the raw password behind a tag. *)
Definition sample_hasher (raw : option string) : string :=
  match raw with
  | Some s => "hash$" +:+ s
  | None => "!"
  end.

End Accounts.

(* ===================================================================== *)
(** * Sample data for the examples *)
(* ===================================================================== *)

(** A small database for the examples: the chain
    Tehran province (1) > Rey county (2) > Tehran city (3) >
    District 1 (4), a pharmacy in the district and a pharmacy attached
    to the province itself. *)
Module Sample.
Import Models Serializers.

Definition province := {| loc_name := "Tehran Province"; loc_type := PROVINCE; loc_parent := None |}.
Definition county := {| loc_name := "Rey"; loc_type := COUNTY; loc_parent := Some 1 |}.
Definition city := {| loc_name := "Tehran"; loc_type := CITY; loc_parent := Some 2 |}.
Definition district := {| loc_name := "District 1"; loc_type := DISTRICT; loc_parent := Some 3 |}.

Definition maker := {| man_name := "Bayer"; man_country := "Germany" |}.

Definition aspirin :=
  {| generic_name := "Aspirin"; brand_name := Some "Aspro"; irc := "IRC-1";
     dosage := "500mg"; form := "Tablet"; manufacturer := 1;
     requires_prescription := false |}.

Definition district_pharmacy :=
  {| ph_name := "Central"; license_number := "L-1"; is_24_hours := true;
     location := 4 |}.
Definition province_pharmacy :=
  {| ph_name := "Depot"; license_number := "L-2"; is_24_hours := false;
     location := 1 |}.

Definition db : Tables :=
  {| locations := {[ 1 := province; 2 := county; 3 := city; 4 := district ]};
     manufacturers := {[ 1 := maker ]};
     drugs := {[ 1 := aspirin ]};
     pharmacies := {[ 1 := district_pharmacy; 2 := province_pharmacy ]} |}.

(** An inventory row of aspirin with the given stock at a pharmacy. *)
Definition stock (id ph q : Z) : PharmacyInventory :=
  {| inv_id := id; drug := 1; pharmacy := ph; batch_number := Some "B-7";
     expire_date := 739000; quantity := q; price := Q2Qc (5 # 2) |}.

End Sample.

(** Requests for the examples. *)
Module SampleRequests.
Import Models Http.

Definition post_json (doc : Json.value) : HttpRequest :=
  {| method := "POST"; path := "/api/users/"; query_string := "";
     GET := []; body := Json.dumps doc; body_over_limit := false;
     content_type := "application/json";
     HTTP_X_FORWARDED_FOR := Some "203.0.113.7, 10.0.0.1";
     REMOTE_ADDR := Some "10.0.0.1";
     user := AnonymousUser |}.

(** The document of the specification's example. *)
Definition credentials : Json.value :=
  Json.JObj [("password", Json.JStr "secret123");
             ("contact_number", Json.JStr "0911")].

(** A registration form that repeats the password. *)
Definition registration : Json.value :=
  Json.JObj [("password", Json.JStr "secret123");
             ("password_confirm", Json.JStr "secret123")].

Definition search (query : string) (params : list (string * list string))
  : HttpRequest :=
  {| method := "GET"; path := "/api/inventory/"; query_string := query;
     GET := params; body := ""; body_over_limit := false;
     content_type := "text/plain";
     HTTP_X_FORWARDED_FOR := None; REMOTE_ADDR := Some "198.51.100.4";
     user := AnonymousUser |}.

Definition empty_world : World :=
  {| tables := {| locations := ∅; manufacturers := ∅; drugs := ∅;
                  pharmacies := ∅ |};
     inventory := []; search_logs := []; request_logs := [] |}.

(** The sample tables with two rows of stock: one at the pharmacy in
    the district, one at the pharmacy of the province. *)
Definition stocked_world : World :=
  {| tables := Sample.db;
     inventory := [Sample.stock 1 1 10; Sample.stock 2 2 10];
     search_logs := []; request_logs := [] |}.

End SampleRequests.

(* ===================================================================== *)
(** * The location tree that the validator guards *)
(* ===================================================================== *)

Module Hierarchy.
Import Models Serializers.

(** Every stored location passes [LocationSerializer.validate] as it
    is stored: the state that results when all writes went through the
    validator. *)
Definition stored_valid (db : Tables) : Prop :=
  ∀ k l, locations db !! k = Some l →
    accepted (validate db (Some l) (unrelated_update None)) = true.

(** The four level labels. *)
Definition is_level (t : string) : bool :=
  bool_decide (t = PROVINCE) || bool_decide (t = COUNTY)
  || bool_decide (t = CITY) || bool_decide (t = DISTRICT).

(** The number of parent links between a level and the province. *)
Definition steps_to_province (t : string) : option nat :=
  if decide (t = PROVINCE) then Some 0%nat
  else if decide (t = COUNTY) then Some 1%nat
  else if decide (t = CITY) then Some 2%nat
  else if decide (t = DISTRICT) then Some 3%nat
  else None.

End Hierarchy.

(* ===================================================================== *)
(** * serializers.py: LocationSerializer.get_children *)
(* ===================================================================== *)

Module LocationTree.
Import Models.

(** The representation of a location: its fields and, nested, the
    representations of its children. *)
#[local] Set Warnings "-register-all".
Inductive Representation : Type :=
| Rep (id : Z) (name type : string) (parent : option Z)
      (children : list Representation).
#[local] Set Warnings "register-all".

(** [obj.children.all()]: the rows whose parent is the location, found
    by the reverse lookup. *)
Definition children (db : Tables) (k : Z) : list (Z * Location) :=
  List.filter (λ kl : Z * Location, bool_decide (loc_parent kl.2 = Some k))
    (map_to_list (locations db)).

(** The representation of the location stored under [k].  The
    serializer calls itself on every child; [fuel] bounds the depth of
    these calls, and [None] stands for a recursion that does not end
    within it. *)
Fixpoint to_representation (fuel : nat) (db : Tables) (k : Z) (l : Location)
  : option Representation :=
  match fuel with
  | O => None
  | S fuel' =>
      nested ← mapM (λ kl : Z * Location, to_representation fuel' db kl.1 kl.2)
                 (children db k);
      Some (Rep k (loc_name l) (loc_type l) (loc_parent l) nested)
  end.

(** The number of levels of a representation. *)
Fixpoint height (r : Representation) : nat :=
  match r with
  | Rep _ _ _ _ nested => S (foldr (λ c h, Nat.max (height c) h) 0%nat nested)
  end.

End LocationTree.

(** Filter parameters for the examples. *)
Module SampleParams.
Import Filters.

(** [drug=1.5&pharmacy=1&drug_irc=IRC-1&pharmacy_is_24_hours=true] *)
Definition exact_search : InventoryParams :=
  {| p_drug := Some (Q2Qc (3 # 2)); p_drug_name := None;
     p_drug_brand_name := None; p_drug_form := None; p_drug_irc := Some "IRC-1";
     p_manufacturer_name := None;
     p_pharmacy := Some (Q2Qc 1); p_pharmacy_name := None;
     p_pharmacy_is_24_hours := Some true;
     p_location_district := None; p_location_city := None;
     p_location_county := None; p_location_province := None;
     p_batch_number := None; p_has_stock := None;
     p_expire_date_after := None; p_expire_date_before := None;
     p_price_min := None; p_price_max := None |}.

(** [drug_brand_name=asp&batch_number=b-7] *)
Definition text_search : InventoryParams :=
  {| p_drug := None; p_drug_name := None; p_drug_brand_name := Some "asp";
     p_drug_form := None; p_drug_irc := None; p_manufacturer_name := None;
     p_pharmacy := None; p_pharmacy_name := None;
     p_pharmacy_is_24_hours := None;
     p_location_district := None; p_location_city := None;
     p_location_county := None; p_location_province := None;
     p_batch_number := Some "b-7"; p_has_stock := None;
     p_expire_date_after := None; p_expire_date_before := None;
     p_price_min := None; p_price_max := None |}.

End SampleParams.

(** A table in which a location is stored as its own parent. *)
Module SampleLoop.
Import Models.

Definition loop : Location :=
  {| loc_name := "Loop"; loc_type := Serializers.CITY; loc_parent := Some 9 |}.

Definition db : Tables :=
  {| locations := {[ 9 := loop ]}; manufacturers := ∅; drugs := ∅;
     pharmacies := ∅ |}.

End SampleLoop.

(* ===================================================================== *)
(** * filters.py: the filter sets of locations, manufacturers, drugs
      and users *)
(* ===================================================================== *)

Module FilterSets.
Import Models Filters.

(** [FilterSet.filter_queryset] for any list of declared filters. *)
Definition apply_filters {P A} (declared : list (P → A → bool)) (p : P)
    (queryset : list A) : list A :=
  foldl (λ qs f, List.filter (f p) qs) queryset declared.

Record LocationParams := {
  lp_name : option string;
  lp_type : option string;
  lp_parent : option Qc;
  lp_parent_name : option string;
}.

Record ManufacturerParams := {
  mp_name : option string;
  mp_country : option string;
}.

Record DrugParams := {
  dp_generic_name : option string;
  dp_brand_name : option string;
  dp_manufacturer : option Qc;
  dp_manufacturer_name : option string;
  dp_form : option string;
  dp_irc : option string;
  dp_requires_prescription : option bool;
}.


Section Declared.

Variable fold : string → string.
Variable db : Tables.

(** ** LocationFilter *)

Definition lf_name (p : LocationParams) (l : Location) : bool :=
  CharFilter (Some (loc_name l)) (icontains fold) (lp_name p).
Definition lf_type (p : LocationParams) (l : Location) : bool :=
  CharFilter (Some (loc_type l)) exact (lp_type p).
Definition lf_parent (p : LocationParams) (l : Location) : bool :=
  NumberFilter (loc_parent l) (lp_parent p).
Definition lf_parent_name (p : LocationParams) (l : Location) : bool :=
  CharFilter (loc_name <$> parent_of db l) (icontains fold) (lp_parent_name p).

Definition LocationFilter : list (LocationParams → Location → bool) :=
  [ lf_name; lf_type; lf_parent; lf_parent_name ].

(** ** ManufacturerFilter *)

Definition mf_name (p : ManufacturerParams) (m : Manufacturer) : bool :=
  CharFilter (Some (man_name m)) (icontains fold) (mp_name p).
Definition mf_country (p : ManufacturerParams) (m : Manufacturer) : bool :=
  CharFilter (Some (man_country m)) (icontains fold) (mp_country p).

Definition ManufacturerFilter : list (ManufacturerParams → Manufacturer → bool) :=
  [ mf_name; mf_country ].

(** ** DrugFilter *)

Definition df_generic_name (p : DrugParams) (d : Drug) : bool :=
  CharFilter (Some (generic_name d)) (icontains fold) (dp_generic_name p).
Definition df_brand_name (p : DrugParams) (d : Drug) : bool :=
  CharFilter (brand_name d) (icontains fold) (dp_brand_name p).
Definition df_manufacturer (p : DrugParams) (d : Drug) : bool :=
  NumberFilter (Some (manufacturer d)) (dp_manufacturer p).
Definition df_manufacturer_name (p : DrugParams) (d : Drug) : bool :=
  CharFilter (man_name <$> manufacturers db !! manufacturer d) (icontains fold)
    (dp_manufacturer_name p).
Definition df_form (p : DrugParams) (d : Drug) : bool :=
  CharFilter (Some (form d)) (icontains fold) (dp_form p).
Definition df_irc (p : DrugParams) (d : Drug) : bool :=
  CharFilter (Some (irc d)) exact (dp_irc p).
Definition df_requires_prescription (p : DrugParams) (d : Drug) : bool :=
  BooleanFilter (Some (requires_prescription d)) (dp_requires_prescription p).

Definition DrugFilter : list (DrugParams → Drug → bool) :=
  [ df_generic_name; df_brand_name; df_manufacturer; df_manufacturer_name;
    df_form; df_irc; df_requires_prescription ].

(** ** UserFilter: [role] is an exact match on [role__name]. *)



End Declared.

(** The drug search that asks of the drug what an inventory search
    asks of the drug of a record. *)
Definition drug_search_of (p : InventoryParams) : DrugParams :=
  {| dp_generic_name := p_drug_name p;
     dp_brand_name := p_drug_brand_name p;
     dp_manufacturer := None;
     dp_manufacturer_name := p_manufacturer_name p;
     dp_form := p_drug_form p;
     dp_irc := p_drug_irc p;
     dp_requires_prescription := None |}.

End FilterSets.

(* ===================================================================== *)
(** * The documents that the redaction of the middleware cannot handle *)
(* ===================================================================== *)

Module Redaction.

(** A decoded document that is not a container, an array that has the
    string [password] among its elements, or a string that has it as a
    substring. *)
Definition breaks_redaction (payload : Json.value) : bool :=
  match payload with
  | Json.JObj _ => false
  | Json.JArr items =>
      existsb (λ x, match x with
                    | Json.JStr s => String.eqb s "password"
                    | _ => false
                    end) items
  | Json.JStr s => Py.contains "password" s
  | Json.JNull | Json.JBool _ | Json.JInt _ | Json.JFloat _ => true
  end.

End Redaction.


(* ===================================================================== *)
(** * The location chain of a record and case-insensitive containment,
      as the inventory search is specified *)
(* ===================================================================== *)

(** The chain is read off the tables directly, by their keys, and not
    through the field paths of the filter set. *)
Module Ancestry.
Import Models.

(** [parent] is the stored location that [child] names as its parent. *)
Definition parent_link (db : Tables) (child parent : Location) : Prop :=
  ∃ k, loc_parent child = Some k ∧ locations db !! k = Some parent.

(** [node] is [depth] parent links above [l]. *)
Fixpoint at_depth (db : Tables) (depth : nat) (l node : Location) : Prop :=
  match depth with
  | O => node = l
  | S d => ∃ parent, parent_link db l parent ∧ at_depth db d parent node
  end.

(** [node] is at [depth] in the location chain of the pharmacy of the
    record [r]: depth 0 is the location of the pharmacy itself. *)
Definition record_node (db : Tables) (depth : nat) (r : PharmacyInventory)
    (node : Location) : Prop :=
  ∃ ph l,
    pharmacies db !! pharmacy r = Some ph
    ∧ locations db !! location ph = Some l
    ∧ at_depth db depth l node.

End Ancestry.

Module CaseFolding.

(** The same letter: the same character, or an ASCII capital and its
    small letter. *)
Definition same_letter (c d : ascii) : Prop :=
  let m := N_of_ascii c in
  let n := N_of_ascii d in
  (m = n ∨ (65 ≤ m ≤ 90 ∧ n = m + 32) ∨ (65 ≤ n ≤ 90 ∧ m = n + 32))%N.

(** Texts that differ in the case of letters only. *)
Fixpoint same_text (s t : string) : Prop :=
  match s, t with
  | EmptyString, EmptyString => True
  | String c s', String d t' => same_letter c d ∧ same_text s' t'
  | _, _ => False
  end.

(** [hay] contains [needle] when case is ignored. *)
Definition contains_ignoring_case (needle hay : string) : Prop :=
  ∃ pre mid post, hay = pre +:+ mid +:+ post ∧ same_text mid needle.

Fixpoint bytewise (f : ascii → ascii) (s : string) : string :=
  match s with
  | EmptyString => EmptyString
  | String c rest => String (f c) (bytewise f rest)
  end.

(** A folding under which a match is case-insensitive, as that of a
    database whose [LIKE] ignores the case of the ASCII letters: it
    works character by character and gives two characters the same
    image exactly when they are the same letter. *)
Definition case_insensitive (fold : string → string) : Prop :=
  ∃ f : ascii → ascii,
    (∀ s, fold s = bytewise f s) ∧ (∀ c d, f c = f d ↔ same_letter c d).

End CaseFolding.

(** The client address of a request, as the recorders are specified:
    the first comma-separated token of the forwarded-for header when
    the header has a value, and the address of the connection when it
    has none. *)
Module Addresses.
Import Http.

(** [token] is the first comma-separated token of [header]: it has no
    comma, and it is the whole header or is followed by a comma. *)
Definition first_token (header token : string) : Prop :=
  (header = token ∨ ∃ rest, header = token +:+ "," +:+ rest)
  ∧ ∀ pre post, token ≠ pre +:+ "," +:+ post.

Definition resolved (request : HttpRequest) (address : option string) : Prop :=
  match HTTP_X_FORWARDED_FOR request with
  | Some header =>
      if decide (header = "") then address = REMOTE_ADDR request
      else ∃ token, address = Some token ∧ first_token header token
  | None => address = REMOTE_ADDR request
  end.

End Addresses.

(** The integer part of a decimal number, as arithmetic has it. *)
Module Decimals.

(** [z] is [d] rounded towards zero. *)
Definition is_integer_part (d : Qc) (z : Z) : Prop :=
  let q : Q := d in
  ((0 <= q)%Q → (inject_Z z <= q)%Q ∧ (q < inject_Z (z + 1))%Q)
  ∧ ((q <= 0)%Q → (inject_Z (z - 1) < q)%Q ∧ (q <= inject_Z z)%Q).

End Decimals.
(* ===================================================================== *)
(** * Facts about the built-ins *)
(* ===================================================================== *)

Lemma prefix_app (p s : string) : String.prefix p (p +:+ s) = true.
Proof.
  induction p as [|c p IH]; simpl.
  - by destruct s.
  - destruct (ascii_dec c c); [exact IH | congruence].
Qed.

Lemma prefix_inv (p s : string) :
  String.prefix p s = true → ∃ t, s = p +:+ t.
Proof.
  revert s. induction p as [|c p IH]; intros s H.
  - by exists s.
  - destruct s as [|d s]; simpl in H; [done |].
    destruct (ascii_dec c d) as [->|]; [| done].
    destruct (IH s H) as [t ->]. by exists t.
Qed.

Lemma contains_prefix (needle hay : string) :
  String.prefix needle hay = true → Py.contains needle hay = true.
Proof. intros H. destruct hay; cbn [Py.contains]; by rewrite H. Qed.

Lemma contains_app (pre needle post : string) :
  Py.contains needle (pre +:+ needle +:+ post) = true.
Proof.
  induction pre as [|c pre IH].
  - apply contains_prefix, (prefix_app needle post).
  - change (String c pre +:+ needle +:+ post)
      with (String c (pre +:+ needle +:+ post)).
    cbn [Py.contains]. rewrite IH. apply orb_true_r.
Qed.

Lemma contains_inv (needle hay : string) :
  Py.contains needle hay = true → ∃ pre post, hay = pre +:+ needle +:+ post.
Proof.
  induction hay as [|c hay IH]; cbn [Py.contains]; intros H.
  - rewrite orb_false_r in H. apply prefix_inv in H as [t ->]. by exists "", t.
  - apply orb_true_iff in H as [H|H].
    + apply prefix_inv in H as [t ->]. by exists "", t.
    + destruct (IH H) as (pre & post & ->). by exists (String c pre), post.
Qed.

Lemma str_app_assoc (a b c : string) : (a +:+ b) +:+ c = a +:+ b +:+ c.
Proof.
  induction a as [|x a IH]; [done |].
  change (String x ((a +:+ b) +:+ c) = String x (a +:+ b +:+ c)).
  by rewrite IH.
Qed.

Lemma contains_empty (hay : string) : Py.contains "" hay = true.
Proof. by destruct hay. Qed.

Lemma contains_skip (needle pre hay : string) :
  Py.contains needle hay = true → Py.contains needle (pre +:+ hay) = true.
Proof.
  intros H. induction pre as [|c pre IH]; [exact H |].
  change (String c pre +:+ hay) with (String c (pre +:+ hay)).
  cbn [Py.contains]. rewrite IH. apply orb_true_r.
Qed.

Lemma split_first_prefix (sep : ascii) (s : string) :
  String.prefix (Py.split_first sep s) s = true.
Proof.
  induction s as [|c s IH]; cbn; [done |].
  destruct (Ascii.eqb c sep); cbn; [done |].
  destruct (ascii_dec c c); [exact IH | done].
Qed.

Lemma split_first_no_separator (sep : ascii) (s : string) :
  Py.contains (String sep EmptyString) (Py.split_first sep s) = false.
Proof.
  induction s as [|c s IH]; cbn; [done |].
  destruct (Ascii.eqb_spec c sep) as [->|Hne]; cbn; [done |].
  destruct (ascii_dec sep c) as [->|_]; [done |]. exact IH.
Qed.

Lemma split_first_whole (sep : ascii) (s : string) :
  Py.contains (String sep EmptyString) s = false → Py.split_first sep s = s.
Proof.
  induction s as [|c s IH]; cbn; [done |].
  destruct (ascii_dec sep c) as [->|Hne].
  - by destruct s.
  - cbn. intros Hs. destruct (Ascii.eqb_spec c sep) as [->|_]; [done |].
    by rewrite IH.
Qed.

Lemma no_separator_iff (sep : ascii) (t : string) :
  (∀ pre post, t ≠ pre +:+ String sep EmptyString +:+ post)
  ↔ Py.contains (String sep EmptyString) t = false.
Proof.
  split.
  - intros H. apply not_true_is_false. intros (pre & post & ->)%contains_inv.
    by apply (H pre post).
  - intros H pre post ->. by rewrite contains_app in H.
Qed.

Lemma split_first_app (sep : ascii) (t rest : string) :
  Py.contains (String sep EmptyString) t = false →
  Py.split_first sep (t +:+ String sep EmptyString +:+ rest) = t.
Proof.
  induction t as [|c t IH].
  - intros _.
    change (Py.split_first sep (String sep rest) = "").
    cbn [Py.split_first]. by rewrite Ascii.eqb_refl.
  - cbn [Py.contains]. intros H. apply orb_false_iff in H as [Hc Ht].
    change (String c t +:+ String sep EmptyString +:+ rest)
      with (String c (t +:+ String sep EmptyString +:+ rest)).
    cbn [Py.split_first].
    destruct (Ascii.eqb_spec c sep) as [->|Hne].
    + cbn in Hc. by destruct (ascii_dec sep sep), t.
    + by rewrite IH.
Qed.

(** The text before the first separator is followed by the end of the
    text or by a separator. *)
Lemma split_first_rest (sep : ascii) (s : string) :
  s = Py.split_first sep s
  ∨ ∃ rest, s = Py.split_first sep s +:+ String sep EmptyString +:+ rest.
Proof.
  induction s as [|c s IH]; [by left |]. cbn [Py.split_first].
  destruct (Ascii.eqb_spec c sep) as [->|Hne].
  - right. by exists s.
  - destruct IH as [IH|[rest IH]].
    + left. by rewrite <- IH.
    + right. exists rest.
      change (String c s
              = String c (Py.split_first sep s +:+ String sep EmptyString +:+ rest)).
      by rewrite <- IH.
Qed.

(** Finds a piece of a concatenation of strings. *)
Ltac find_piece :=
  first [ apply contains_prefix, prefix_app
        | apply contains_skip; find_piece ].

(* ===================================================================== *)
(** * Location hierarchy validator *)
(* ===================================================================== *)

Section LocationValidator.
Import Models Serializers.

Variable db : Tables.

(** The dictionary of the source is the predecessor table. *)
Lemma hierarchy_table (t : string) : hierarchy !! t = required_parent t.
Proof.
  unfold hierarchy, required_parent, DISTRICT, CITY, COUNTY, PROVINCE.
  rewrite !lookup_insert, lookup_singleton.
  repeat case_decide; congruence.
Qed.

Lemma hierarchy_get (t : option string) :
  (x ← t; hierarchy !! x) = t ≫= required_parent.
Proof. destruct t as [t|]; [apply hierarchy_table | done]. Qed.

Lemma province_has_no_predecessor : required_parent PROVINCE = None.
Proof. reflexivity. Qed.

(** The validator decides by the hierarchy rule on the resulting pair. *)
Lemma validate_accepted (instance : option Location) (data : LocationData) :
  accepted (validate db instance data)
  = hierarchy_ok (final_type instance data) (final_parent db instance data).
Proof.
  unfold validate, hierarchy_ok, PROVINCE.
  destruct (decide (final_type instance data = Some "استان")) as [Ht|Ht].
  - destruct (final_parent db instance data); done.
  - destruct (final_parent db instance data) as [p|]; [| done].
    rewrite hierarchy_get.
    destruct (decide (Some (loc_type p) = final_type instance data ≫= required_parent))
      as [Heq|Hne].
    + symmetry. by apply bool_decide_eq_true.
    + symmetry. apply bool_decide_eq_false. congruence.
Qed.

Lemma validate_rejects_on_parent (instance : option Location) (data : LocationData) :
  accepted (validate db instance data) = false →
  ∃ msg, validate db instance data = ValidationError [("parent", msg)].
Proof.
  unfold validate.
  repeat (case_decide || case_match); cbn; intros; try done; eauto.
Qed.

(** The resulting type of a write: the request's when it carries one,
    the stored one when not. *)
Lemma final_type_eq (instance : option Location) (data : LocationData) :
  final_type instance data
  = match d_type data with
    | Some ty => Some ty
    | None => match instance with
              | Some stored => Some (loc_type stored)
              | None => None
              end
    end.
Proof. unfold final_type. by destruct (d_type data), instance. Qed.

(** The resulting parent of a write: the request's (which may be null)
    when it carries the field, the stored location's when not. *)
Lemma final_parent_eq (instance : option Location) (data : LocationData) :
  final_parent db instance data
  = match d_parent data with
    | Some parent => parent
    | None => match instance with
              | Some stored =>
                  match loc_parent stored with
                  | Some k => locations db !! k
                  | None => None
                  end
              | None => None
              end
    end.
Proof.
  unfold final_parent, parent_of.
  destruct (d_parent data); [done |].
  destruct instance as [stored|]; [| done]. cbn.
  by destruct (loc_parent stored).
Qed.

(** C1: the validator follows the hierarchy rules on the resulting
    (type, parent) pair of a write, which is read off the request and
    the stored location here: each of the two is the request's field
    when the request carries it (a parent may be carried as null) and
    the stored value when not; on a create nothing is stored.  A
    province is accepted exactly when it has no parent; any other type
    is rejected without a parent; with a parent it is accepted exactly
    when the parent's type is the predecessor that the table
    District: City, City: County, County: Province gives.  Every
    rejection is a validation error on the single field [parent], and
    on a parent-type mismatch the message names, in this order, the
    location's type, the expected parent type (the word None for a type
    that the table does not have) and the type of the parent given. *)
Theorem validate_hierarchy_rules (instance : option Location) (data : LocationData) :
  let t := match d_type data with
           | Some ty => Some ty
           | None => match instance with
                     | Some stored => Some (loc_type stored)
                     | None => None
                     end
           end in
  let p := match d_parent data with
           | Some parent => parent
           | None => match instance with
                     | Some stored =>
                         match loc_parent stored with
                         | Some k => locations db !! k
                         | None => None
                         end
                     | None => None
                     end
           end in
  let r := validate db instance data in
  (t = Some PROVINCE → (accepted r = true ↔ p = None))
  ∧ (t ≠ Some PROVINCE → p = None → accepted r = false)
  ∧ (∀ par, t ≠ Some PROVINCE → p = Some par →
       (accepted r = true ↔ t ≫= required_parent = Some (loc_type par)))
  ∧ (accepted r = false → ∃ msg, r = ValidationError [("parent", msg)])
  ∧ (∀ ty par, t = Some ty → ty ≠ PROVINCE → p = Some par →
       required_parent ty ≠ Some (loc_type par) →
       let expected := match required_parent ty with
                       | Some u => u
                       | None => "None"
                       end in
       ∃ a b c d,
         r = ValidationError
               [("parent",
                 a +:+ ty +:+ b +:+ expected +:+ c +:+ loc_type par +:+ d)]).
Proof.
  intros t p r.
  assert (Et : final_type instance data = t) by apply final_type_eq.
  assert (Ep : final_parent db instance data = p) by apply final_parent_eq.
  assert (Hacc : accepted r = hierarchy_ok t p).
  { subst r. by rewrite validate_accepted, Et, Ep. }
  split; [| split; [| split; [| split]]].
  - intros Ht. rewrite Hacc. unfold hierarchy_ok.
    rewrite decide_True by done. apply bool_decide_eq_true.
  - intros Ht Hp. rewrite Hacc. unfold hierarchy_ok.
    rewrite decide_False by done. by rewrite Hp.
  - intros par Ht Hp. rewrite Hacc. unfold hierarchy_ok.
    rewrite decide_False, Hp by done. apply bool_decide_eq_true.
  - apply validate_rejects_on_parent.
  - intros ty par Ht Hty Hp Hreq expected. subst r. unfold validate.
    rewrite Et, Ep, Ht, Hp.
    rewrite decide_False by (unfold PROVINCE in Hty; congruence).
    rewrite hierarchy_get. cbn [mbind option_bind].
    rewrite decide_False by congruence.
    subst expected. unfold Py.str.
    destruct (required_parent ty); eexists _, _, _, _; reflexivity.
Qed.

(** C7: on an update the decision is a function of the resulting
    (type, parent) pair.  A field that the request carries is the one
    used (a parent also when it is carried as null), a field that it
    does not carry takes the stored value of the existing location, and
    the update is accepted exactly when the pair that results satisfies
    the hierarchy rule; so an update that carries neither field is
    accepted exactly when the stored pair satisfies it. *)
Theorem validate_update_resulting_pair (instance : Location) (data : LocationData) :
  (d_type data = None → final_type (Some instance) data = Some (loc_type instance))
  ∧ (d_parent data = None →
       final_parent db (Some instance) data = parent_of db instance)
  ∧ (∀ instance' data',
       final_type (Some instance) data = final_type instance' data' →
       final_parent db (Some instance) data = final_parent db instance' data' →
       verdict (validate db (Some instance) data)
       = verdict (validate db instance' data'))
  ∧ accepted (validate db (Some instance) data)
    = hierarchy_ok (final_type (Some instance) data)
        (final_parent db (Some instance) data)
  ∧ (∀ name,
       accepted (validate db (Some instance) (unrelated_update name))
       = hierarchy_ok (Some (loc_type instance)) (parent_of db instance))
  ∧ (∀ ty, d_type data = Some ty → final_type (Some instance) data = Some ty)
  ∧ (∀ parent, d_parent data = Some parent →
       final_parent db (Some instance) data = parent)
  ∧ parent_of db instance
    = match loc_parent instance with
      | Some k => locations db !! k
      | None => None
      end
  ∧ accepted (validate db (Some instance) data)
    = hierarchy_ok
        (Some (match d_type data with
               | Some ty => ty
               | None => loc_type instance
               end))
        (match d_parent data with
         | Some parent => parent
         | None => match loc_parent instance with
                   | Some k => locations db !! k
                   | None => None
                   end
         end).
Proof.
  split; [| split; [| split; [| split; [| split; [| split; [| split; [| split]]]]]]].
  - intros H. unfold final_type. by rewrite H.
  - intros H. unfold final_parent. by rewrite H.
  - intros instance' data' Ht Hp. unfold validate. rewrite <- Ht, <- Hp.
    repeat (case_decide || case_match); done.
  - apply validate_accepted.
  - intros name. by rewrite validate_accepted.
  - intros ty H. unfold final_type. by rewrite H.
  - intros parent H. unfold final_parent. by rewrite H.
  - unfold parent_of. by destruct (loc_parent instance).
  - rewrite validate_accepted, final_type_eq, final_parent_eq.
    by destruct (d_type data).
Qed.

End LocationValidator.

(** Creating a city under a district is rejected, and the message names
    the city level and the county level that its parent should have;
    creating a district without a parent is rejected; creating a
    province with a parent is rejected. *)
Example city_under_district_rejected :
  let data := {| Serializers.d_name := Some "Karaj";
                 Serializers.d_type := Some Serializers.CITY;
                 Serializers.d_parent := Some (Some Sample.district) |} in
  ∃ msg,
    Serializers.validate Sample.db None data
    = Serializers.ValidationError [("parent", msg)]
    ∧ Py.contains Serializers.CITY msg = true
    ∧ Py.contains Serializers.COUNTY msg = true.
Proof. eexists. vm_compute. done. Qed.

Example district_without_parent_rejected :
  Serializers.accepted
    (Serializers.validate Sample.db None
       {| Serializers.d_name := Some "District 2";
          Serializers.d_type := Some Serializers.DISTRICT;
          Serializers.d_parent := Some None |}) = false.
Proof. reflexivity. Qed.

Example province_with_parent_rejected :
  Serializers.accepted
    (Serializers.validate Sample.db None
       {| Serializers.d_name := Some "Alborz";
          Serializers.d_type := Some Serializers.PROVINCE;
          Serializers.d_parent := Some (Some Sample.province) |}) = false.
Proof. reflexivity. Qed.

(** Renaming the sample district keeps it valid: its stored type and
    parent are checked again. *)
Example rename_keeps_valid :
  Serializers.accepted
    (Serializers.validate Sample.db (Some Sample.district)
       (Serializers.unrelated_update (Some "Old Town"))) = true.
Proof. reflexivity. Qed.

(** An update that carries a type and a parent is decided on what it
    carries: the sample district, which is stored under the city, is
    refused as a county under that city and accepted as a county under
    the province. *)
Example update_uses_request_fields :
  Serializers.accepted
    (Serializers.validate Sample.db (Some Sample.district)
       {| Serializers.d_name := None;
          Serializers.d_type := Some Serializers.COUNTY;
          Serializers.d_parent := None |}) = false
  ∧ Serializers.accepted
      (Serializers.validate Sample.db (Some Sample.district)
         {| Serializers.d_name := None;
            Serializers.d_type := Some Serializers.COUNTY;
            Serializers.d_parent := Some (Some Sample.province) |}) = true
  ∧ Serializers.accepted
      (Serializers.validate Sample.db (Some Sample.district)
         {| Serializers.d_name := None;
            Serializers.d_type := None;
            Serializers.d_parent := Some None |}) = false.
Proof. by vm_compute. Qed.
(* ===================================================================== *)
(** * Inventory filters *)
(* ===================================================================== *)

Section InventoryFilters.
Import Models Filters.

Variable fold : string → string.
Variable db : Tables.

Lemma filter_filter {A} (f g : A → bool) (l : list A) :
  List.filter g (List.filter f l) = List.filter (λ x, f x && g x) l.
Proof.
  induction l as [|x l IH]; [done |]. cbn.
  destruct (f x) eqn:Hf; cbn; [| exact IH].
  destruct (g x); by rewrite IH.
Qed.

Lemma foldl_filter {A B} (fs : list (B → A → bool)) (p : B) (keep : A → bool)
    (l : list A) :
  foldl (λ qs f, List.filter (f p) qs) (List.filter keep l) fs
  = List.filter (λ x, keep x && forallb (λ f, f p x) fs) l.
Proof.
  revert keep. induction fs as [|f fs IH]; intros keep; cbn.
  - apply List.filter_ext. intros x. by rewrite andb_true_r.
  - rewrite filter_filter, IH. apply List.filter_ext. intros x.
    by rewrite andb_assoc.
Qed.

Lemma filter_true {A} (l : list A) : List.filter (λ _, true) l = l.
Proof. induction l as [|x l IH]; [done |]. cbn. by rewrite IH. Qed.

(** The query set that the filter set returns: the rows that pass every
    declared filter, in the order and with the multiplicity of the
    input. *)
Lemma filter_queryset_eq (p : InventoryParams) (qs : list PharmacyInventory) :
  filter_queryset fold db p qs
  = List.filter (λ r, forallb (λ f, f p r) (declared_filters fold db)) qs.
Proof.
  unfold filter_queryset. rewrite <- (filter_true qs) at 1.
  by rewrite foldl_filter.
Qed.

Lemma elem_of_filter_queryset (p : InventoryParams) qs (r : PharmacyInventory) :
  r ∈ filter_queryset fold db p qs
  ↔ r ∈ qs ∧ forallb (λ f, f p r) (declared_filters fold db) = true.
Proof.
  rewrite filter_queryset_eq, !list_elem_of_In. apply List.filter_In.
Qed.

(** The field paths of the four ancestor filters reach the node at
    depth 0, 1, 2 and 3 of the location chain. *)
Lemma path_depth_0 r : pharmacy__location db r = chain_node db 0 r.
Proof. unfold chain_node. by destruct (pharmacy__location db r). Qed.

Lemma path_depth_1 r : pharmacy__location__parent db r = chain_node db 1 r.
Proof.
  unfold pharmacy__location__parent, chain_node.
  destruct (pharmacy__location db r) as [l|]; [| done]. cbn.
  by destruct (parent_of db l).
Qed.

Lemma path_depth_2 r :
  pharmacy__location__parent__parent db r = chain_node db 2 r.
Proof.
  unfold pharmacy__location__parent__parent, pharmacy__location__parent,
    chain_node.
  destruct (pharmacy__location db r) as [l|]; [| done]. cbn.
  destruct (parent_of db l) as [l1|]; [| done]. cbn.
  by destruct (parent_of db l1).
Qed.

Lemma path_depth_3 r :
  pharmacy__location__parent__parent__parent db r = chain_node db 3 r.
Proof.
  unfold pharmacy__location__parent__parent__parent,
    pharmacy__location__parent__parent, pharmacy__location__parent, chain_node.
  destruct (pharmacy__location db r) as [l|]; [| done]. cbn.
  destruct (parent_of db l) as [l1|]; [| done]. cbn.
  destruct (parent_of db l1) as [l2|]; [| done]. cbn.
  by destruct (parent_of db l2).
Qed.

(** An ancestor filter with a value acts on the name of the node at
    its own depth. *)
Lemma ancestor_filter_eq (a : Ancestor) (p : InventoryParams) (s : string) r :
  supplied (ancestor_param a p) s →
  ancestor_filter fold db a p r
  = icontains fold (loc_name <$> chain_node db (depth a) r) s.
Proof.
  intros [Hp Hs]. apply String.eqb_neq in Hs.
  destruct a; cbn in Hp |- *;
    unfold f_location_district, f_location_city, f_location_county,
      f_location_province, CharFilter,
      pharmacy__location__name, pharmacy__location__parent__name,
      pharmacy__location__parent__parent__name,
      pharmacy__location__parent__parent__parent__name;
    rewrite Hp, decide_False by done.
  - by rewrite path_depth_0.
  - by rewrite path_depth_1.
  - by rewrite path_depth_2.
  - by rewrite path_depth_3.
Qed.

Lemma icontains_name (o : option Location) (s : string) :
  icontains fold (loc_name <$> o) s = true
  ↔ ∃ node, o = Some node
      ∧ Py.contains (fold s) (fold (loc_name node)) = true.
Proof.
  destruct o as [l|]; cbn.
  - split; [eauto | by intros (? & [= <-] & ?)].
  - split; [done | by intros (? & ? & ?)].
Qed.

Lemma declared_ancestor (a : Ancestor) :
  ancestor_filter fold db a ∈ declared_filters fold db.
Proof.
  rewrite list_elem_of_In. destruct a; cbn; tauto.
Qed.

Lemma passes_declared (p : InventoryParams) qs r f :
  r ∈ filter_queryset fold db p qs → f ∈ declared_filters fold db →
  f p r = true.
Proof.
  intros [_ Hall]%elem_of_filter_queryset Hf.
  rewrite forallb_forall in Hall. apply Hall. by apply list_elem_of_In.
Qed.

Lemma only_ancestor_supplied (a : Ancestor) (s : string) :
  String.eqb s "" = false → supplied (ancestor_param a (only_ancestor a s)) s.
Proof. intros Hs. by destruct a. Qed.

Lemma only_ancestor_passes (a : Ancestor) (s : string) r :
  forallb (λ f, f (only_ancestor a s) r) (declared_filters fold db)
  = ancestor_filter fold db a (only_ancestor a s) r.
Proof.
  destruct a; cbn; apply andb_true_r.
Qed.

End InventoryFilters.

(** ** Case-insensitive containment *)

Section CaseInsensitive.
Import CaseFolding.

Lemma bytewise_app (f : ascii → ascii) (a b : string) :
  bytewise f (a +:+ b) = bytewise f a +:+ bytewise f b.
Proof.
  induction a as [|c a IH]; [done |].
  change (String (f c) (bytewise f (a +:+ b))
          = String (f c) (bytewise f a +:+ bytewise f b)).
  by rewrite IH.
Qed.

Lemma bytewise_split (f : ascii → ascii) (x a b : string) :
  bytewise f x = a +:+ b →
  ∃ x1 x2, x = x1 +:+ x2 ∧ bytewise f x1 = a ∧ bytewise f x2 = b.
Proof.
  revert x. induction a as [|c a IH]; intros x H.
  - by exists "", x.
  - destruct x as [|d x]; [done |].
    change (String (f d) (bytewise f x) = String c (a +:+ b)) in H.
    injection H as Hc Hrest.
    destruct (IH x Hrest) as (x1 & x2 & -> & H1 & H2).
    exists (String d x1), x2. cbn [bytewise]. by rewrite Hc, H1, H2.
Qed.

Lemma bytewise_same (f : ascii → ascii) (s t : string) :
  (∀ c d, f c = f d ↔ same_letter c d) →
  bytewise f s = bytewise f t ↔ same_text s t.
Proof.
  intros Hf. revert t. induction s as [|c s IH]; intros [|d t]; cbn; try done.
  rewrite <- IH, <- Hf. split; [by intros [= -> ->] | by intros [-> ->]].
Qed.

(** Under a case-insensitive folding, the folded value is found in the
    folded text exactly when the text has, somewhere, the value up to
    the case of its letters. *)
Lemma contains_fold (fold : string → string) (needle hay : string) :
  case_insensitive fold →
  Py.contains (fold needle) (fold hay) = true
  ↔ contains_ignoring_case needle hay.
Proof.
  intros (f & Hfold & Hf). rewrite !Hfold. split.
  - intros (pre & post & H)%contains_inv.
    apply bytewise_split in H as (x1 & x2 & -> & _ & H).
    apply bytewise_split in H as (mid & x3 & -> & Hmid & _).
    exists x1, mid, x3. split; [done |]. by apply (bytewise_same f).
  - intros (pre & mid & post & -> & Hsame).
    rewrite !bytewise_app. apply (bytewise_same f) in Hsame; [| done].
    rewrite Hsame. apply contains_app.
Qed.

Lemma N_of_ascii_inj (c d : ascii) : N_of_ascii c = N_of_ascii d → c = d.
Proof.
  intros H. rewrite <- (ascii_N_embedding c), <- (ascii_N_embedding d).
  by rewrite H.
Qed.

Lemma ascii_lower_same (c d : ascii) :
  Py.ascii_lower c = Py.ascii_lower d ↔ same_letter c d.
Proof.
  unfold Py.ascii_lower, same_letter. cbv zeta.
  pose proof (N_ascii_bounded c) as Hc. pose proof (N_ascii_bounded d) as Hd.
  destruct (N.leb_spec 65 (N_of_ascii c)), (N.leb_spec (N_of_ascii c) 90),
    (N.leb_spec 65 (N_of_ascii d)), (N.leb_spec (N_of_ascii d) 90);
    cbn [andb];
    (split;
     [ intros Heq; apply (f_equal N_of_ascii) in Heq;
       rewrite ?N_ascii_embedding in Heq by lia; lia
     | intros Heq; apply N_of_ascii_inj;
       rewrite ?N_ascii_embedding by lia; lia ]).
Qed.

(** Lower-casing the ASCII letters is such a folding. *)
Lemma lower_case_insensitive : case_insensitive Py.lower.
Proof.
  exists Py.ascii_lower. split; [| apply ascii_lower_same].
  intros s. induction s as [|c s IH]; [done |]. cbn. by rewrite IH.
Qed.

End CaseInsensitive.

Section Chains.
Import Models Filters Ancestry.

(** The chain that the field paths walk is the chain of the tables. *)
Lemma ancestor_at_depth (db : Tables) (k : nat) (l node : Location) :
  ancestor_at db k l = Some node ↔ at_depth db k l node.
Proof.
  revert l. induction k as [|k IH]; intros l; cbn.
  - split; [by intros [= ->] | by intros ->].
  - unfold parent_of, parent_link. split.
    + destruct (loc_parent l) as [key|] eqn:Hkey; [| done]. cbn.
      destruct (locations db !! key) as [parent|] eqn:Hparent; [| done]. cbn.
      intros H. exists parent. split; [by exists key | by apply IH].
    + intros (parent & (key & Hkey & Hparent) & H).
      rewrite Hkey. cbn. rewrite Hparent. cbn. by apply IH.
Qed.

Lemma chain_record_node (db : Tables) (k : nat) (r : PharmacyInventory)
    (node : Location) :
  chain_node db k r = Some node ↔ record_node db k r node.
Proof.
  unfold chain_node, pharmacy__location, pharmacy_, record_node. split.
  - destruct (pharmacies db !! pharmacy r) as [ph|] eqn:Hph; [| done]. cbn.
    destruct (locations db !! location ph) as [l|] eqn:Hl; [| done]. cbn.
    intros H. exists ph, l. split; [done |]. split; [done |].
    by apply ancestor_at_depth.
  - intros (ph & l & Hph & Hl & H).
    rewrite Hph. cbn. rewrite Hl. cbn. by apply ancestor_at_depth.
Qed.

End Chains.

Section InventorySearch.
Import Models Filters Ancestry CaseFolding.

Variable fold : string → string.
Variable db : Tables.

(** C2: an ancestor filter with a value matches a record exactly when
    the location chain of the record's pharmacy has a node at the
    filter's depth (district 0, city 1, county 2, province 3) whose
    name contains the value when the case of letters is ignored.  The
    chain is the one the tables hold: the pharmacy of the record, its
    location, and from there parent by parent.  A record whose chain
    has no node at that depth is not matched and is left out of the
    result, and whatever else the chain holds, the filter decides by
    the names at that depth alone.  The database's folding is taken to
    be case-insensitive. *)
Theorem ancestor_filter_exact_depth (a : Ancestor) (p : InventoryParams)
    (s : string) (qs : list PharmacyInventory) (r : PharmacyInventory) :
  case_insensitive fold →
  supplied (ancestor_param a p) s →
  let matches :=
    ∃ node, record_node db (depth a) r node
      ∧ contains_ignoring_case s (loc_name node) in
  (ancestor_filter fold db a p r = true ↔ matches)
  ∧ (r ∈ filter_queryset fold db p qs → matches)
  ∧ ((∀ node, ¬ record_node db (depth a) r node) →
       ancestor_filter fold db a p r = false
       ∧ r ∉ filter_queryset fold db p qs)
  ∧ (r ∈ filter_queryset fold db (only_ancestor a s) qs ↔ r ∈ qs ∧ matches)
  ∧ (∀ db' r',
       (∀ name,
          (∃ node, record_node db' (depth a) r' node ∧ loc_name node = name)
          ↔ (∃ node, record_node db (depth a) r node ∧ loc_name node = name)) →
       ancestor_filter fold db' a p r' = ancestor_filter fold db a p r).
Proof.
  intros Hfold Hp matches.
  assert (Hany : ∀ db0 r0,
    ancestor_filter fold db0 a p r0 = true
    ↔ ∃ node, chain_node db0 (depth a) r0 = Some node
        ∧ contains_ignoring_case s (loc_name node)).
  { intros db0 r0. rewrite (ancestor_filter_eq fold db0 a p s r0 Hp).
    rewrite icontains_name. by setoid_rewrite (contains_fold fold s _ Hfold). }
  assert (Hiff : ancestor_filter fold db a p r = true ↔ matches).
  { rewrite Hany. subst matches. by setoid_rewrite chain_record_node. }
  split; [exact Hiff |]. split; [| split; [| split]].
  - intros Hr. apply Hiff.
    exact (passes_declared fold db p qs r _ Hr (declared_ancestor fold db a)).
  - intros Hnone.
    assert (Hf : ancestor_filter fold db a p r = false).
    { apply not_true_is_false. intros (node & Hnode & _)%Hiff.
      exact (Hnone node Hnode). }
    split; [exact Hf |]. intros Hr.
    pose proof (passes_declared fold db p qs r _ Hr (declared_ancestor fold db a))
      as Ht.
    congruence.
  - rewrite elem_of_filter_queryset, only_ancestor_passes.
    destruct Hp as [_ Hs].
    rewrite (ancestor_filter_eq fold db a _ s r (only_ancestor_supplied a s Hs)).
    rewrite icontains_name. setoid_rewrite (contains_fold fold s _ Hfold).
    subst matches. by setoid_rewrite chain_record_node.
  - intros db' r' Hnames.
    apply eq_true_iff_eq. rewrite Hiff, Hany. subst matches. split.
    + intros (node' & Hnode' & Hc).
      destruct (proj1 (Hnames (loc_name node'))) as (node & Hnode & Hname).
      { exists node'. split; [by apply chain_record_node | done]. }
      exists node. split; [done |]. by rewrite Hname.
    + intros (node & Hnode & Hc).
      destruct (proj2 (Hnames (loc_name node))) as (node' & Hnode' & Hname).
      { by exists node. }
      exists node'. split; [by apply chain_record_node |]. by rewrite Hname.
Qed.

(** With [has_stock] absent the quantity is not constrained. *)
Lemma has_stock_absent (p : InventoryParams) r :
  p_has_stock p = None → f_has_stock p r = true.
Proof. unfold f_has_stock. by intros ->. Qed.

(** With a value the quantity is compared with that Boolean. *)
Lemma has_stock_compares_with_bool (p : InventoryParams) (b : bool) r :
  p_has_stock p = Some b →
  f_has_stock p r = bool_decide (Py.int_of_bool b < quantity r).
Proof. unfold f_has_stock. by intros ->. Qed.

Lemma declared_has_stock : f_has_stock ∈ declared_filters fold db.
Proof. rewrite list_elem_of_In. cbn. tauto. Qed.

(** With [has_stock=true] every returned record has a quantity above
    zero; a returned record has in fact a quantity above one. *)
Lemma has_stock_true_returned (p : InventoryParams) qs r :
  p_has_stock p = Some true → r ∈ filter_queryset fold db p qs →
  1 < quantity r.
Proof.
  intros Hp Hr.
  pose proof (passes_declared fold db p qs r _ Hr declared_has_stock) as Hf.
  rewrite (has_stock_compares_with_bool p true r Hp) in Hf.
  by apply bool_decide_eq_true in Hf.
Qed.

(** C9: with either value of [has_stock] the quantity is compared,
    strictly, with the Boolean supplied, so no record of quantity zero
    is returned; [has_stock=false] does not select the records that are
    out of stock. *)
Theorem has_stock_never_returns_zero (p : InventoryParams) (b : bool)
    (qs : list PharmacyInventory) (r : PharmacyInventory) :
  p_has_stock p = Some b →
  f_has_stock p r = bool_decide (Py.int_of_bool b < quantity r)
  ∧ (r ∈ filter_queryset fold db p qs → quantity r ≠ 0)
  ∧ (quantity r = 0 → r ∉ filter_queryset fold db p qs).
Proof.
  intros Hp.
  pose proof (has_stock_compares_with_bool p b r Hp) as Hcmp.
  assert (Hpos : r ∈ filter_queryset fold db p qs → 0 < quantity r).
  { intros Hr.
    pose proof (passes_declared fold db p qs r _ Hr declared_has_stock) as Hf.
    rewrite Hcmp in Hf. apply bool_decide_eq_true in Hf.
    destruct b; cbn in Hf; lia. }
  split; [exact Hcmp |]. split.
  - intros Hr. specialize (Hpos Hr). lia.
  - intros Hz Hr. specialize (Hpos Hr). lia.
Qed.

End InventorySearch.

(** On the sample database: the city filter finds the record of the
    district pharmacy by the name of its depth 1 ancestor, and leaves
    out the record of the pharmacy attached to the province. *)
Example city_filter_sample :
  Filters.filter_queryset Py.lower Sample.db
    (Filters.only_ancestor Filters.City "tehran")
    [Sample.stock 1 1 10; Sample.stock 2 2 10]
  = [Sample.stock 1 1 10].
Proof. vm_compute. reflexivity. Qed.

(** The county of that record is Rey: the city filter does not look at
    it, the county filter does. *)
Example city_filter_ignores_county :
  Filters.filter_queryset Py.lower Sample.db
    (Filters.only_ancestor Filters.City "rey") [Sample.stock 1 1 10] = []
  ∧ Filters.filter_queryset Py.lower Sample.db
      (Filters.only_ancestor Filters.County "rey") [Sample.stock 1 1 10]
    = [Sample.stock 1 1 10].
Proof. vm_compute. done. Qed.

(** The value [tehran] finds the city Tehran, whose name has a
    capital letter, one parent link above the district of the
    pharmacy. *)
Lemma ancestor_filter_exact_depth_witness :
  Filters.ancestor_filter Py.lower Sample.db Filters.City
    (Filters.only_ancestor Filters.City "tehran") (Sample.stock 1 1 10) = true
  ↔ ∃ node,
      Ancestry.record_node Sample.db (Filters.depth Filters.City)
        (Sample.stock 1 1 10) node
      ∧ CaseFolding.contains_ignoring_case "tehran" (Models.loc_name node).
Proof.
  apply (ancestor_filter_exact_depth Py.lower Sample.db Filters.City
           (Filters.only_ancestor Filters.City "tehran") "tehran"
           [Sample.stock 1 1 10] (Sample.stock 1 1 10)).
  - exact lower_case_insensitive.
  - split; reflexivity.
Defined.

(** The node that the city filter reads for the sample record is the
    city, and the value is in its name up to the capital letter. *)
Example city_node_of_sample :
  Ancestry.record_node Sample.db 1 (Sample.stock 1 1 10) Sample.city
  ∧ CaseFolding.contains_ignoring_case "tehran" (Models.loc_name Sample.city)
  ∧ ¬ CaseFolding.contains_ignoring_case "tehran"
        (Models.loc_name Sample.county).
Proof.
  split; [| split].
  - exists Sample.district_pharmacy, Sample.district.
    split; [reflexivity |]. split; [reflexivity |].
    exists Sample.city. split; [| reflexivity].
    exists 3. split; reflexivity.
  - exists "", "Tehran", "". split; [reflexivity |].
    cbn. unfold CaseFolding.same_letter. cbn. repeat split; lia.
  - intros H. apply (contains_fold Py.lower _ _ lower_case_insensitive) in H.
    by vm_compute in H.
Qed.

(** C3: at [has_stock=true] a record with quantity 1 that passes every
    other supplied filter is not returned: the quantity is compared
    with [True], which is the integer 1, and not with 0. *)
Theorem has_stock_true_excludes_quantity_one :
  let r := Sample.stock 1 1 1 in
  Models.quantity r = 1
  ∧ Filters.filter_queryset Py.lower Sample.db Filters.no_params [r] = [r]
  ∧ Filters.filter_queryset Py.lower Sample.db (Filters.only_has_stock true) [r]
    = []
  ∧ Filters.filter_queryset Py.lower Sample.db (Filters.only_has_stock false) [r]
    = [r].
Proof. vm_compute. done. Qed.

Lemma has_stock_never_returns_zero_witness :
  Filters.f_has_stock (Filters.only_has_stock false) (Sample.stock 1 1 0)
  = bool_decide (Py.int_of_bool false < Models.quantity (Sample.stock 1 1 0))
  ∧ (Sample.stock 1 1 0
       ∈ Filters.filter_queryset Py.lower Sample.db
           (Filters.only_has_stock false) [Sample.stock 1 1 0] →
     Models.quantity (Sample.stock 1 1 0) ≠ 0)
  ∧ (Models.quantity (Sample.stock 1 1 0) = 0 →
     Sample.stock 1 1 0
       ∉ Filters.filter_queryset Py.lower Sample.db
           (Filters.only_has_stock false) [Sample.stock 1 1 0]).
Proof.
  apply (has_stock_never_returns_zero Py.lower Sample.db
           (Filters.only_has_stock false) false
           [Sample.stock 1 1 0] (Sample.stock 1 1 0)).
  reflexivity.
Defined.

(* ===================================================================== *)
(** * Audit log recorder *)
(* ===================================================================== *)

Section AuditRecorder.
Import Models Http Middleware.

Variable json_loads : string → Json.LoadsResult.

Lemma member_set_member (key : string) (x : Json.value) members :
  Json.member key (Json.set_member key x members) = Some x.
Proof.
  induction members as [|[k y] rest IH]; cbn.
  - by rewrite decide_True.
  - destruct (decide (k = key)) as [->|Hne]; cbn.
    + by rewrite decide_True.
    + by rewrite decide_False.
Qed.

Lemma member_set_member_ne (key k' : string) (x : Json.value) members :
  k' ≠ key →
  Json.member k' (Json.set_member key x members) = Json.member k' members.
Proof.
  intros Hne. induction members as [|[k y] rest IH]; cbn.
  - by rewrite decide_False.
  - destruct (decide (k = key)) as [->|Hk]; cbn.
    + by rewrite !decide_False.
    + destruct (decide (k = k')); [done | exact IH].
Qed.

Lemma keys_set_member (key : string) (x : Json.value) members :
  Json.member key members ≠ None →
  (Json.set_member key x members).*1 = members.*1.
Proof.
  induction members as [|[k y] rest IH]; cbn; [done |].
  destruct (decide (k = key)) as [->|Hk]; cbn; [done |].
  intros H. by rewrite IH.
Qed.

Lemma capture_query (request : HttpRequest) :
  method request = "GET" → has_params (GET request) = true →
  capture_payload json_loads request (body request)
  = Ok (Json.dumps (query_items (GET request))).
Proof.
  intros Hm Hq. unfold capture_payload. by rewrite Hm, Hq.
Qed.

Lemma capture_no_body (request : HttpRequest) :
  reads_body request → body request = "" →
  capture_payload json_loads request (body request) = Ok "".
Proof.
  unfold reads_body, capture_payload. by intros -> ->.
Qed.

Lemma capture_not_json (request : HttpRequest) :
  reads_body request → body request ≠ "" →
  Py.contains "application/json" (content_type request) = false →
  capture_payload json_loads request (body request)
  = Ok ("Non-JSON body (Content-Type: " +:+ content_type request +:+ ")").
Proof.
  unfold reads_body, capture_payload. intros -> Hb%String.eqb_neq ->.
  by rewrite Hb.
Qed.

Lemma capture_decode_failure (request : HttpRequest) :
  reads_body request → body request ≠ "" →
  Py.contains "application/json" (content_type request) = true →
  json_loads (body request) = Json.DecodeError →
  capture_payload json_loads request (body request)
  = Ok "Could not decode request body.".
Proof.
  unfold reads_body, capture_payload. intros -> Hb%String.eqb_neq -> ->.
  by rewrite Hb.
Qed.

Lemma capture_object (request : HttpRequest) members :
  reads_body request → body request ≠ "" →
  Py.contains "application/json" (content_type request) = true →
  json_loads (body request) = Json.Loaded (Json.JObj members) →
  ∃ stored,
    capture_payload json_loads request (body request)
    = Ok (Json.dumps (Json.JObj stored))
    ∧ Json.member "password" stored
      = (λ _, Json.JStr "********") <$> Json.member "password" members
    ∧ (∀ k, k ≠ "password" → Json.member k stored = Json.member k members)
    ∧ stored.*1 = members.*1.
Proof.
  unfold reads_body, capture_payload. intros -> Hb%String.eqb_neq -> ->.
  rewrite Hb. cbn.
  destruct (Json.member "password" members) as [old|] eqn:Hm.
  - eexists. split; [reflexivity |]. split; [| split].
    + apply member_set_member.
    + intros k Hk. by apply member_set_member_ne.
    + apply keys_set_member. by rewrite Hm.
  - exists members. by rewrite Hm.
Qed.

Lemma capture_unchanged (request : HttpRequest) (payload : Json.value) :
  reads_body request → body request ≠ "" →
  Py.contains "application/json" (content_type request) = true →
  json_loads (body request) = Json.Loaded payload →
  contains_password payload = Ok false →
  capture_payload json_loads request (body request) = Ok (Json.dumps payload).
Proof.
  unfold reads_body, capture_payload. intros -> Hb%String.eqb_neq -> -> ->.
  by rewrite Hb.
Qed.

(** A request that is not to be logged leaves the log as the view left
    it. *)
Lemma call_skips (get_response : HttpRequest → World → Response * World)
    (now : Z) (request : HttpRequest) (w : World) :
  body_over_limit request = false →
  should_log request = false →
  call json_loads get_response now request w
  = (Ok (get_response request w).1, (get_response request w).2).
Proof.
  intros Hbody Hs. unfold call. rewrite Hbody.
  destruct (get_response request w) as [response w'].
  by rewrite Hs.
Qed.

(** A body over the limit stops the request before the view: nothing
    runs and nothing is logged. *)
Lemma call_over_limit (get_response : HttpRequest → World → Response * World)
    (now : Z) (request : HttpRequest) (w : World) :
  body_over_limit request = true →
  call json_loads get_response now request w = (Raise RequestDataTooBig, w).
Proof. intros Hbody. unfold call. by rewrite Hbody. Qed.

(** The row of the request log for a request and its response. *)
Lemma create_request_log_stored (row : RequestLog) (w : World) :
  storable_address (rl_ip_address row) = true →
  create_request_log row w
  = Ok {| tables := tables w; inventory := inventory w;
          search_logs := search_logs w;
          request_logs := request_logs w ++ [row] |}.
Proof. unfold create_request_log. by intros ->. Qed.

Lemma create_request_log_refused (row : RequestLog) (w : World) :
  storable_address (rl_ip_address row) = false →
  create_request_log row w = Raise IntegrityError.
Proof. unfold create_request_log. by intros ->. Qed.

(** A request that is to be logged, whose payload is captured and
    whose client address can be stored, adds one row. *)
Lemma call_logs (get_response : HttpRequest → World → Response * World)
    (now : Z) (request : HttpRequest) (w : World) (payload : string) :
  body_over_limit request = false →
  should_log request = true →
  capture_payload json_loads request (body request) = Ok payload →
  storable_address (client_ip request) = true →
  let response := (get_response request w).1 in
  let w' := (get_response request w).2 in
  call json_loads get_response now request w
  = (Ok response,
     {| tables := tables w'; inventory := inventory w';
        search_logs := search_logs w';
        request_logs :=
          request_logs w'
          ++ [ {| rl_user := user_or_none (user request);
                  rl_endpoint := path request;
                  rl_method := method request;
                  rl_request_payload := payload;
                  rl_response_status := status_code response;
                  rl_ip_address := client_ip request;
                  rl_timestamp := now |} ] |}).
Proof.
  intros Hbody Hs Hc Hip. unfold call. rewrite Hbody.
  destruct (get_response request w) as [response w'].
  cbn. rewrite Hs, Hc. by rewrite create_request_log_stored.
Qed.

(** With a client address that cannot be stored, the insert is refused
    and the middleware leaves by that error, with no row added. *)
Lemma call_refused (get_response : HttpRequest → World → Response * World)
    (now : Z) (request : HttpRequest) (w : World) (payload : string) :
  body_over_limit request = false →
  should_log request = true →
  capture_payload json_loads request (body request) = Ok payload →
  storable_address (client_ip request) = false →
  call json_loads get_response now request w
  = (Raise IntegrityError, (get_response request w).2).
Proof.
  intros Hbody Hs Hc Hip. unfold call. rewrite Hbody.
  destruct (get_response request w) as [response w'].
  cbn. rewrite Hs, Hc. by rewrite create_request_log_refused.
Qed.

(** A request that is to be logged, and whose payload capture raises,
    adds no row: the middleware leaves by the exception. *)
Lemma call_raises (get_response : HttpRequest → World → Response * World)
    (now : Z) (request : HttpRequest) (w : World) (e : Exception) :
  body_over_limit request = false →
  should_log request = true →
  capture_payload json_loads request (body request) = Raise e →
  call json_loads get_response now request w
  = (Raise e, (get_response request w).2).
Proof.
  intros Hbody Hs Hc. unfold call. rewrite Hbody.
  destruct (get_response request w) as [response w'].
  cbn. by rewrite Hs, Hc.
Qed.

(** After the view has run, the middleware adds one row to the request
    log or none, and never touches the search log. *)
Lemma call_appends_at_most_one
    (get_response : HttpRequest → World → Response * World)
    (now : Z) (request : HttpRequest) (w : World) :
  body_over_limit request = false →
  let before := (get_response request w).2 in
  let after := (call json_loads get_response now request w).2 in
  search_logs after = search_logs before
  ∧ (request_logs after = request_logs before
     ∨ ∃ row, request_logs after = request_logs before ++ [row]).
Proof.
  intros Hbody. unfold call. rewrite Hbody.
  destruct (get_response request w) as [response w']. cbn.
  destruct (should_log request); [| by split; [| left]].
  destruct (capture_payload json_loads request (body request)); cbn;
    [| by split; [| left]].
  unfold create_request_log. cbn.
  destruct (storable_address (client_ip request)); cbn.
  - split; [done |]. right. eauto.
  - by split; [| left].
Qed.

(** The client address that both recorders store. *)
Lemma client_ip_forwarded (request : HttpRequest) (header : string) :
  HTTP_X_FORWARDED_FOR request = Some header → header ≠ "" →
  client_ip request = Some (Py.split_first "," header).
Proof.
  intros Hh Hne%String.eqb_neq. unfold client_ip. rewrite Hh. cbn.
  by rewrite Hne.
Qed.

Lemma client_ip_direct (request : HttpRequest) :
  Py.truthy (HTTP_X_FORWARDED_FOR request) = false →
  client_ip request = REMOTE_ADDR request.
Proof. intros Hh. unfold client_ip. by rewrite Hh. Qed.

(** C4, amended: the payload that a recorded request stores.  A GET
    with query parameters stores the serialized parameter mapping.  Any
    other request stores, for an empty body, the empty string; for a
    body whose content type is not JSON, the placeholder that names the
    content type; for a JSON body that does not decode, the decode
    failure placeholder; and for a JSON body that decodes to an object,
    that object serialized again with the value of its [password]
    member, when it has one, replaced by the marker and every other
    member as it was; a decoded document in which the membership test
    finds no [password] is serialized again as it is. *)
Theorem recorded_payload_cases (request : HttpRequest) :
  let logged := capture_payload json_loads request (body request) in
  (method request = "GET" → has_params (GET request) = true →
     logged = Ok (Json.dumps (query_items (GET request))))
  ∧ (reads_body request → body request = "" → logged = Ok "")
  ∧ (reads_body request → body request ≠ "" →
     Py.contains "application/json" (content_type request) = false →
     logged
     = Ok ("Non-JSON body (Content-Type: " +:+ content_type request +:+ ")"))
  ∧ (reads_body request → body request ≠ "" →
     Py.contains "application/json" (content_type request) = true →
     json_loads (body request) = Json.DecodeError →
     logged = Ok "Could not decode request body.")
  ∧ (∀ members,
       reads_body request → body request ≠ "" →
       Py.contains "application/json" (content_type request) = true →
       json_loads (body request) = Json.Loaded (Json.JObj members) →
       ∃ stored,
         logged = Ok (Json.dumps (Json.JObj stored))
         ∧ Json.member "password" stored
           = (λ _, Json.JStr "********") <$> Json.member "password" members
         ∧ (∀ k, k ≠ "password" → Json.member k stored = Json.member k members)
         ∧ stored.*1 = members.*1)
  ∧ (∀ payload,
       reads_body request → body request ≠ "" →
       Py.contains "application/json" (content_type request) = true →
       json_loads (body request) = Json.Loaded payload →
       contains_password payload = Ok false →
       logged = Ok (Json.dumps payload)).
Proof.
  intros logged. split; [| split; [| split; [| split; [| split]]]].
  - apply capture_query.
  - apply capture_no_body.
  - apply capture_not_json.
  - apply capture_decode_failure.
  - intros members. apply capture_object.
  - intros payload. apply capture_unchanged.
Qed.

End AuditRecorder.

(** The example of the specification: the password of the credentials
    is stored as the marker and the submitted value is not in the row. *)
Example credentials_are_redacted :
  let request := SampleRequests.post_json SampleRequests.credentials in
  ∃ payload,
    Middleware.capture_payload Middleware.sample_loads request (Http.body request)
    = Http.Ok payload
    ∧ Py.contains
        (Json.encode_string "password" +:+ ": " +:+ Json.encode_string "********")
        payload = true
    ∧ Py.contains "secret123" payload = false.
Proof. eexists. vm_compute. done. Qed.

(** C4, as stated, fails: a password that the body repeats under
    another key is stored in the row. *)
Lemma password_value_still_logged :
  let request := SampleRequests.post_json SampleRequests.registration in
  Middleware.sample_loads (Http.body request)
  = Json.Loaded SampleRequests.registration
  ∧ ∃ payload,
      Middleware.capture_payload Middleware.sample_loads request
        (Http.body request) = Http.Ok payload
      ∧ Py.contains "secret123" payload = true.
Proof. split; [by vm_compute |]. eexists. vm_compute. done. Qed.

(** C6: a request to the API whose JSON body is a number is not
    logged.  The membership test on the decoded number raises
    [TypeError], which the [try] does not catch; the middleware leaves
    by that exception and no row is written. *)
Theorem json_number_body_is_not_logged
    (get_response : Http.HttpRequest → Http.World → Http.Response * Http.World)
    (now : Z) (w : Http.World) :
  let request := SampleRequests.post_json (Json.JInt 5) in
  Middleware.should_log request = true
  ∧ Http.body request = "5"
  ∧ Middleware.sample_loads "5" = Json.Loaded (Json.JInt 5)
  ∧ (Middleware.call Middleware.sample_loads get_response now request w).1
    = Http.Raise Http.TypeError
  ∧ Http.request_logs
      (Middleware.call Middleware.sample_loads get_response now request w).2
    = Http.request_logs (get_response request w).2.
Proof.
  intros request. unfold Middleware.call.
  destruct (get_response request w) as [response w'].
  vm_compute. done.
Qed.
(* ===================================================================== *)
(** * Search log recorder *)
(* ===================================================================== *)

Section SearchRecorder.
Import Models Http Views.

Variable fold : string → string.
Variable clean : list (string * list string) → option Filters.InventoryParams.

Lemma list_raises (now : Z) (request : HttpRequest) (w : World) e :
  super_list fold clean request w = Raise e →
  PharmacyInventoryViewSet_list fold clean now request w = (Raise e, w).
Proof. intros H. unfold PharmacyInventoryViewSet_list. by rewrite H. Qed.

(** What another operation leaves of a row of the search log: the row
    as it was, its user set to null if that user was deleted. *)
Lemma set_null_keeps_row (deleted : list User) (row : InventorySearchLog) :
  let row' := search_log_set_null deleted row in
  sl_query_params row' = sl_query_params row
  ∧ sl_ip_address row' = sl_ip_address row
  ∧ sl_timestamp row' = sl_timestamp row
  ∧ (sl_user row' = sl_user row ∨ sl_user row' = None).
Proof.
  unfold search_log_set_null. destruct (sl_user row) as [u|] eqn:Hu.
  - destruct (bool_decide (u ∈ deleted)); cbn; rewrite ?Hu; auto.
  - rewrite Hu. auto.
Qed.

Lemma other_operations_keep_search_log (op : Operation) (now : Z)
    (request : HttpRequest) (w : World) :
  op ≠ InventoryList →
  ∃ deleted : list User,
    search_logs (dispatch fold clean op now request w).2
    = (search_log_set_null deleted <$> search_logs w).
Proof.
  assert (Hid : ∀ l : list InventorySearchLog,
            l = (search_log_set_null [] <$> l)).
  { intros l. induction l as [|row l IH]; [done |]. cbn. rewrite <- IH.
    f_equal. unfold search_log_set_null. by destruct (sl_user row). }
  intros Hop. destruct op as [| |run]; [done | |]; cbn.
  - exists []. by destruct (Permissions.has_permission request).
  - destruct (run request (tables w, inventory w)) as [[response [t i]] deleted].
    by exists deleted.
Qed.

(** The first token of a header is what the recorders split off. *)
Lemma first_token_split (header token : string) :
  Addresses.first_token header token ↔ Py.split_first "," header = token.
Proof.
  unfold Addresses.first_token. split.
  - intros [[->|[rest ->]] Hno%no_separator_iff].
    + by apply split_first_whole.
    + by apply split_first_app.
  - intros <-. split.
    + destruct (split_first_rest "," header) as [H|H]; [by left | by right].
    + apply no_separator_iff, split_first_no_separator.
Qed.

(** The address that the code resolves is the address of the
    specification. *)
Lemma resolved_client_ip (request : HttpRequest) (address : option string) :
  Addresses.resolved request address ↔ client_ip request = address.
Proof.
  unfold Addresses.resolved, client_ip.
  destruct (HTTP_X_FORWARDED_FOR request) as [header|]; cbn; [| done].
  destruct (decide (header = "")) as [->|Hne]; cbn; [done |].
  apply String.eqb_neq in Hne. rewrite Hne. cbn. split.
  - intros (token & -> & Htoken). f_equal. by apply first_token_split.
  - intros <-. eexists. split; [done |]. by apply first_token_split.
Qed.

(** An address that is resolved and is not empty can be stored. *)
Lemma storable_resolved (request : HttpRequest) (address : string) :
  Addresses.resolved request (Some address) → address ≠ "" →
  storable_address (client_ip request) = true.
Proof.
  intros Hip%resolved_client_ip Hne%String.eqb_neq.
  rewrite Hip. cbn. by rewrite Hne.
Qed.

(** A row that the audit recorder adds to the request log, after the
    view has run, holds the address that the recorder resolves. *)
Lemma audit_row_address (json_loads : string → Json.LoadsResult)
    (get_response : HttpRequest → World → Response * World)
    (now : Z) (request : HttpRequest) (w : World) (row : RequestLog) :
  body_over_limit request = false →
  request_logs (Middleware.call json_loads get_response now request w).2
  = request_logs (get_response request w).2 ++ [row] →
  rl_ip_address row = client_ip request.
Proof.
  intros Hbody.
  assert (Hsame : ∀ l : list RequestLog, l = l ++ [row] → False).
  { intros l H. apply (f_equal length) in H. rewrite length_app in H.
    cbn in H. lia. }
  unfold Middleware.call. rewrite Hbody.
  destruct (get_response request w) as [response w'].
  cbn. destruct (Middleware.should_log request); cbn; [| by intros ?%Hsame].
  destruct (Middleware.capture_payload json_loads request (body request));
    cbn; [| by intros ?%Hsame].
  unfold Middleware.create_request_log. cbn.
  destruct (storable_address (client_ip request)); cbn; [| by intros ?%Hsame].
  by intros [_ <-]%app_inj_tail.
Qed.

(** The insert of a search row whose address is empty or missing is
    refused: the listing leaves by that error and writes nothing. *)
Lemma search_log_refused (now : Z) (request : HttpRequest) (w : World)
    (response : Response) :
  super_list fold clean request w = Ok response →
  has_params (GET request) = true →
  storable_address (client_ip request) = false →
  PharmacyInventoryViewSet_list fold clean now request w
  = (Raise IntegrityError, w).
Proof.
  intros Hsuper Hq Hip. unfold PharmacyInventoryViewSet_list, create_search_log.
  rewrite Hsuper, Hq. cbn. by rewrite Hip.
Qed.

(** C5, amended: a listing of the inventory that returns a response,
    for a request whose client address resolves to a text that is not
    empty, writes exactly one search-log row when the request has a
    query parameter, of any name, and nothing at all when it has no
    parameter.  The row holds the authenticated caller or null, the
    JSON text of the parameter mapping (every parameter with its last
    value), the client address (the first comma-separated token of the
    forwarded-for header when the header has a value, the address of
    the connection when not), which is the address of the row that the
    audit recorder adds for the request when it adds one, and the time
    of the call;
    the rows of the response play no part, so an empty result is logged
    too.  No other operation adds a row to the search log or takes one
    away: the rows stay as they are, but for the user of a row, which
    becomes null when that user is deleted. *)
Theorem inventory_list_search_log (now : Z) (request : HttpRequest) (w : World)
    (response : Response) :
  super_list fold clean request w = Ok response →
  let out := PharmacyInventoryViewSet_list fold clean now request w in
  (has_params (GET request) = false → out = (Ok response, w))
  ∧ (has_params (GET request) = true →
     ∀ address,
       Addresses.resolved request (Some address) → address ≠ "" →
       out.1 = Ok response
       ∧ tables out.2 = tables w
       ∧ inventory out.2 = inventory w
       ∧ request_logs out.2 = request_logs w
       ∧ search_logs out.2
         = search_logs w
           ++ [ {| sl_user :=
                     match user request with
                     | Authenticated u => Some u
                     | AnonymousUser => None
                     end;
                   sl_query_params :=
                     Json.dumps
                       (Json.JObj
                          (map (λ kv : string * list string,
                                  (kv.1,
                                   match last kv.2 with
                                   | Some v => Json.JStr v
                                   | None => Json.JArr []
                                   end))
                             (GET request)));
                   sl_ip_address := Some address;
                   sl_timestamp := now |} ]
       ∧ (∀ json_loads get_response now' w0 row,
            body_over_limit request = false →
            request_logs
              (Middleware.call json_loads get_response now' request w0).2
            = request_logs (get_response request w0).2 ++ [row] →
            rl_ip_address row = Some address))
  ∧ (∀ op now' request' w',
       op ≠ InventoryList →
       let before := search_logs w' in
       let after := search_logs (dispatch fold clean op now' request' w').2 in
       length after = length before
       ∧ ∀ i row,
           before !! i = Some row →
           ∃ row',
             after !! i = Some row'
             ∧ sl_query_params row' = sl_query_params row
             ∧ sl_ip_address row' = sl_ip_address row
             ∧ sl_timestamp row' = sl_timestamp row
             ∧ (sl_user row' = sl_user row ∨ sl_user row' = None)).
Proof.
  intros Hsuper out. subst out.
  unfold PharmacyInventoryViewSet_list. rewrite Hsuper.
  split; [| split].
  - by intros ->.
  - intros -> address Hip%resolved_client_ip Hne.
    unfold create_search_log. cbn. rewrite Hip. cbn.
    apply String.eqb_neq in Hne. rewrite Hne. cbn.
    repeat (split; [done |]).
    intros json_loads get_response now' w0 row Hbody Hrow.
    rewrite <- Hip.
    by apply (audit_row_address json_loads get_response now' _ w0).
  - intros op now' request' w' Hop. cbv zeta.
    destruct (other_operations_keep_search_log op now' request' w' Hop)
      as [deleted Hafter].
    rewrite Hafter. split; [apply length_fmap |].
    intros i row Hrow. exists (search_log_set_null deleted row).
    split; [by rewrite list_lookup_fmap, Hrow |].
    apply set_null_keeps_row.
Qed.

End SearchRecorder.

(** The example of the specification: a search for aspirin over an
    empty inventory returns no rows and writes one row. *)
Example empty_search_is_logged :
  let request :=
    SampleRequests.search "drug_name=aspirin" [("drug_name", ["aspirin"])] in
  ∃ row w',
    Views.PharmacyInventoryViewSet_list Py.lower Views.sample_clean 1000 request
      SampleRequests.empty_world
    = (Http.Ok {| Http.status_code := 200; Http.results := [] |}, w')
    ∧ Http.search_logs w' = [row]
    ∧ Models.sl_user row = None
    ∧ Models.sl_ip_address row = Some "198.51.100.4"
    ∧ Models.sl_timestamp row = 1000.
Proof. do 2 eexists. vm_compute. done. Qed.

(** The same search from behind a proxy whose forwarded-for header
    starts with a comma, or with no address of the connection at all,
    is answered by a server error and leaves no row. *)
Example search_without_address :
  let behind_proxy :=
    {| Http.method := "GET"; Http.path := "/api/inventory/";
       Http.query_string := "drug_name=aspirin";
       Http.GET := [("drug_name", ["aspirin"])];
       Http.body := ""; Http.body_over_limit := false;
       Http.content_type := "text/plain";
       Http.HTTP_X_FORWARDED_FOR := Some ",10.0.0.9";
       Http.REMOTE_ADDR := Some "10.0.0.1";
       Http.user := Http.AnonymousUser |} in
  let detached :=
    {| Http.method := "GET"; Http.path := "/api/inventory/";
       Http.query_string := "drug_name=aspirin";
       Http.GET := [("drug_name", ["aspirin"])];
       Http.body := ""; Http.body_over_limit := false;
       Http.content_type := "text/plain";
       Http.HTTP_X_FORWARDED_FOR := None;
       Http.REMOTE_ADDR := None;
       Http.user := Http.AnonymousUser |} in
  Views.PharmacyInventoryViewSet_list Py.lower Views.sample_clean 1000
    behind_proxy SampleRequests.empty_world
  = (Http.Raise Http.IntegrityError, SampleRequests.empty_world)
  ∧ Views.PharmacyInventoryViewSet_list Py.lower Views.sample_clean 1000
      detached SampleRequests.empty_world
    = (Http.Raise Http.IntegrityError, SampleRequests.empty_world)
  ∧ Http.status_code
      (Views.dispatch Py.lower Views.sample_clean Views.InventoryList 1000
         behind_proxy SampleRequests.empty_world).1 = 500.
Proof. by vm_compute. Qed.

Lemma inventory_list_search_log_witness :
  let request :=
    SampleRequests.search "drug_name=aspirin" [("drug_name", ["aspirin"])] in
  let out :=
    Views.PharmacyInventoryViewSet_list Py.lower Views.sample_clean 1000 request
      SampleRequests.empty_world in
  out.1 = Http.Ok {| Http.status_code := 200; Http.results := [] |}
  ∧ Http.search_logs out.2
    = [ {| Models.sl_user := None;
           Models.sl_query_params :=
             Json.dumps (Json.JObj [("drug_name", Json.JStr "aspirin")]);
           Models.sl_ip_address := Some "198.51.100.4";
           Models.sl_timestamp := 1000 |} ].
Proof.
  intros request out.
  destruct (inventory_list_search_log Py.lower Views.sample_clean 1000 request
              SampleRequests.empty_world
              {| Http.status_code := 200; Http.results := [] |} eq_refl)
    as (_ & H & _).
  destruct (H eq_refl "198.51.100.4" eq_refl ltac:(done))
    as (Hresponse & _ & _ & _ & Hlog & _).
  split; [exact Hresponse | exact Hlog].
Defined.

(** C5, as stated, fails: the row does not hold the raw query string.
    For the query string [drug_name=aspirin] it holds the JSON text of
    the mapping, which is another string and does not contain the query
    string. *)
Lemma search_log_is_not_raw_query :
  let request :=
    SampleRequests.search "drug_name=aspirin" [("drug_name", ["aspirin"])] in
  ∃ response row w',
    Views.PharmacyInventoryViewSet_list Py.lower Views.sample_clean 1000 request
      SampleRequests.empty_world
    = (Http.Ok response, w')
    ∧ Http.search_logs w' = [row]
    ∧ Models.sl_query_params row ≠ Http.query_string request
    ∧ Py.contains (Http.query_string request) (Models.sl_query_params row)
      = false
    ∧ Models.sl_query_params row
      = "{" +:+ Json.encode_string "drug_name" +:+ ": "
        +:+ Json.encode_string "aspirin" +:+ "}".
Proof. do 3 eexists. vm_compute. done. Qed.
(* ===================================================================== *)
(** * Pagination *)
(* ===================================================================== *)

Section PaginationRules.
Import Http Pagination.

Context {A : Type}.

Lemma num_pages_positive (count per_page : Z) :
  1 ≤ per_page → 1 ≤ num_pages count per_page.
Proof.
  intros Hp. unfold num_pages. apply Z.div_le_lower_bound; lia.
Qed.

Lemma positive_int_bounds (s : string) (ret : Z) :
  positive_int s true max_page_size = Some ret → 1 ≤ ret ≤ max_page_size.
Proof.
  unfold positive_int, max_page_size. destruct (Py.int s) as [n|]; cbn; [| done].
  destruct (n <? 0) eqn:Hneg; cbn; [done |].
  destruct (n =? 0) eqn:Hzero; cbn; [done |].
  intros [= <-]. lia.
Qed.

Lemma positive_int_capped (s : string) (n : Z) :
  Py.int s = Some n → 1 ≤ n →
  positive_int s true max_page_size = Some (Z.min n max_page_size).
Proof.
  intros Hs Hn. unfold positive_int, max_page_size. rewrite Hs. cbn.
  destruct (n <? 0) eqn:Hneg; [lia |].
  destruct (n =? 0) eqn:Hzero; [lia |]. done.
Qed.

Lemma page_size_bounds (request : HttpRequest) :
  1 ≤ get_page_size request ≤ max_page_size.
Proof.
  unfold get_page_size.
  destruct (query_get page_size_query_param (GET request)) as [s|];
    [| by vm_compute].
  destruct (positive_int s true max_page_size) as [ret|] eqn:Hret; cbn.
  - by apply positive_int_bounds in Hret.
  - by vm_compute.
Qed.

Lemma page_zero_unpaginated (queryset : list A) (request : HttpRequest) :
  query_get page_query_param (GET request) = Some "0" →
  paginate_queryset queryset request = Unpaginated.
Proof. intros H. unfold paginate_queryset. by rewrite H. Qed.

Lemma first_page (queryset : list A) (per_page : Z) :
  1 ≤ per_page →
  paginator_page queryset per_page (Some 1)
  = Some (take (Z.to_nat per_page) queryset).
Proof.
  intros Hp. unfold paginator_page.
  pose proof (num_pages_positive (Z.of_nat (length queryset)) per_page Hp).
  destruct (1 <? 1) eqn:E1; [lia |].
  destruct (num_pages _ _ <? 1) eqn:E2; [lia |]. cbn.
  by rewrite Z.mul_0_l.
Qed.

Lemma default_page (queryset : list A) (request : HttpRequest) :
  query_get page_query_param (GET request) = None →
  query_get page_size_query_param (GET request) = None →
  paginate_queryset queryset request = Page (take 5 queryset).
Proof.
  intros Hpage Hlimit.
  unfold paginate_queryset, super_paginate_queryset, get_page_size.
  rewrite Hpage, Hlimit. cbn -[paginator_page].
  by rewrite first_page.
Qed.

(** A page that the class returns is a page of the framework's
    paginator. *)
Lemma page_of_super (queryset rows : list A) (request : HttpRequest) :
  paginate_queryset queryset request = Page rows →
  super_paginate_queryset queryset request = Page rows.
Proof.
  unfold paginate_queryset. destruct (_ && _); [| done].
  destruct (_ ≫= _) as [n|]; [| done]. by destruct (n =? 0).
Qed.

Lemma page_rows_bounded (queryset rows : list A) (request : HttpRequest) :
  paginate_queryset queryset request = Page rows →
  Z.of_nat (length rows) ≤ get_page_size request.
Proof.
  intros Hsuper%page_of_super. revert Hsuper.
  unfold super_paginate_queryset.
  pose proof (page_size_bounds request) as Hb.
  destruct (get_page_size request =? 0) eqn:Hz; [done |].
  destruct (paginator_page _ _ _) as [page|] eqn:Hpage; [| done].
  intros [= <-]. unfold paginator_page in Hpage.
  destruct (match query_get page_query_param (GET request) with
            | Some s => _ | None => _ end) as [n|]; [| done].
  destruct (_ || _); [done |]. injection Hpage as <-.
  rewrite length_take. lia.
Qed.

(** C8, amended: [page=0] turns pagination off and the whole query set
    is returned, whatever its size; a request with neither [page] nor
    [limit] gets the first five rows (exactly five when more than five
    match); and the page size that [limit] sets is capped at 100, so
    that no page has more than 100 rows. *)
Theorem pagination_rules (queryset : list A) (request : HttpRequest) :
  (query_get "page" (GET request) = Some "0" →
     paginate_queryset queryset request = Unpaginated
     ∧ listed queryset request = Ok queryset)
  ∧ (query_get "page" (GET request) = None →
     query_get "limit" (GET request) = None →
     paginate_queryset queryset request = Page (take 5 queryset)
     ∧ listed queryset request = Ok (take 5 queryset)
     ∧ (length (take 5 queryset) ≤ 5)%nat
     ∧ ((5 < length queryset)%nat → length (take 5 queryset) = 5%nat))
  ∧ 1 ≤ get_page_size request ≤ 100
  ∧ (∀ s n,
       query_get "limit" (GET request) = Some s → Py.int s = Some n → 1 ≤ n →
       get_page_size request = Z.min n 100)
  ∧ (∀ rows,
       paginate_queryset queryset request = Page rows →
       Z.of_nat (length rows) ≤ get_page_size request
       ∧ (length rows ≤ 100)%nat).
Proof.
  split; [| split; [| split; [| split]]].
  - intros H. unfold listed. by rewrite (page_zero_unpaginated queryset request H).
  - intros Hpage Hlimit. unfold listed.
    rewrite (default_page queryset request Hpage Hlimit).
    rewrite length_take. repeat split; lia.
  - apply page_size_bounds.
  - intros s n Hs Hn Hpos. unfold get_page_size.
    change page_size_query_param with "limit". rewrite Hs.
    by rewrite (positive_int_capped s n Hn Hpos).
  - intros rows Hrows.
    pose proof (page_rows_bounded queryset rows request Hrows).
    pose proof (page_size_bounds request). unfold max_page_size in *.
    split; lia.
Qed.

End PaginationRules.

(** C8, as stated, fails: a request that omits [page] and supplies
    [limit=10] gets ten rows, more than the default page size. *)
Lemma limit_overrides_default_page_size :
  let request := SampleRequests.search "limit=10" [("limit", ["10"])] in
  Http.query_get "page" (Http.GET request) = None
  ∧ Pagination.paginate_queryset (seqZ 1 12) request = Pagination.Page (seqZ 1 10)
  ∧ length (seqZ 1 10) = 10%nat.
Proof. vm_compute. done. Qed.

(** The cap: [limit=500] gives pages of 100 rows. *)
Example limit_is_capped :
  let request := SampleRequests.search "limit=500" [("limit", ["500"])] in
  Pagination.get_page_size request = 100.
Proof. reflexivity. Qed.
(* ===================================================================== *)
(** * Users and the admin permission *)
(* ===================================================================== *)

Section AdminPermission.
Import Models Http Permissions.

Lemma save_keeps_role (u : User) : role (User_save u) = role u.
Proof.
  unfold User_save. destruct (role u) as [r|] eqn:Hr; [| done].
  by destruct (String.eqb (role_name r) "Admin").
Qed.

Lemma save_sets_flags (u : User) :
  is_staff (User_save u) = role_is_admin u
  ∧ is_superuser (User_save u) = role_is_admin u.
Proof.
  unfold User_save, role_is_admin. destruct (role u) as [r|]; [| done].
  by destruct (String.eqb (role_name r) "Admin").
Qed.

Lemma role_is_admin_spec (u : User) :
  role_is_admin u = true ↔ ∃ r, role u = Some r ∧ role_name r = "Admin".
Proof.
  unfold role_is_admin. destruct (role u) as [r|].
  - rewrite String.eqb_eq. split; [eauto | by intros (? & [= <-] & ?)].
  - split; [done | by intros (? & ? & ?)].
Qed.

Lemma has_permission_spec (request : HttpRequest) :
  has_permission request = true
  ↔ ∃ u, user request = Authenticated u
      ∧ (is_superuser u = true ∨ role_is_admin u = true).
Proof.
  unfold has_permission. destruct (user request) as [|u]; cbn.
  - split; [done | by intros (? & ? & ?)].
  - rewrite orb_true_iff. split; [eauto | by intros (? & [= <-] & ?)].
Qed.

(** C10: a save leaves [is_staff] and [is_superuser] both true when the
    role of the user is named Admin and both false when not, so a
    superuser flag granted before is revoked by a save without that
    role.  The admin permission is granted exactly to the authenticated
    users who are superusers or whose role is named Admin, and for a
    saved user the two conditions are the same. *)
Theorem save_and_admin_permission (u : User) (request : HttpRequest) :
  let saved := User_save u in
  let admin := ∃ r, role u = Some r ∧ role_name r = "Admin" in
  (admin → is_staff saved = true ∧ is_superuser saved = true)
  ∧ (¬ admin → is_staff saved = false ∧ is_superuser saved = false)
  ∧ role saved = role u
  ∧ (has_permission request = true
     ↔ ∃ v, user request = Authenticated v
         ∧ (is_superuser v = true
            ∨ ∃ r, role v = Some r ∧ role_name r = "Admin"))
  ∧ is_superuser saved = role_is_admin saved
  ∧ (user request = Authenticated saved →
     has_permission request = is_superuser saved).
Proof.
  intros saved admin.
  destruct (save_sets_flags u) as [Hstaff Hsuper].
  pose proof (role_is_admin_spec u) as Hadmin.
  assert (Hsame : role_is_admin saved = role_is_admin u).
  { unfold role_is_admin. subst saved. by rewrite save_keeps_role. }
  split; [| split; [| split; [| split; [| split]]]].
  - intros Ha. apply Hadmin in Ha. subst saved. by rewrite Hstaff, Hsuper.
  - intros Hna. subst saved. rewrite Hstaff, Hsuper.
    destruct (role_is_admin u); [| done]. exfalso. apply Hna. by apply Hadmin.
  - apply save_keeps_role.
  - rewrite has_permission_spec. split.
    + intros (v & Hv & [Hs|Hr]); exists v; split; auto.
      right. by apply role_is_admin_spec.
    + intros (v & Hv & [Hs|Hr]); exists v; split; auto.
      right. by apply role_is_admin_spec.
  - subst saved. by rewrite Hsuper, Hsame.
  - intros Hu. unfold has_permission. rewrite Hu. cbn.
    subst saved. rewrite Hsame, Hsuper. by destruct (role_is_admin u).
Qed.

End AdminPermission.

(** A superuser whose role is not Admin loses the flag on the next
    save, and with it the admin permission. *)
Example save_revokes_superuser :
  let u := {| Models.contact_number := "0912";
              Models.role := Some {| Models.role_name := "Pharmacist" |};
              Models.is_staff := true; Models.is_superuser := true |} in
  Models.is_superuser (Models.User_save u) = false
  ∧ Models.is_staff (Models.User_save u) = false.
Proof. done. Qed.
(* ===================================================================== *)
(** * More on the location hierarchy *)
(* ===================================================================== *)

Section HierarchyFacts.
Import Models Serializers Hierarchy Filters.

Variable db : Tables.

Lemma required_parent_level (t u : string) :
  required_parent t = Some u →
  (t = DISTRICT ∧ u = CITY) ∨ (t = CITY ∧ u = COUNTY)
  ∨ (t = COUNTY ∧ u = PROVINCE).
Proof.
  unfold required_parent. repeat case_decide; intros [= <-]; auto.
Qed.

Lemma required_parent_not_self (t : string) : required_parent t ≠ Some t.
Proof.
  intros H. apply required_parent_level in H as [[-> H]|[[-> H]|[-> H]]];
    by vm_compute in H.
Qed.

(** X1: a location whose resulting type is none of the four level
    labels (or is missing) is rejected, with or without a parent. *)
Theorem unknown_type_rejected (instance : option Location) (data : LocationData) :
  from_option is_level false (final_type instance data) = false →
  accepted (validate db instance data) = false.
Proof.
  intros Hlevel. rewrite validate_accepted. unfold hierarchy_ok.
  destruct (final_type instance data) as [t|]; cbn in Hlevel.
  - unfold is_level in Hlevel.
    apply orb_false_iff in Hlevel as [Hlevel Hd].
    apply orb_false_iff in Hlevel as [Hlevel Hc].
    apply orb_false_iff in Hlevel as [Hp Hco].
    apply bool_decide_eq_false in Hp, Hco, Hc, Hd.
    rewrite decide_False by congruence.
    destruct (final_parent db instance data) as [p|]; [| done].
    apply bool_decide_eq_false. cbn. unfold required_parent.
    by rewrite !decide_False.
  - rewrite decide_False by done.
    by destruct (final_parent db instance data).
Qed.

(** X2: a write is rejected when the type that results is the type
    under which its resulting parent is stored: no location is accepted
    under a parent of its own level.  The type is the request's when it
    carries one and the stored one when not, and so is the parent. *)
Theorem same_level_parent_rejected (instance : option Location)
    (data : LocationData) (p : Location) :
  match d_parent data with
  | Some parent => parent
  | None => match instance with
            | Some stored =>
                match loc_parent stored with
                | Some k => locations db !! k
                | None => None
                end
            | None => None
            end
  end = Some p →
  match d_type data with
  | Some ty => Some ty
  | None => match instance with
            | Some stored => Some (loc_type stored)
            | None => None
            end
  end = Some (loc_type p) →
  accepted (validate db instance data) = false.
Proof.
  rewrite <- final_parent_eq, <- final_type_eq.
  intros Hp Ht. rewrite validate_accepted. unfold hierarchy_ok.
  rewrite Hp, Ht. case_decide; [done |].
  apply bool_decide_eq_false. cbn. apply required_parent_not_self.
Qed.

Lemma stored_valid_cases (k : Z) (l : Location) :
  stored_valid db → locations db !! k = Some l →
  (loc_type l = PROVINCE ∧ parent_of db l = None)
  ∨ (∃ kp p, loc_parent l = Some kp ∧ locations db !! kp = Some p
       ∧ required_parent (loc_type l) = Some (loc_type p)).
Proof.
  intros Hv Hl. specialize (Hv k l Hl). rewrite validate_accepted in Hv.
  unfold hierarchy_ok, unrelated_update, final_type, final_parent in Hv.
  cbn in Hv. case_decide as Ht.
  - left. apply bool_decide_eq_true in Hv. split; congruence.
  - right. unfold parent_of in Hv |- *.
    destruct (loc_parent l) as [kp|]; cbn in Hv; [| done].
    destruct (locations db !! kp) as [p|] eqn:Hkp; [| done].
    apply bool_decide_eq_true in Hv. cbn in Hv. eauto.
Qed.

Lemma ancestor_at_succ (n : nat) (l : Location) :
  ancestor_at db (S n) l = ancestor_at db n l ≫= parent_of db.
Proof.
  revert l. induction n as [|n IH]; intros l.
  - cbn. by destruct (parent_of db l).
  - change (ancestor_at db (S (S n)) l)
      with (parent_of db l ≫= ancestor_at db (S n)).
    change (ancestor_at db (S n) l) with (parent_of db l ≫= ancestor_at db n).
    destruct (parent_of db l) as [p|]; [| done]. cbn. apply IH.
Qed.

Lemma chain_by_steps (n : nat) :
  stored_valid db →
  ∀ k l, locations db !! k = Some l →
    steps_to_province (loc_type l) = Some n →
    ∃ root, ancestor_at db n l = Some root
      ∧ loc_type root = PROVINCE ∧ parent_of db root = None.
Proof.
  intros Hv. induction n as [|n IH]; intros k l Hl Hs.
  - destruct (stored_valid_cases k l Hv Hl) as [[Ht Hp]|(kp & p & _ & _ & Hr)].
    + exists l. by cbn.
    + apply required_parent_level in Hr as [[Ht _]|[[Ht _]|[Ht _]]];
        rewrite Ht in Hs; by vm_compute in Hs.
  - destruct (stored_valid_cases k l Hv Hl) as [[Ht Hp]|(kp & p & Hkp & Hp & Hr)].
    + rewrite Ht in Hs. by vm_compute in Hs.
    + assert (Hsp : steps_to_province (loc_type p) = Some n).
      { apply required_parent_level in Hr as [[Ht Hu]|[[Ht Hu]|[Ht Hu]]];
          rewrite Ht in Hs; rewrite Hu; vm_compute in Hs |- *; congruence. }
      destruct (IH kp p Hp Hsp) as (root & Hroot & Htype & Hnone).
      exists root. cbn. unfold parent_of at 1. rewrite Hkp. cbn.
      by rewrite Hp.
Qed.

Lemma stored_valid_level (k : Z) (l : Location) :
  stored_valid db → locations db !! k = Some l →
  ∃ n, steps_to_province (loc_type l) = Some n ∧ (n ≤ 3)%nat.
Proof.
  intros Hv Hl.
  destruct (stored_valid_cases k l Hv Hl) as [[Ht Hp]|(kp & p & _ & _ & Hr)].
  - rewrite Ht. exists 0%nat. split; [done | lia].
  - apply required_parent_level in Hr as [[Ht _]|[[Ht _]|[Ht _]]]; rewrite Ht.
    + exists 3%nat. split; [done | lia].
    + exists 2%nat. split; [done | lia].
    + exists 1%nat. split; [done | lia].
Qed.

(** X3: when every stored location passes the validator, the parent
    chain of any stored location reaches a province after at most three
    links and ends there: there is no cycle and no node at depth 4. *)
Theorem valid_chain_ends_at_province (k : Z) (l : Location) :
  stored_valid db → locations db !! k = Some l →
  ∃ (n : nat) root,
    (n ≤ 3)%nat
    ∧ steps_to_province (loc_type l) = Some n
    ∧ ancestor_at db n l = Some root
    ∧ loc_type root = PROVINCE
    ∧ ancestor_at db (S n) l = None
    ∧ ancestor_at db 4 l = None.
Proof.
  intros Hv Hl.
  destruct (stored_valid_level k l Hv Hl) as (n & Hs & Hn).
  destruct (chain_by_steps n Hv k l Hl Hs) as (root & Hroot & Htype & Hnone).
  assert (Hend : ancestor_at db (S n) l = None).
  { rewrite ancestor_at_succ, Hroot. exact Hnone. }
  exists n, root. repeat (split; [done |]).
  assert (Hmono : ∀ m, ancestor_at db (S n + m) l = None).
  { induction m as [|m IHm].
    - by rewrite Nat.add_0_r.
    - rewrite Nat.add_succ_r, ancestor_at_succ, IHm. done. }
  replace 4%nat with (S n + (3 - n))%nat by lia. apply Hmono.
Qed.

(** X4: when every stored location passes the validator, a record
    whose pharmacy sits in a district has a node at each of the four
    depths that the ancestor filters read, of the levels district,
    city, county and province in that order. *)
Theorem district_chain_is_complete (r : PharmacyInventory) (l : Location) :
  stored_valid db →
  pharmacy__location db r = Some l → loc_type l = DISTRICT →
  ∃ c co p,
    chain_node db 0 r = Some l
    ∧ chain_node db 1 r = Some c ∧ loc_type c = CITY
    ∧ chain_node db 2 r = Some co ∧ loc_type co = COUNTY
    ∧ chain_node db 3 r = Some p ∧ loc_type p = PROVINCE.
Proof.
  intros Hv Hl Ht. unfold chain_node. rewrite Hl. cbn.
  unfold pharmacy__location, pharmacy_ in Hl.
  destruct (pharmacies db !! pharmacy r) as [ph|]; cbn in Hl; [| done].
  assert (Hup : ∀ k x u, locations db !! k = Some x →
            required_parent (loc_type x) = Some u →
            ∃ kp y, locations db !! kp = Some y ∧ parent_of db x = Some y
              ∧ loc_type y = u).
  { intros k x u Hx Hu.
    destruct (stored_valid_cases k x Hv Hx) as [[Hty _]|(kp & y & Hkp & Hy & Hr)].
    - rewrite Hty in Hu. by vm_compute in Hu.
    - exists kp, y. unfold parent_of. rewrite Hkp. cbn.
      split; [done |]. split; [done |]. congruence. }
  destruct (Hup _ l CITY Hl) as (k1 & c & Hc & Hpc & Htc).
  { rewrite Ht. by vm_compute. }
  destruct (Hup _ c COUNTY Hc) as (k2 & co & Hco & Hpco & Htco).
  { rewrite Htc. by vm_compute. }
  destruct (Hup _ co PROVINCE Hco) as (k3 & p & Hp & Hpp & Htp).
  { rewrite Htco. by vm_compute. }
  exists c, co, p. rewrite Hpc. cbn. rewrite Hpco. cbn. rewrite Hpp. by cbn.
Qed.

End HierarchyFacts.

(** The sample database is in that state. *)
Lemma sample_stored_valid : Hierarchy.stored_valid Sample.db.
Proof.
  apply (bool_decide_unpack
           (map_Forall
              (λ (_ : Z) l,
                 Serializers.accepted
                   (Serializers.validate Sample.db (Some l)
                      (Serializers.unrelated_update None)) = true)
              (Models.locations Sample.db))).
  vm_compute. exact I.
Qed.

Lemma unknown_type_rejected_witness :
  Serializers.accepted
    (Serializers.validate Sample.db None
       {| Serializers.d_name := Some "Hamlet";
          Serializers.d_type := Some "village";
          Serializers.d_parent := Some (Some Sample.city) |}) = false.
Proof.
  apply (unknown_type_rejected Sample.db None
           {| Serializers.d_name := Some "Hamlet";
              Serializers.d_type := Some "village";
              Serializers.d_parent := Some (Some Sample.city) |}).
  vm_compute. reflexivity.
Defined.

Lemma same_level_parent_rejected_witness :
  Serializers.accepted
    (Serializers.validate Sample.db (Some Sample.city)
       {| Serializers.d_name := None; Serializers.d_type := None;
          Serializers.d_parent := Some (Some Sample.city) |}) = false.
Proof.
  apply (same_level_parent_rejected Sample.db (Some Sample.city)
           {| Serializers.d_name := None; Serializers.d_type := None;
              Serializers.d_parent := Some (Some Sample.city) |} Sample.city);
    reflexivity.
Defined.

(** The level that is compared is the one the parent is stored with.
    An update of the sample province that turns it into a county and
    names the province itself as the parent is decided on the stored
    type of that parent, and is accepted. *)
Example retyped_under_itself_accepted :
  Serializers.accepted
    (Serializers.validate Sample.db (Some Sample.province)
       {| Serializers.d_name := None;
          Serializers.d_type := Some Serializers.COUNTY;
          Serializers.d_parent := Some (Some Sample.province) |}) = true.
Proof. reflexivity. Qed.

Lemma valid_chain_ends_at_province_witness :
  ∃ (n : nat) root,
    (n ≤ 3)%nat
    ∧ Hierarchy.steps_to_province (Models.loc_type Sample.district) = Some n
    ∧ Filters.ancestor_at Sample.db n Sample.district = Some root
    ∧ Models.loc_type root = Serializers.PROVINCE
    ∧ Filters.ancestor_at Sample.db (S n) Sample.district = None
    ∧ Filters.ancestor_at Sample.db 4 Sample.district = None.
Proof.
  apply (valid_chain_ends_at_province Sample.db 4 Sample.district).
  - exact sample_stored_valid.
  - vm_compute. reflexivity.
Defined.

Lemma district_chain_is_complete_witness :
  ∃ c co p,
    Filters.chain_node Sample.db 0 (Sample.stock 1 1 10) = Some Sample.district
    ∧ Filters.chain_node Sample.db 1 (Sample.stock 1 1 10) = Some c
    ∧ Models.loc_type c = Serializers.CITY
    ∧ Filters.chain_node Sample.db 2 (Sample.stock 1 1 10) = Some co
    ∧ Models.loc_type co = Serializers.COUNTY
    ∧ Filters.chain_node Sample.db 3 (Sample.stock 1 1 10) = Some p
    ∧ Models.loc_type p = Serializers.PROVINCE.
Proof.
  apply (district_chain_is_complete Sample.db (Sample.stock 1 1 10)
           Sample.district).
  - exact sample_stored_valid.
  - vm_compute. reflexivity.
  - reflexivity.
Defined.
(* ===================================================================== *)
(** * More on the inventory filters *)
(* ===================================================================== *)

Section InventoryFilterFacts.
Import Models Filters.

Variable fold : string → string.
Variable db : Tables.

Lemma filter_sublist {A} (f : A → bool) (l : list A) :
  List.filter f l `sublist_of` l.
Proof.
  induction l as [|x l IH]; cbn; [done |].
  destruct (f x); by constructor.
Qed.

Lemma declared_expire_date : f_expire_date ∈ declared_filters fold db.
Proof. rewrite list_elem_of_In. cbn. tauto. Qed.

Lemma expire_date_bounds (p : InventoryParams) (r : PharmacyInventory) :
  f_expire_date p r = true
  ↔ (∀ a, p_expire_date_after p = Some a → a ≤ expire_date r)
    ∧ (∀ b, p_expire_date_before p = Some b → expire_date r ≤ b).
Proof.
  unfold f_expire_date, DateFromToRangeFilter.
  destruct (p_expire_date_after p) as [a|], (p_expire_date_before p) as [b|].
  - rewrite andb_true_iff, !bool_decide_eq_true. split.
    + intros [Ha Hb]. split; by intros ? [= <-].
    + intros [Ha Hb]. split; auto.
  - rewrite bool_decide_eq_true. split.
    + intros Ha. split; [by intros ? [= <-] | done].
    + intros [Ha _]. auto.
  - rewrite bool_decide_eq_true. split.
    + intros Hb. split; [done | by intros ? [= <-]].
    + intros [_ Hb]. auto.
  - split; [| done]. by intros _.
Qed.

(** X6: the expiry date range is inclusive at both ends and each bound
    is optional: a record passes exactly when its expiry date is not
    before [expire_date_after] and not after [expire_date_before], for
    the bounds that are supplied; every returned record is within the
    supplied bounds. *)
Theorem expire_date_range_inclusive (p : InventoryParams)
    (qs : list PharmacyInventory) (r : PharmacyInventory) :
  let within :=
    (∀ a, p_expire_date_after p = Some a → a ≤ expire_date r)
    ∧ (∀ b, p_expire_date_before p = Some b → expire_date r ≤ b) in
  (f_expire_date p r = true ↔ within)
  ∧ (r ∈ filter_queryset fold db p qs → within).
Proof.
  intros within. split; [apply expire_date_bounds |].
  intros Hr. apply expire_date_bounds.
  exact (passes_declared fold db p qs r _ Hr declared_expire_date).
Qed.

Lemma declared_member (f : InventoryParams → PharmacyInventory → bool) :
  In f (declared_filters fold db) → f ∈ declared_filters fold db.
Proof. apply list_elem_of_In. Qed.

(** The key that a number filter looks up is the integer part of the
    decimal number supplied. *)
Lemma int_of_decimal_integer_part (d : Qc) :
  Decimals.is_integer_part d (Py.int_of_decimal d).
Proof.
  unfold Decimals.is_integer_part, Py.int_of_decimal.
  destruct d as [[n m] Hcanon]. cbn [this Qnum Qden].
  unfold Qle, Qlt, inject_Z. cbn [Qnum Qden].
  pose proof (Z.quot_rem' n (Z.pos m)) as Hqr.
  pose proof (Z.rem_bound_abs n (Z.pos m) ltac:(lia)) as Habs.
  split; intros Hsign.
  - pose proof (Z.rem_nonneg n (Z.pos m) ltac:(lia) ltac:(lia)). lia.
  - pose proof (Z.rem_nonpos n (Z.pos m) ltac:(lia) ltac:(lia)). lia.
Qed.

(** X8: the identifier and flag filters are exact.  Every returned
    record is of the drug and of the pharmacy whose ids are the
    integer parts of the numbers supplied (a number filter takes a
    decimal number and looks up its integer part, so [1.5] finds the
    rows of id 1), its drug has the IRC code supplied, and its pharmacy
    has the 24-hour flag supplied, for [false] as well as for [true]. *)
Theorem exact_filters (p : InventoryParams) (qs : list PharmacyInventory)
    (r : PharmacyInventory) :
  r ∈ filter_queryset fold db p qs →
  (∀ d, p_drug p = Some d → Decimals.is_integer_part d (drug r))
  ∧ (∀ d, p_pharmacy p = Some d → Decimals.is_integer_part d (pharmacy r))
  ∧ (∀ code, p_drug_irc p = Some code → code ≠ "" →
       ∃ d, drugs db !! drug r = Some d ∧ irc d = code)
  ∧ (∀ b, p_pharmacy_is_24_hours p = Some b →
       ∃ ph, pharmacies db !! pharmacy r = Some ph ∧ is_24_hours ph = b).
Proof.
  intros Hr.
  assert (Hpass : ∀ f, In f (declared_filters fold db) → f p r = true).
  { intros f Hf. apply (passes_declared fold db p qs r f Hr).
    by apply declared_member. }
  split; [| split; [| split]].
  - intros d Hd. assert (H : f_drug p r = true) by (apply Hpass; cbn; tauto).
    unfold f_drug, NumberFilter in H. rewrite Hd in H. cbn in H.
    apply bool_decide_eq_true in H. rewrite H.
    apply int_of_decimal_integer_part.
  - intros d Hd.
    assert (H : f_pharmacy p r = true) by (apply Hpass; cbn; tauto).
    unfold f_pharmacy, NumberFilter in H. rewrite Hd in H. cbn in H.
    apply bool_decide_eq_true in H. rewrite H.
    apply int_of_decimal_integer_part.
  - intros code Hcode Hne.
    assert (H : f_drug_irc db p r = true) by (apply Hpass; cbn; tauto).
    unfold f_drug_irc, CharFilter, drug__irc, drug_ in H.
    rewrite Hcode, decide_False in H by done.
    destruct (drugs db !! drug r) as [d|]; cbn in H; [| done].
    apply bool_decide_eq_true in H. eauto.
  - intros b Hb.
    assert (H : f_pharmacy_is_24_hours db p r = true)
      by (apply Hpass; cbn; tauto).
    unfold f_pharmacy_is_24_hours, BooleanFilter, pharmacy__is_24_hours,
      pharmacy_ in H.
    rewrite Hb in H.
    destruct (pharmacies db !! pharmacy r) as [ph|]; cbn in H; [| done].
    apply bool_decide_eq_true in H. eauto.
Qed.

(** X9: a null column never matches.  A record without a batch number
    is left out whenever a batch number is supplied, and a record
    whose drug has no brand name is left out whenever a brand name is
    supplied. *)
Theorem null_never_matches (p : InventoryParams) (qs : list PharmacyInventory)
    (r : PharmacyInventory) :
  r ∈ filter_queryset fold db p qs →
  (∀ s, supplied (p_batch_number p) s → batch_number r ≠ None)
  ∧ (∀ s, supplied (p_drug_brand_name p) s →
       ∃ d, drugs db !! drug r = Some d ∧ brand_name d ≠ None).
Proof.
  intros Hr.
  assert (Hpass : ∀ f, In f (declared_filters fold db) → f p r = true).
  { intros f Hf. apply (passes_declared fold db p qs r f Hr).
    by apply declared_member. }
  split.
  - intros s [Hs Hne%String.eqb_neq].
    assert (H : f_batch_number fold p r = true) by (apply Hpass; cbn; tauto).
    unfold f_batch_number, CharFilter in H.
    rewrite Hs, decide_False in H by done.
    by destruct (batch_number r).
  - intros s [Hs Hne%String.eqb_neq].
    assert (H : f_drug_brand_name fold db p r = true)
      by (apply Hpass; cbn; tauto).
    unfold f_drug_brand_name, CharFilter, drug__brand_name, drug_ in H.
    rewrite Hs, decide_False in H by done.
    destruct (drugs db !! drug r) as [d|]; cbn in H; [| done].
    exists d. split; [done |]. by destruct (brand_name d).
Qed.

End InventoryFilterFacts.

Lemma exact_filters_witness :
  (∀ d, Filters.p_drug SampleParams.exact_search = Some d →
     Decimals.is_integer_part d (Models.drug (Sample.stock 1 1 10)))
  ∧ (∀ d, Filters.p_pharmacy SampleParams.exact_search = Some d →
       Decimals.is_integer_part d (Models.pharmacy (Sample.stock 1 1 10)))
  ∧ (∀ code, Filters.p_drug_irc SampleParams.exact_search = Some code →
       code ≠ "" →
       ∃ d, Models.drugs Sample.db !! Models.drug (Sample.stock 1 1 10) = Some d
         ∧ Models.irc d = code)
  ∧ (∀ b, Filters.p_pharmacy_is_24_hours SampleParams.exact_search = Some b →
       ∃ ph,
         Models.pharmacies Sample.db !! Models.pharmacy (Sample.stock 1 1 10)
         = Some ph
         ∧ Models.is_24_hours ph = b).
Proof.
  apply (exact_filters Py.lower Sample.db SampleParams.exact_search
           [Sample.stock 1 1 10; Sample.stock 2 2 10] (Sample.stock 1 1 10)).
  vm_compute. constructor.
Defined.

Lemma null_never_matches_witness :
  (∀ s, Filters.supplied (Filters.p_batch_number SampleParams.text_search) s →
     Models.batch_number (Sample.stock 1 1 10) ≠ None)
  ∧ (∀ s, Filters.supplied (Filters.p_drug_brand_name SampleParams.text_search) s →
       ∃ d, Models.drugs Sample.db !! Models.drug (Sample.stock 1 1 10) = Some d
         ∧ Models.brand_name d ≠ None).
Proof.
  apply (null_never_matches Py.lower Sample.db SampleParams.text_search
           [Sample.stock 1 1 10] (Sample.stock 1 1 10)).
  vm_compute. constructor.
Defined.

(** The search [drug=1.5] returns the rows of drug 1. *)
Example fractional_drug_id :
  Filters.p_drug SampleParams.exact_search = Some (Q2Qc (3 # 2))
  ∧ Filters.filter_queryset Py.lower Sample.db SampleParams.exact_search
      [Sample.stock 1 1 10; Sample.stock 2 2 10]
    = [Sample.stock 1 1 10]
  ∧ Models.drug (Sample.stock 1 1 10) = 1.
Proof. by vm_compute. Qed.
(* ===================================================================== *)
(** * The other filter sets *)
(* ===================================================================== *)

Section FilterSetFacts.
Import Models Filters FilterSets.

Variable fold : string → string.
Variable db : Tables.

Lemma elem_of_apply_filters {P A} (declared : list (P → A → bool)) (p : P)
    (qs : list A) (x : A) :
  x ∈ apply_filters declared p qs
  ↔ x ∈ qs ∧ forallb (λ f, f p x) declared = true.
Proof.
  unfold apply_filters. rewrite <- (filter_true qs) at 1.
  rewrite foldl_filter, !list_elem_of_In, List.filter_In. done.
Qed.

(** X10: the results of the location search.  With [type] supplied
    every returned location has exactly that type; with [parent]
    supplied every returned location has a parent, whose id is the
    integer part of the number supplied; with [parent_name] supplied
    every returned location has a parent, whose name contains the
    value, so that a province is never returned. *)
Theorem location_filter_results (p : LocationParams) (qs : list Location)
    (l : Location) :
  l ∈ apply_filters (LocationFilter fold db) p qs →
  (∀ t, supplied (lp_type p) t → loc_type l = t)
  ∧ (∀ d, lp_parent p = Some d →
       ∃ k, loc_parent l = Some k ∧ Decimals.is_integer_part d k)
  ∧ (∀ s, supplied (lp_parent_name p) s →
       ∃ par, parent_of db l = Some par
         ∧ Py.contains (fold s) (fold (loc_name par)) = true).
Proof.
  intros [_ Hall]%elem_of_apply_filters. cbn in Hall.
  rewrite !andb_true_iff in Hall.
  destruct Hall as (_ & Htype & Hparent & Hpname & _).
  split; [| split].
  - intros t [Ht Hne%String.eqb_neq]. unfold lf_type, CharFilter in Htype.
    rewrite Ht, decide_False in Htype by done. cbn in Htype.
    by apply bool_decide_eq_true in Htype.
  - intros d Hd. unfold lf_parent, NumberFilter in Hparent.
    rewrite Hd in Hparent. destruct (loc_parent l) as [k|]; cbn in Hparent.
    + apply bool_decide_eq_true in Hparent. exists k. split; [done |].
      rewrite Hparent. apply int_of_decimal_integer_part.
    + done.
  - intros s [Hs Hne%String.eqb_neq].
    unfold lf_parent_name, CharFilter in Hpname.
    rewrite Hs, decide_False in Hpname by done.
    destruct (parent_of db l) as [par|]; cbn in Hpname; [eauto | done].
Qed.

(** X11: an inventory search asks of the drug of a record what the
    drug search asks of a drug.  A record passes the five drug filters
    of the inventory search (generic name, brand name, form, IRC code,
    manufacturer name) exactly when its drug passes the drug search
    with the same values. *)
Theorem inventory_search_agrees_with_drug_search (p : InventoryParams)
    (r : PharmacyInventory) (d : Drug) :
  drugs db !! drug r = Some d →
  f_drug_name fold db p r && f_drug_brand_name fold db p r
  && f_drug_form fold db p r && f_drug_irc db p r
  && f_manufacturer_name fold db p r
  = forallb (λ f, f (drug_search_of p) d) (DrugFilter fold db).
Proof.
  intros Hd. cbn.
  unfold f_drug_name, f_drug_brand_name, f_drug_form, f_drug_irc,
    f_manufacturer_name, drug__generic_name, drug__brand_name, drug__form,
    drug__irc, drug__manufacturer__name, drug__manufacturer, drug_.
  unfold df_generic_name, df_brand_name, df_manufacturer_name, df_form, df_irc.
  rewrite Hd. cbn.
  destruct (CharFilter (Some (generic_name d)) _ _),
    (CharFilter (brand_name d) _ _),
    (CharFilter (Some (form d)) _ _),
    (CharFilter (Some (irc d)) _ _),
    (CharFilter (man_name <$> _) _ _); done.
Qed.

End FilterSetFacts.

Section UserSearch.
Import Models FilterSets.



End UserSearch.

Lemma location_filter_results_witness :
  (∀ t, Filters.supplied (Some Serializers.CITY) t →
     Models.loc_type Sample.city = t)
  ∧ (∀ d, Some (Q2Qc (5 # 2)) = Some d →
       ∃ k, Models.loc_parent Sample.city = Some k
         ∧ Decimals.is_integer_part d k)
  ∧ (∀ s, Filters.supplied (Some "rey") s →
       ∃ par, Models.parent_of Sample.db Sample.city = Some par
         ∧ Py.contains (Py.lower s) (Py.lower (Models.loc_name par)) = true).
Proof.
  apply (location_filter_results Py.lower Sample.db
           {| FilterSets.lp_name := None;
              FilterSets.lp_type := Some Serializers.CITY;
              FilterSets.lp_parent := Some (Q2Qc (5 # 2));
              FilterSets.lp_parent_name := Some "rey" |}
           [Sample.province; Sample.city] Sample.city).
  vm_compute. constructor.
Defined.

Lemma inventory_search_agrees_with_drug_search_witness :
  Filters.f_drug_name Py.lower Sample.db SampleParams.text_search
    (Sample.stock 1 1 10)
  && Filters.f_drug_brand_name Py.lower Sample.db SampleParams.text_search
       (Sample.stock 1 1 10)
  && Filters.f_drug_form Py.lower Sample.db SampleParams.text_search
       (Sample.stock 1 1 10)
  && Filters.f_drug_irc Sample.db SampleParams.text_search (Sample.stock 1 1 10)
  && Filters.f_manufacturer_name Py.lower Sample.db SampleParams.text_search
       (Sample.stock 1 1 10)
  = forallb
      (λ f, f (FilterSets.drug_search_of SampleParams.text_search) Sample.aspirin)
      (FilterSets.DrugFilter Py.lower Sample.db).
Proof.
  apply (inventory_search_agrees_with_drug_search Py.lower Sample.db
           SampleParams.text_search (Sample.stock 1 1 10) Sample.aspirin).
  vm_compute. reflexivity.
Defined.

(* ===================================================================== *)
(** * More on pagination *)
(* ===================================================================== *)

Section PaginationFacts.
Import Http Pagination.

Context {A : Type}.

Lemma num_pages_bounds (count per_page : Z) :
  1 ≤ per_page → 1 ≤ count →
  (num_pages count per_page - 1) * per_page < count
  ∧ count ≤ num_pages count per_page * per_page.
Proof.
  intros Hp Hc. unfold num_pages. rewrite Z.max_r by lia.
  pose proof (Z.div_mod (count + per_page - 1) per_page ltac:(lia)) as Hdm.
  pose proof (Z.mod_pos_bound (count + per_page - 1) per_page ltac:(lia)) as Hb.
  nia.
Qed.

(** A page parameter that reads as a number other than zero is left to
    the framework's paginator. *)
Lemma numbered_page (queryset : list A) (request : HttpRequest) (s : string)
    (n : Z) :
  query_get page_query_param (GET request) = Some s →
  Py.int s = Some n → n ≠ 0 →
  paginate_queryset queryset request
  = match paginator_page queryset (get_page_size request) (Some n) with
    | Some rows => Page rows
    | None => NotFound
    end.
Proof.
  intros Hs Hn Hnz.
  pose proof (page_size_bounds request) as Hb.
  assert (Hsuper :
    paginate_queryset queryset request
    = super_paginate_queryset queryset request).
  { unfold paginate_queryset. rewrite Hs.
    change (Some s ≫= Py.int) with (Py.int s). rewrite Hn.
    destruct (n =? 0) eqn:Hzero; [lia |].
    by destruct (Py.truthy (Some s) && from_option Py.isdigit false (Some s)). }
  rewrite Hsuper. unfold super_paginate_queryset. rewrite Hs.
  destruct (get_page_size request =? 0) eqn:Hz; [lia |].
  destruct (String.eqb_spec s "") as [->|_]; [by vm_compute in Hn |].
  destruct (String.eqb_spec s "last") as [->|_]; [by vm_compute in Hn |].
  by rewrite Hn.
Qed.

(** X13: a [limit] that does not read as a positive integer (not a
    number, zero, or negative) is ignored and the default page size of
    5 is used. *)
Theorem invalid_limit_uses_default (request : HttpRequest) (s : string) :
  query_get "limit" (GET request) = Some s →
  (∀ n, Py.int s = Some n → n ≤ 0) →
  get_page_size request = 5.
Proof.
  intros Hs Hbad. unfold get_page_size.
  change page_size_query_param with "limit". rewrite Hs.
  unfold positive_int. destruct (Py.int s) as [n|]; cbn; [| done].
  specialize (Hbad n eq_refl).
  destruct (n <? 0) eqn:Hneg; [done |].
  destruct (n =? 0) eqn:Hzero; [done |]. lia.
Qed.

(** X14: the pages tile the query set.  The row at index [i] is on
    page [i / page_size + 1], at offset [i mod page_size]. *)
Theorem row_is_on_its_page (queryset : list A) (request : HttpRequest)
    (i : nat) (row : A) (s : string) :
  queryset !! i = Some row →
  query_get "page" (GET request) = Some s →
  Py.int s = Some (Z.of_nat i / get_page_size request + 1) →
  ∃ rows,
    paginate_queryset queryset request = Page rows
    ∧ rows !! Z.to_nat (Z.of_nat i mod get_page_size request) = Some row.
Proof.
  intros Hrow Hs Hn.
  pose proof (page_size_bounds request) as Hb.
  set (ps := get_page_size request) in *.
  assert (Hi : (i < length queryset)%nat) by (eapply lookup_lt_Some; eauto).
  pose proof (Z.div_mod (Z.of_nat i) ps ltac:(lia)) as Hdm.
  pose proof (Z.mod_pos_bound (Z.of_nat i) ps ltac:(lia)) as Hmod.
  assert (Hq : 0 ≤ Z.of_nat i / ps) by (apply Z.div_pos; lia).
  rewrite (numbered_page queryset request s _ Hs Hn) by lia.
  fold ps. unfold paginator_page.
  pose proof (num_pages_bounds (Z.of_nat (length queryset)) ps ltac:(lia)
                ltac:(lia)) as [Hlow Hhigh].
  destruct (Z.of_nat i / ps + 1 <? 1) eqn:E1; [lia |].
  destruct (num_pages (Z.of_nat (length queryset)) ps <? Z.of_nat i / ps + 1)
    eqn:E2; [nia |]. cbn.
  eexists. split; [reflexivity |].
  rewrite lookup_take_lt by lia.
  rewrite lookup_drop.
  replace (Z.to_nat ((Z.of_nat i / ps + 1 - 1) * ps)
           + Z.to_nat (Z.of_nat i mod ps))%nat with i by nia.
  exact Hrow.
Qed.

(** X15: a page number that is not zero and lies below 1 or beyond the
    last page is answered with the 404 error, and a page number within
    range with the rows of that slice; page 1 always exists, for the
    empty query set too. *)
Theorem page_out_of_range (queryset : list A) (request : HttpRequest)
    (s : string) (n : Z) :
  query_get "page" (GET request) = Some s →
  Py.int s = Some n → n ≠ 0 →
  let ps := get_page_size request in
  let last_page := num_pages (Z.of_nat (length queryset)) ps in
  1 ≤ last_page
  ∧ (n < 1 ∨ last_page < n →
       paginate_queryset queryset request = NotFound
       ∧ listed queryset request = Raise (APIException 404))
  ∧ (1 ≤ n ≤ last_page →
       listed queryset request
       = Ok (take (Z.to_nat ps) (drop (Z.to_nat ((n - 1) * ps)) queryset))).
Proof.
  intros Hs Hn Hnz ps last_page.
  pose proof (page_size_bounds request) as Hb. fold ps in Hb.
  unfold listed.
  rewrite (numbered_page queryset request s n Hs Hn Hnz). fold ps.
  unfold paginator_page. fold last_page.
  split; [apply num_pages_positive; lia |]. split.
  - intros Hout.
    destruct (n <? 1) eqn:E1; [done |].
    destruct (last_page <? n) eqn:E2; [done |]. lia.
  - intros Hin.
    destruct (n <? 1) eqn:E1; [lia |].
    destruct (last_page <? n) eqn:E2; [lia |]. done.
Qed.

(** X16: [page=last] gives the final page: the rows from the start of
    that page to the end of the query set, and for a query set that is
    not empty the page is not empty and ends with the last row. *)
Theorem last_page_ends_the_queryset (queryset : list A) (request : HttpRequest) :
  query_get "page" (GET request) = Some "last" →
  let ps := get_page_size request in
  let last_page := num_pages (Z.of_nat (length queryset)) ps in
  let rows := drop (Z.to_nat ((last_page - 1) * ps)) queryset in
  paginate_queryset queryset request = Page rows
  ∧ (queryset ≠ [] → rows ≠ [] ∧ last rows = last queryset).
Proof.
  intros Hs ps last_page rows.
  pose proof (page_size_bounds request) as Hb. fold ps in Hb.
  pose proof (num_pages_positive (Z.of_nat (length queryset)) ps ltac:(lia))
    as Hnp. fold last_page in Hnp.
  assert (Hcover : Z.of_nat (length queryset) ≤ last_page * ps).
  { destruct (decide (length queryset = 0%nat)) as [Hzero|Hpos].
    - rewrite Hzero. nia.
    - apply num_pages_bounds; lia. }
  split.
  - unfold paginate_queryset, super_paginate_queryset, page_query_param.
    rewrite Hs. cbn. fold ps. destruct (ps =? 0) eqn:Hz; [lia |]. fold last_page.
    unfold paginator_page. fold last_page.
    destruct (last_page <? 1) eqn:E1; [lia |].
    rewrite Z.ltb_irrefl. cbn. f_equal.
    subst rows. apply take_ge. rewrite length_drop. lia.
  - intros Hne.
    assert (Hlen : (0 < length queryset)%nat)
      by (destruct queryset; [done | cbn; lia]).
    pose proof (num_pages_bounds (Z.of_nat (length queryset)) ps ltac:(lia)
                  ltac:(lia)) as [Hlow _]. fold last_page in Hlow.
    assert (Hk : (Z.to_nat ((last_page - 1) * ps) < length queryset)%nat) by nia.
    split.
    + intros Hnil. apply (f_equal length) in Hnil. subst rows.
      rewrite length_drop in Hnil. cbn in Hnil. lia.
    + subst rows. rewrite !last_lookup, lookup_drop, length_drop.
      f_equal. lia.
Qed.

End PaginationFacts.

Lemma invalid_limit_uses_default_witness :
  Pagination.get_page_size (SampleRequests.search "limit=0" [("limit", ["0"])]) = 5.
Proof.
  apply (invalid_limit_uses_default
           (SampleRequests.search "limit=0" [("limit", ["0"])]) "0").
  - reflexivity.
  - intros n Hn. vm_compute in Hn. injection Hn as <-. lia.
Defined.

Lemma row_is_on_its_page_witness :
  let request := SampleRequests.search "page=2" [("page", ["2"])] in
  ∃ rows,
    Pagination.paginate_queryset (seqZ 1 12) request = Pagination.Page rows
    ∧ rows !! Z.to_nat (Z.of_nat 7 mod Pagination.get_page_size request)
      = Some 8.
Proof.
  intros request.
  apply (row_is_on_its_page (seqZ 1 12) request 7 8 "2"); reflexivity.
Defined.

Lemma page_out_of_range_witness :
  let request := SampleRequests.search "page=9" [("page", ["9"])] in
  let ps := Pagination.get_page_size request in
  let last_page := Pagination.num_pages (Z.of_nat (length (seqZ 1 12))) ps in
  1 ≤ last_page
  ∧ (9 < 1 ∨ last_page < 9 →
       Pagination.paginate_queryset (seqZ 1 12) request = Pagination.NotFound
       ∧ Pagination.listed (seqZ 1 12) request
         = Http.Raise (Http.APIException 404))
  ∧ (1 ≤ 9 ≤ last_page →
       Pagination.listed (seqZ 1 12) request
       = Http.Ok (take (Z.to_nat ps)
                    (drop (Z.to_nat ((9 - 1) * ps)) (seqZ 1 12)))).
Proof.
  intros request.
  apply (page_out_of_range (seqZ 1 12) request "9" 9);
    [reflexivity | reflexivity | lia].
Defined.

Lemma last_page_ends_the_queryset_witness :
  let request := SampleRequests.search "page=last" [("page", ["last"])] in
  let ps := Pagination.get_page_size request in
  let last_page := Pagination.num_pages (Z.of_nat (length (seqZ 1 12))) ps in
  let rows := drop (Z.to_nat ((last_page - 1) * ps)) (seqZ 1 12) in
  Pagination.paginate_queryset (seqZ 1 12) request = Pagination.Page rows
  ∧ (seqZ 1 12 ≠ [] → rows ≠ [] ∧ last rows = last (seqZ 1 12)).
Proof.
  intros request.
  apply (last_page_ends_the_queryset (seqZ 1 12) request). reflexivity.
Defined.

(** The third page of twelve rows, five to a page, holds the last two. *)
Example last_page_sample :
  Pagination.paginate_queryset (seqZ 1 12)
    (SampleRequests.search "page=last" [("page", ["last"])])
  = Pagination.Page [11; 12].
Proof. vm_compute. reflexivity. Qed.

(** The digits of other scripts count: [limit=٣] gives pages of three
    rows, and [page=٠] turns pagination off. *)
Example digits_of_other_scripts :
  Pagination.get_page_size (SampleRequests.search "limit=٣" [("limit", ["٣"])])
  = 3
  ∧ Pagination.paginate_queryset (seqZ 1 12)
      (SampleRequests.search "page=٠" [("page", ["٠"])])
    = Pagination.Unpaginated.
Proof. by vm_compute. Qed.

(** A page parameter that [isdigit] takes and [int] refuses, such as a
    superscript two, leaves the paginator by [ValueError]; no response
    of the API stands for it. *)
Example superscript_page_fails :
  Pagination.paginate_queryset (seqZ 1 12)
    (SampleRequests.search "page=²" [("page", ["²"])])
  = Pagination.Failed Http.ValueError
  ∧ Pagination.listed (seqZ 1 12)
      (SampleRequests.search "page=²" [("page", ["²"])])
    = Http.Raise Http.ValueError.
Proof. by vm_compute. Qed.
(* ===================================================================== *)
(** * More on the audit recorder *)
(* ===================================================================== *)

Section RecorderFacts.
Import Models Http Middleware.

Variable json_loads : string → Json.LoadsResult.

Lemma redaction_outcome (payload : Json.value) :
  match contains_password payload with
  | Raise e => e = TypeError ∧ Redaction.breaks_redaction payload = true
  | Ok true =>
      match censor payload with
      | Raise e => e = TypeError ∧ Redaction.breaks_redaction payload = true
      | Ok _ => Redaction.breaks_redaction payload = false
      end
  | Ok false => Redaction.breaks_redaction payload = false
  end.
Proof.
  destruct payload as [| | | |s|items|members]; cbn; try done.
  - by destruct (Py.contains "password" s).
  - by destruct (existsb _ items).
  - by destruct (Json.member "password" members).
Qed.

(** X18: the ways in which the payload capture fails.  It leaves by an
    exception only for a request that is not a GET with parameters and
    has a body with a JSON content type, and then exactly in these
    cases: [json.loads] itself raises [ValueError] (an integer literal
    over the digit limit) or [RecursionError] (a document nested too
    deep), neither of which the [except] clause names; or the body
    decodes to a document that is not an object and is a number, a
    Boolean, null, an array with the element [password] or a string
    containing [password], where the redaction raises [TypeError].
    The redaction of a decoded object never fails. *)
Theorem capture_fails_only_on_non_objects (request : HttpRequest) (e : Exception) :
  (capture_payload json_loads request (body request) = Raise e
   ↔ reads_body request
     ∧ body request ≠ ""
     ∧ Py.contains "application/json" (content_type request) = true
     ∧ ((e = ValueError ∧ json_loads (body request) = Json.RaisesValueError)
        ∨ (e = RecursionError
           ∧ json_loads (body request) = Json.RaisesRecursionError)
        ∨ (e = TypeError
           ∧ ∃ payload,
               json_loads (body request) = Json.Loaded payload
               ∧ Redaction.breaks_redaction payload = true)))
  ∧ (∀ members,
       json_loads (body request) = Json.Loaded (Json.JObj members) →
       ∃ stored, capture_payload json_loads request (body request) = Ok stored).
Proof.
  split.
  - unfold capture_payload, reads_body.
    destruct (String.eqb (method request) "GET" && has_params (GET request)).
    { split; [done | by intros (? & _)]. }
    destruct (String.eqb_spec (body request) "") as [Hb|Hb]; cbn.
    { split; [done | by intros (_ & ? & _)]. }
    destruct (Py.contains "application/json" (content_type request)).
    2: { split; [done | by intros (_ & _ & ? & _)]. }
    destruct (json_loads (body request)) as [payload| | |].
    + pose proof (redaction_outcome payload) as Hout.
      destruct (contains_password payload) as [[|]|e'];
        [destruct (censor payload) as [stored|e'] | |].
      * split; [done |].
        intros (_ & _ & _ & [[_ ?]|[[_ ?]|(_ & p & [= <-] & Hp)]]);
          congruence.
      * destruct Hout as [-> Hbreak]. split.
        -- intros [= <-]. repeat (split; [done |]). right. right. eauto.
        -- by intros (_ & _ & _ & [[_ ?]|[[_ ?]|[-> _]]]).
      * split; [done |].
        intros (_ & _ & _ & [[_ ?]|[[_ ?]|(_ & p & [= <-] & Hp)]]);
          congruence.
      * destruct Hout as [-> Hbreak]. split.
        -- intros [= <-]. repeat (split; [done |]). right. right. eauto.
        -- by intros (_ & _ & _ & [[_ ?]|[[_ ?]|[-> _]]]).
    + split; [done |].
      by intros (_ & _ & _ & [[_ ?]|[[_ ?]|(_ & p & ? & _)]]).
    + split.
      * intros [= <-]. repeat (split; [done |]). by left.
      * by intros (_ & _ & _ & [[-> _]|[[_ ?]|(_ & p & ? & _)]]).
    + split.
      * intros [= <-]. repeat (split; [done |]). right. by left.
      * by intros (_ & _ & _ & [[_ ?]|[[-> _]|(_ & p & ? & _)]]).
  - intros members Hloads. unfold capture_payload. rewrite Hloads. cbn.
    destruct (String.eqb (method request) "GET" && has_params (GET request));
      [eauto |].
    destruct (negb (String.eqb (body request) "")); [| eauto].
    destruct (Py.contains "application/json" (content_type request));
      [| eauto].
    destruct (Json.member "password" members); eauto.
Qed.

(** X19: the address that the recorders store for a request with a
    forwarded-for header is one entry: a prefix of the header that has
    no comma in it, and the whole header when the header has no comma.
    Without a value in the header it is the address of the connection. *)
Theorem client_ip_is_first_entry (request : HttpRequest) :
  (∀ header,
     HTTP_X_FORWARDED_FOR request = Some header → header ≠ "" →
     ∃ ip,
       client_ip request = Some ip
       ∧ String.prefix ip header = true
       ∧ Py.contains "," ip = false
       ∧ (Py.contains "," header = false → ip = header))
  ∧ (HTTP_X_FORWARDED_FOR request = None ∨ HTTP_X_FORWARDED_FOR request = Some "" →
     client_ip request = REMOTE_ADDR request).
Proof.
  split.
  - intros header Hh Hne. exists (Py.split_first "," header).
    split; [by apply client_ip_forwarded |].
    split; [apply split_first_prefix |].
    split; [apply split_first_no_separator | apply split_first_whole].
  - intros [Hh|Hh]; apply client_ip_direct; by rewrite Hh.
Qed.

End RecorderFacts.

Section SearchThroughMiddleware.
Import Models Http Middleware Views.

Variable json_loads : string → Json.LoadsResult.
Variable fold : string → string.
Variable clean : list (string * list string) → option Filters.InventoryParams.

(** X20: a search that is served leaves one row in each log, and the
    two rows agree.  For a GET of the inventory listing on a logged
    path with a query parameter, from a client whose address resolves
    to a text that is not empty, the request log gains one row and the
    search log gains one row (the body, if any, being within the limit);
    both hold the JSON text of the parameter
    mapping, that client address and the same user, and the
    request-log row holds the status of the response. *)
Theorem served_search_is_logged_twice (now now' : Z) (request : HttpRequest)
    (w : World) (response : Response) (address : string) :
  body_over_limit request = false →
  method request = "GET" →
  should_log request = true →
  has_params (GET request) = true →
  super_list fold clean request w = Ok response →
  Addresses.resolved request (Some address) → address ≠ "" →
  let out :=
    call json_loads (dispatch fold clean InventoryList now) now' request w in
  let mapping :=
    Json.dumps
      (Json.JObj
         (map (λ kv : string * list string,
                 (kv.1,
                  match last kv.2 with
                  | Some v => Json.JStr v
                  | None => Json.JArr []
                  end))
            (GET request))) in
  out.1 = Ok response
  ∧ ∃ rl sl,
      request_logs out.2 = request_logs w ++ [rl]
      ∧ search_logs out.2 = search_logs w ++ [sl]
      ∧ rl_request_payload rl = mapping ∧ sl_query_params sl = mapping
      ∧ rl_ip_address rl = Some address ∧ sl_ip_address sl = Some address
      ∧ rl_user rl = sl_user sl
      ∧ rl_endpoint rl = path request ∧ rl_method rl = "GET"
      ∧ rl_response_status rl = status_code response
      ∧ rl_timestamp rl = now' ∧ sl_timestamp sl = now.
Proof.
  intros Hbody Hm Hlog Hq Hsuper Hip Hne.
  pose proof (storable_resolved request address Hip Hne) as Hstore.
  apply resolved_client_ip in Hip.
  unfold call, dispatch, PharmacyInventoryViewSet_list.
  rewrite Hbody, Hsuper, Hq. unfold create_search_log. cbn. rewrite Hstore.
  rewrite Hlog. unfold capture_payload. rewrite Hm, Hq. cbn.
  unfold create_request_log. cbn. rewrite Hstore. cbn.
  split; [done |]. do 2 eexists.
  split; [reflexivity |]. split; [reflexivity |]. cbn.
  by rewrite Hip.
Qed.

(** X21: a search that is refused is audited but not counted as a
    search.  When the listing leaves by an error (a malformed filter
    value, a page that does not exist, a page parameter on which the
    paginator fails), the client gets the error response, the search
    log gains no row, and, for a client whose address resolves to a
    text that is not empty, the request log gains one row with the
    status of that response. *)
Theorem refused_search_is_audited_only (now now' : Z) (request : HttpRequest)
    (w : World) (e : Exception) (address : string) :
  body_over_limit request = false →
  method request = "GET" →
  should_log request = true →
  has_params (GET request) = true →
  super_list fold clean request w = Raise e →
  Addresses.resolved request (Some address) → address ≠ "" →
  let out :=
    call json_loads (dispatch fold clean InventoryList now) now' request w in
  out.1 = Ok (handle_exception e)
  ∧ search_logs out.2 = search_logs w
  ∧ ∃ rl,
      request_logs out.2 = request_logs w ++ [rl]
      ∧ rl_response_status rl = status_code (handle_exception e)
      ∧ rl_endpoint rl = path request
      ∧ rl_ip_address rl = Some address.
Proof.
  intros Hbody Hm Hlog Hq Hsuper Hip Hne.
  pose proof (storable_resolved request address Hip Hne) as Hstore.
  apply resolved_client_ip in Hip.
  unfold call, dispatch, PharmacyInventoryViewSet_list.
  rewrite Hbody, Hsuper, Hlog. unfold capture_payload. rewrite Hm, Hq. cbn.
  unfold create_request_log. cbn. rewrite Hstore. cbn.
  split; [done |]. split; [done |]. eexists.
  split; [reflexivity |]. cbn. by rewrite Hip.
Qed.

(** A malformed filter value is such an error, with status 400. *)
Lemma malformed_filter_is_400 (request : HttpRequest) (w : World) :
  clean (GET request) = None →
  super_list fold clean request w = Raise (APIException 400).
Proof. intros H. unfold super_list. by rewrite H. Qed.

End SearchThroughMiddleware.

Lemma served_search_is_logged_twice_witness :
  let request :=
    SampleRequests.search "drug_name=aspirin" [("drug_name", ["aspirin"])] in
  let response := {| Http.status_code := 200; Http.results := [] |} in
  let out :=
    Middleware.call Middleware.sample_loads
      (Views.dispatch Py.lower Views.sample_clean Views.InventoryList 1000)
      1001 request SampleRequests.empty_world in
  let mapping := Json.dumps (Json.JObj [("drug_name", Json.JStr "aspirin")]) in
  out.1 = Http.Ok response
  ∧ ∃ rl sl,
      Http.request_logs out.2
      = Http.request_logs SampleRequests.empty_world ++ [rl]
      ∧ Http.search_logs out.2
        = Http.search_logs SampleRequests.empty_world ++ [sl]
      ∧ Models.rl_request_payload rl = mapping
      ∧ Models.sl_query_params sl = mapping
      ∧ Models.rl_ip_address rl = Some "198.51.100.4"
      ∧ Models.sl_ip_address sl = Some "198.51.100.4"
      ∧ Models.rl_user rl = Models.sl_user sl
      ∧ Models.rl_endpoint rl = Http.path request
      ∧ Models.rl_method rl = "GET"
      ∧ Models.rl_response_status rl = Http.status_code response
      ∧ Models.rl_timestamp rl = 1001 ∧ Models.sl_timestamp sl = 1000.
Proof.
  intros request response.
  apply (served_search_is_logged_twice Middleware.sample_loads Py.lower
           Views.sample_clean 1000 1001 request SampleRequests.empty_world
           response "198.51.100.4"); try reflexivity. done.
Defined.

Lemma refused_search_is_audited_only_witness :
  let request := SampleRequests.search "page=9" [("page", ["9"])] in
  let e := Http.APIException 404 in
  let out :=
    Middleware.call Middleware.sample_loads
      (Views.dispatch Py.lower Views.sample_clean Views.InventoryList 1000)
      1001 request SampleRequests.empty_world in
  out.1 = Http.Ok (Views.handle_exception e)
  ∧ Http.search_logs out.2 = Http.search_logs SampleRequests.empty_world
  ∧ ∃ rl,
      Http.request_logs out.2
      = Http.request_logs SampleRequests.empty_world ++ [rl]
      ∧ Models.rl_response_status rl
        = Http.status_code (Views.handle_exception e)
      ∧ Models.rl_endpoint rl = Http.path request
      ∧ Models.rl_ip_address rl = Some "198.51.100.4".
Proof.
  intros request e.
  apply (refused_search_is_audited_only Middleware.sample_loads Py.lower
           Views.sample_clean 1000 1001 request SampleRequests.empty_world e
           "198.51.100.4"); try reflexivity. done.
Defined.

(** A page parameter on which the paginator fails is answered by a
    server error, which the audit recorder logs. *)
Example superscript_page_is_audited :
  let request := SampleRequests.search "page=²" [("page", ["²"])] in
  let out :=
    Middleware.call Middleware.sample_loads
      (Views.dispatch Py.lower Views.sample_clean Views.InventoryList 1000)
      1001 request SampleRequests.empty_world in
  ∃ rl,
    out.1 = Http.Ok {| Http.status_code := 500; Http.results := [] |}
    ∧ Http.request_logs out.2 = [rl]
    ∧ Models.rl_response_status rl = 500
    ∧ Http.search_logs out.2 = [].
Proof. eexists. by vm_compute. Qed.
(* ===================================================================== *)
(** * Creating and updating users *)
(* ===================================================================== *)

Section AccountFacts.
Import Models Accounts Permissions.

Variable make_password : option string → string.

Lemma saved_flags (a : Account) :
  is_superuser (acc_user (save a)) = role_is_admin (acc_user (save a))
  ∧ is_staff (acc_user (save a)) = role_is_admin (acc_user (save a))
  ∧ role (acc_user (save a)) = role (acc_user a).
Proof.
  cbn. destruct (save_sets_flags (acc_user a)) as [-> ->].
  unfold role_is_admin. by rewrite save_keeps_role.
Qed.

Lemma save_idempotent (a : Account) : save (save a) = save a.
Proof.
  destruct a as [[c r st su] pw fn act]. unfold save, User_save. cbn.
  destruct r as [r|]; [| done].
  by destruct (String.eqb (role_name r) "Admin") eqn:E; cbn; rewrite ?E.
Qed.

Lemma taken_spec (users : list Account) (contact : string) :
  taken users contact = true
  ↔ ∃ other, other ∈ users ∧ contact_number (acc_user other) = contact.
Proof.
  unfold taken. rewrite existsb_exists. split.
  - intros (other & Hin & Heq). exists other.
    split; [by apply list_elem_of_In | by apply String.eqb_eq].
  - intros (other & Hin & Heq). exists other.
    split; [by apply list_elem_of_In | by apply String.eqb_eq].
Qed.

Lemma save_contact (a : Account) :
  contact_number (acc_user (save a)) = contact_number (acc_user a).
Proof.
  cbn. unfold User_save. destruct (role (acc_user a)) as [r|]; [| done].
  by destruct (String.eqb (role_name r) "Admin").
Qed.

(** [create_user] step by step: the check of the contact number, the
    user that is built, and the insert. *)
Lemma create_user_eq (s : Store) (contact : string) (password : option string)
    (extra : ExtraFields) :
  create_user make_password s contact password extra
  = if String.eqb contact "" then
      (ValueError "The Contact Number must be set", s)
    else
      let a := save (set_password make_password password
                       (new_user contact extra)) in
      if taken (st_users s) contact then (IntegrityError, s)
      else (Done a, {| st_roles := st_roles s; st_users := st_users s ++ [a] |}).
Proof.
  unfold create_user, insert_user.
  destruct (String.eqb contact ""); [done |]. by rewrite save_contact.
Qed.

(** X22: [create_user] fails with [ValueError] for an empty contact
    number and with [IntegrityError] for a contact number that a stored
    user has, and writes nothing then; for any other contact number it
    stores one user and returns it.  That user is staff and superuser
    exactly when the role passed is named Admin: flags passed in the
    extra fields have no effect.  The password is stored as the hasher
    gives it and the account is active unless told otherwise. *)
Theorem create_user_outcome (s : Store) (contact : string)
    (password : option string) (extra : ExtraFields) :
  let out := create_user make_password s contact password extra in
  let is_taken :=
    ∃ other, other ∈ st_users s ∧ contact_number (acc_user other) = contact in
  (contact = "" → out = (ValueError "The Contact Number must be set", s))
  ∧ (contact ≠ "" → is_taken → out = (IntegrityError, s))
  ∧ (contact ≠ "" → ¬ is_taken →
     ∃ a,
       out = (Done a, {| st_roles := st_roles s; st_users := st_users s ++ [a] |})
       ∧ contact_number (acc_user a) = contact
       ∧ role (acc_user a) = default None (e_role extra)
       ∧ is_superuser (acc_user a)
         = match e_role extra with
           | Some (Some r) => String.eqb (role_name r) "Admin"
           | _ => false
           end
       ∧ is_staff (acc_user a) = is_superuser (acc_user a)
       ∧ acc_password a = make_password password
       ∧ acc_full_name a = default None (e_full_name extra)
       ∧ acc_is_active a = default true (e_is_active extra)).
Proof.
  intros out is_taken. subst out. rewrite create_user_eq.
  split; [| split].
  - by intros ->.
  - intros Hne%String.eqb_neq Htaken%taken_spec. by rewrite Hne, Htaken.
  - intros Hne%String.eqb_neq Hfree. rewrite Hne.
    destruct (taken (st_users s) contact) eqn:Htaken.
    { by apply taken_spec in Htaken. }
    eexists. split; [reflexivity |].
    destruct (saved_flags (set_password make_password password
                             (new_user contact extra))) as (Hsu & Hst & Hrole).
    split; [by rewrite save_contact |]. split; [exact Hrole |].
    split; [| split; [by rewrite Hsu, Hst | done]].
    rewrite Hsu. unfold role_is_admin. rewrite Hrole. cbn.
    by destruct (e_role extra) as [[r|]|].
Qed.

Lemma get_or_create_roles (name : string) (roles : list Role) :
  let out := get_or_create name roles in
  role_name out.1 = name
  ∧ ((∃ r, r ∈ roles ∧ role_name r = name) → out.2 = roles)
  ∧ ((∀ r, r ∈ roles → role_name r ≠ name) →
       out = ({| role_name := name |}, roles ++ [{| role_name := name |}])).
Proof.
  unfold get_or_create.
  destruct (List.find _ roles) as [r|] eqn:Hfind; cbn.
  - apply List.find_some in Hfind as [Hin Hname].
    apply String.eqb_eq in Hname. split; [done |]. split; [done |].
    intros Hnone. by destruct (Hnone r (proj2 (list_elem_of_In _ _) Hin)).
  - split; [done |]. split; [| done].
    intros (r & Hin%list_elem_of_In & Hname).
    pose proof (List.find_none _ _ Hfind r Hin) as Hno. cbn in Hno.
    apply String.eqb_neq in Hno. done.
Qed.

(** X23: [create_superuser] makes sure that the role Admin exists, also
    when the call then fails: it adds that one role when no stored role
    has the name, and leaves the roles as they are when one has.  It
    fails with [ValueError] exactly when [is_staff] or [is_superuser]
    is passed as false or the contact number is empty, and with
    [IntegrityError] exactly when, these apart, the contact number is
    taken; a call that fails stores no user, and a call that returns
    stores the user it returns.  That user is a superuser exactly when
    the resulting role is named Admin: always when no role is passed,
    and never when another role (or none) is passed explicitly. *)
Theorem create_superuser_outcome (s : Store) (contact : string)
    (password : option string) (extra : ExtraFields) :
  let out := create_superuser make_password s contact password extra in
  let has_admin := ∃ r, r ∈ st_roles s ∧ role_name r = "Admin" in
  let is_taken :=
    ∃ other, other ∈ st_users s ∧ contact_number (acc_user other) = contact in
  let refused :=
    e_is_staff extra = Some false ∨ e_is_superuser extra = Some false
    ∨ contact = "" in
  (has_admin → st_roles out.2 = st_roles s)
  ∧ (¬ has_admin →
       st_roles out.2 = st_roles s ++ [{| role_name := "Admin" |}])
  ∧ ((∃ msg, out.1 = ValueError msg) ↔ refused)
  ∧ (out.1 = IntegrityError ↔ ¬ refused ∧ is_taken)
  ∧ ((∀ a, out.1 ≠ Done a) → st_users out.2 = st_users s)
  ∧ (∀ a, out.1 = Done a →
       st_users out.2 = st_users s ++ [a]
       ∧ contact_number (acc_user a) = contact
       ∧ is_superuser (acc_user a) = role_is_admin (acc_user a)
       ∧ is_staff (acc_user a) = role_is_admin (acc_user a)
       ∧ (e_role extra = None →
            is_superuser (acc_user a) = true ∧ is_staff (acc_user a) = true)
       ∧ (∀ given, e_role extra = Some given →
            from_option (λ r, String.eqb (role_name r) "Admin") false given
            = false →
            is_superuser (acc_user a) = false ∧ is_staff (acc_user a) = false)).
Proof.
  intros out has_admin is_taken refused. subst out.
  unfold create_superuser.
  pose proof (get_or_create_roles "Admin" (st_roles s))
    as (Hname & Hkept & Hadded).
  destruct (get_or_create "Admin" (st_roles s)) as [admin_role roles'].
  cbn in Hname, Hkept, Hadded.
  cbn -[create_user].
  assert (Hroles : ∀ (o : Outcome Account) (users : list Account),
    let after := {| st_roles := roles'; st_users := users |} in
    (has_admin → st_roles (o, after).2 = st_roles s)
    ∧ (¬ has_admin →
         st_roles (o, after).2 = st_roles s ++ [{| role_name := "Admin" |}])).
  { intros o users. cbn. split; [exact Hkept |].
    intros Hnone. assert (Hall : ∀ r, r ∈ st_roles s → role_name r ≠ "Admin").
    { intros r Hin Hr. apply Hnone. by exists r. }
    by injection (Hadded Hall) as _ ->. }
  destruct (bool_decide (setdefault (e_is_staff extra) true = Some true))
    eqn:Hstaff; cbn.
  2: { apply bool_decide_eq_false in Hstaff.
       assert (Hs : e_is_staff extra = Some false)
         by (by destruct (e_is_staff extra) as [[|]|]).
       destruct (Hroles (ValueError "Superuser must have is_staff=True.")
                   (st_users s)) as [H1 H2].
       split; [exact H1 |]. split; [exact H2 |]. cbn.
       split; [split; [by left | eauto] |].
       split; [split; [done | intros [Hn _]; destruct Hn; by left] |].
       split; [done | by intros a [=]]. }
  destruct (bool_decide (setdefault (e_is_superuser extra) true = Some true))
    eqn:Hsuper; cbn.
  2: { apply bool_decide_eq_false in Hsuper.
       assert (Hs : e_is_superuser extra = Some false)
         by (by destruct (e_is_superuser extra) as [[|]|]).
       destruct (Hroles (ValueError "Superuser must have is_superuser=True.")
                   (st_users s)) as [H1 H2].
       split; [exact H1 |]. split; [exact H2 |]. cbn.
       split; [split; [by right; left | eauto] |].
       split; [split; [done | intros [Hn _]; destruct Hn; by right; left] |].
       split; [done | by intros a [=]]. }
  apply bool_decide_eq_true in Hstaff, Hsuper.
  assert (Hst : e_is_staff extra ≠ Some false)
    by (by destruct (e_is_staff extra) as [[|]|]).
  assert (Hsu : e_is_superuser extra ≠ Some false)
    by (by destruct (e_is_superuser extra) as [[|]|]).
  set (extra' := {| e_role := setdefault (e_role extra) (Some admin_role);
                    e_is_staff := setdefault (e_is_staff extra) true;
                    e_is_superuser := setdefault (e_is_superuser extra) true;
                    e_is_active := setdefault (e_is_active extra) true;
                    e_full_name := e_full_name extra |}).
  rewrite create_user_eq. cbn [st_users st_roles].
  destruct (String.eqb_spec contact "") as [Hc|Hc].
  { destruct (Hroles (ValueError "The Contact Number must be set")
                (st_users s)) as [H1 H2].
    split; [exact H1 |]. split; [exact H2 |]. cbn.
    split; [split; [by right; right | eauto] |].
    split; [split; [done | intros [Hn _]; destruct Hn; by right; right] |].
    split; [done | by intros a [=]]. }
  assert (Hnot : ¬ refused) by (intros [?|[?|?]]; done).
  cbn zeta.
  destruct (taken (st_users s) contact) eqn:Htaken.
  { apply taken_spec in Htaken.
    destruct (Hroles IntegrityError (st_users s)) as [H1 H2].
    split; [exact H1 |]. split; [exact H2 |]. cbn.
    split; [split; [by intros [? [=]] | done] |].
    split; [done |]. split; [done | by intros a [=]]. }
  assert (Hfree : ¬ is_taken).
  { intros H%taken_spec. congruence. }
  set (a := save (set_password make_password password (new_user contact extra'))).
  destruct (Hroles (Done a) (st_users s ++ [a])) as [H1 H2].
  split; [exact H1 |]. split; [exact H2 |]. cbn.
  split; [split; [by intros [? [=]] | done] |].
  split; [split; [done | by intros [_ ?]] |].
  split; [intros Hno; by destruct (Hno a) |].
  intros ? [= <-]. split; [done |].
  destruct (saved_flags (set_password make_password password
                           (new_user contact extra'))) as (Hflag & Hstaff' & Hrole).
  fold a in Hflag, Hstaff', Hrole.
  split; [subst a; by rewrite save_contact |].
  split; [exact Hflag |]. split; [exact Hstaff' |].
  rewrite Hflag, Hstaff'. unfold role_is_admin. rewrite Hrole. cbn. split.
  - intros ->. cbn. by rewrite Hname.
  - intros given -> Hgiven. cbn. by destruct given.
Qed.

(** X24: [UserSerializer.update] keeps the stored password when the
    data has no password or an empty one, and stores what the hasher
    gives for the new one otherwise; a role that the data does not
    carry is kept; the user that results is staff and superuser exactly
    when its role is named Admin, whatever the flags were before; and
    applying an update that sets no password a second time changes
    nothing. *)
Theorem user_update_effects (instance : Account) (d : UserData) :
  let updated := UserSerializer_update make_password instance d in
  acc_password updated
  = (if Py.truthy (v_password d) then make_password (v_password d)
     else acc_password instance)
  ∧ role (acc_user updated) = default (role (acc_user instance)) (v_role d)
  ∧ is_superuser (acc_user updated) = role_is_admin (acc_user updated)
  ∧ is_staff (acc_user updated) = role_is_admin (acc_user updated)
  ∧ (Py.truthy (v_password d) = false →
       UserSerializer_update make_password updated d = updated).
Proof.
  unfold UserSerializer_update.
  set (base := super_update instance d).
  assert (Hbase : role (acc_user base) = default (role (acc_user instance)) (v_role d)
            ∧ is_superuser (acc_user base) = role_is_admin (acc_user base)
            ∧ is_staff (acc_user base) = role_is_admin (acc_user base)).
  { subst base. unfold super_update.
    match goal with |- context [save ?x] =>
      destruct (saved_flags x) as (Hsu & Hst & Hrole) end.
    by rewrite Hrole. }
  assert (Hagain : super_update base d = base).
  { subst base. unfold super_update at 1.
    destruct d as [vc vp vf vr va], instance as [[c r st su] pw fn act].
    unfold super_update, save, User_save. cbn.
    destruct vc, vf, vr as [[ro|]|], va, r as [ro'|]; cbn;
      repeat match goal with
        | |- context [String.eqb (role_name ?x) "Admin"] =>
            destruct (String.eqb (role_name x) "Admin") eqn:?; cbn
        end; try done; try congruence;
      repeat match goal with H : _ = _ |- _ => rewrite H end; done. }
  destruct Hbase as (Hrole & Hsu & Hst).
  destruct (Py.truthy (v_password d)) eqn:Hpw.
  - destruct (saved_flags (set_password make_password (v_password d) base))
      as (Hsu' & Hst' & Hrole').
    split; [done |].
    split; [transitivity (role (acc_user base)); [exact Hrole' | exact Hrole] |].
    split; [exact Hsu' |]. split; [exact Hst' |].
    done.
  - repeat (split; [done |]). intros _. by rewrite Hagain.
Qed.

(** X25: [UserSerializer.create] needs the password key.  The user it
    creates holds the hash of the password, and is staff and superuser
    exactly when the role in the data is named Admin: the data of a
    request cannot set the two flags. *)
Theorem user_create_effects (d : UserData) :
  (v_password d = None →
     UserSerializer_create make_password d = KeyError "password")
  ∧ (∀ password, v_password d = Some password →
       ∃ a,
         UserSerializer_create make_password d = Done a
         ∧ acc_password a = make_password (Some password)
         ∧ role (acc_user a) = default None (v_role d)
         ∧ is_superuser (acc_user a) = role_is_admin (acc_user a)
         ∧ is_staff (acc_user a) = role_is_admin (acc_user a)).
Proof.
  unfold UserSerializer_create. split.
  - by intros ->.
  - intros password ->. eexists. split; [reflexivity |].
    destruct (saved_flags (set_password make_password (Some password)
                             (user_of_data d))) as (Hsu & Hst & Hrole).
    by rewrite Hrole.
Qed.

End AccountFacts.

(** A superuser created with the role Pharmacist is no superuser, and
    the role Admin is in the table all the same. *)
Example superuser_with_other_role :
  let extra :=
    {| Accounts.e_role := Some (Some {| Models.role_name := "Pharmacist" |});
       Accounts.e_is_staff := None; Accounts.e_is_superuser := None;
       Accounts.e_is_active := None; Accounts.e_full_name := None |} in
  ∃ a,
    Accounts.create_superuser Accounts.sample_hasher
      {| Accounts.st_roles := []; Accounts.st_users := [] |}
      "0911" (Some "pw") extra
    = (Accounts.Done a,
       {| Accounts.st_roles := [{| Models.role_name := "Admin" |}];
          Accounts.st_users := [a] |})
    ∧ Models.is_superuser (Accounts.acc_user a) = false
    ∧ Accounts.acc_password a = "hash$pw".
Proof. eexists. vm_compute. done. Qed.

(** An update with an empty password keeps the stored hash. *)
Example empty_password_is_ignored :
  let stored :=
    {| Accounts.acc_user :=
         {| Models.contact_number := "0911"; Models.role := None;
            Models.is_staff := false; Models.is_superuser := false |};
       Accounts.acc_password := "hash$old";
       Accounts.acc_full_name := None; Accounts.acc_is_active := true |} in
  let data :=
    {| Accounts.v_contact_number := None; Accounts.v_password := Some "";
       Accounts.v_full_name := Some (Some "Sara"); Accounts.v_role := None;
       Accounts.v_is_active := None |} in
  Accounts.acc_password
    (Accounts.UserSerializer_update Accounts.sample_hasher stored data)
  = "hash$old".
Proof. reflexivity. Qed.
(* ===================================================================== *)
(** * The nested representation of locations *)
(* ===================================================================== *)

Section LocationTreeFacts.
Import Models Serializers Hierarchy LocationTree.

Variable db : Tables.

Lemma elem_of_children (k k' : Z) (c : Location) :
  (k', c) ∈ children db k
  ↔ locations db !! k' = Some c ∧ loc_parent c = Some k.
Proof.
  unfold children. rewrite list_elem_of_In, List.filter_In.
  rewrite <- list_elem_of_In, elem_of_map_to_list. cbn.
  by rewrite bool_decide_eq_true.
Qed.

Lemma child_is_one_level_down (k k' : Z) (l c : Location) (n : nat) :
  stored_valid db →
  locations db !! k = Some l → (k', c) ∈ children db k →
  steps_to_province (loc_type l) = Some n →
  steps_to_province (loc_type c) = Some (S n) ∧ (S n ≤ 3)%nat.
Proof.
  intros Hv Hl [Hc Hpar]%elem_of_children Hn.
  destruct (stored_valid_cases db k' c Hv Hc) as [[_ Hnone]|(kp & p & Hkp & Hp & Hr)].
  - unfold parent_of in Hnone. rewrite Hpar in Hnone. cbn in Hnone. congruence.
  - assert (kp = k) as -> by congruence. assert (p = l) as -> by congruence.
    apply required_parent_level in Hr as [[Ht Hu]|[[Ht Hu]|[Ht Hu]]];
      rewrite Hu in Hn; rewrite Ht; vm_compute in Hn |- *;
      injection Hn as <-; split; (done || lia).
Qed.

Lemma representation_within (m : nat) :
  stored_valid db →
  ∀ k l n, locations db !! k = Some l →
    steps_to_province (loc_type l) = Some n → (n ≤ 3)%nat → (4 ≤ n + m)%nat →
    is_Some (to_representation m db k l).
Proof.
  intros Hv. induction m as [|m IH]; intros k l n Hl Hn Hle Hfuel; [lia |].
  cbn [to_representation].
  assert (Hnested : is_Some (mapM (λ kl : Z * Location,
                                     to_representation m db kl.1 kl.2)
                               (children db k))).
  { apply mapM_is_Some, Forall_forall. intros [k' c] Hin. cbn.
    destruct (child_is_one_level_down k k' l c n Hv Hl Hin Hn) as [Hc Hc3].
    apply elem_of_children in Hin as [Hstored _].
    apply (IH k' c (S n) Hstored Hc Hc3). lia. }
  destruct Hnested as [nested ->]. by eexists.
Qed.

Lemma more_fuel (fuel : nat) :
  ∀ k l rep, to_representation fuel db k l = Some rep →
    to_representation (S fuel) db k l = Some rep.
Proof.
  induction fuel as [|fuel IH]; intros k l rep Hrep; [done |].
  change (to_representation (S fuel) db k l) with
    (nested ← mapM (λ kl : Z * Location, to_representation fuel db kl.1 kl.2)
               (children db k);
     Some (Rep k (loc_name l) (loc_type l) (loc_parent l) nested)) in Hrep.
  change (to_representation (S (S fuel)) db k l) with
    (nested ← mapM (λ kl : Z * Location, to_representation (S fuel) db kl.1 kl.2)
               (children db k);
     Some (Rep k (loc_name l) (loc_type l) (loc_parent l) nested)).
  destruct (mapM _ (children db k)) as [nested|] eqn:Hm; [| done].
  cbn in Hrep. injection Hrep as <-.
  apply mapM_Some in Hm.
  rewrite (proj2 (mapM_Some _ _ nested)); [done |].
  eapply Forall2_impl; [exact Hm |]. intros [k' c] y Hy. by apply IH.
Qed.

Lemma enough_fuel (fuel extra : nat) k l rep :
  to_representation fuel db k l = Some rep →
  to_representation (fuel + extra) db k l = Some rep.
Proof.
  intros H. induction extra as [|extra IH].
  - by rewrite Nat.add_0_r.
  - rewrite Nat.add_succ_r. by apply more_fuel.
Qed.

Lemma height_within_fuel (fuel : nat) :
  ∀ k l rep, to_representation fuel db k l = Some rep → (height rep ≤ fuel)%nat.
Proof.
  induction fuel as [|fuel IH]; intros k l rep Hrep; [done |].
  cbn [to_representation] in Hrep.
  destruct (mapM _ (children db k)) as [nested|] eqn:Hm; [| done].
  cbn in Hrep. injection Hrep as <-. cbn [height].
  apply mapM_Some in Hm.
  assert (Hall : Forall (λ c, (height c ≤ fuel)%nat) nested).
  { clear -Hm IH. induction Hm as [|[k' c] y xs ys Hy _ IHm]; constructor.
    - by eapply IH.
    - exact IHm. }
  clear Hm. apply le_n_S.
  induction Hall as [|c cs Hc _ IHc]; cbn; lia.
Qed.

(** X26: on validated data the nested representation of a location is
    finite.  When every stored location passes the validator, the
    serializer's recursion into the children of a stored location ends:
    four levels of calls are enough for any location (and more change
    nothing), the result has at most four levels, and a location
    [n] links below its province has at most [4 - n] levels, so a district
    has no children. *)
Theorem valid_tree_is_finite (k : Z) (l : Location) :
  stored_valid db → locations db !! k = Some l →
  ∃ rep (n : nat),
    to_representation 4 db k l = Some rep
    ∧ (∀ fuel, (4 ≤ fuel)%nat → to_representation fuel db k l = Some rep)
    ∧ steps_to_province (loc_type l) = Some n
    ∧ (height rep ≤ 4 - n)%nat.
Proof.
  intros Hv Hl.
  destruct (stored_valid_level db k l Hv Hl) as (n & Hn & Hle).
  destruct (representation_within (4 - n) Hv k l n Hl Hn Hle ltac:(lia))
    as [rep Hrep].
  pose proof (height_within_fuel _ k l rep Hrep) as Hh.
  assert (H4 : ∀ fuel, (4 ≤ fuel)%nat → to_representation fuel db k l = Some rep).
  { intros fuel Hf. replace fuel with ((4 - n) + (fuel - (4 - n)))%nat by lia.
    by apply enough_fuel. }
  exists rep, n. split; [apply H4; lia |]. by repeat split.
Qed.

(** X27: a location stored as its own parent makes the recursion into
    its children endless: no depth of calls yields a representation. *)
Theorem own_parent_never_ends (k : Z) (l : Location) (fuel : nat) :
  locations db !! k = Some l → loc_parent l = Some k →
  to_representation fuel db k l = None.
Proof.
  intros Hl Hp. induction fuel as [|fuel IH]; [done |].
  cbn [to_representation].
  rewrite (proj2 (mapM_None _ (children db k))); [done |].
  apply Exists_exists. exists (k, l). split; [| exact IH].
  by apply elem_of_children.
Qed.

End LocationTreeFacts.

(** The sample province is represented with its county, city and
    district nested in it, four levels in all. *)
Example sample_province_tree :
  LocationTree.height
    <$> LocationTree.to_representation 4 Sample.db 1 Sample.province
  = Some 4%nat.
Proof. vm_compute. reflexivity. Qed.

Lemma valid_tree_is_finite_witness :
  ∃ rep (n : nat),
    LocationTree.to_representation 4 Sample.db 1 Sample.province = Some rep
    ∧ (∀ fuel, (4 ≤ fuel)%nat →
         LocationTree.to_representation fuel Sample.db 1 Sample.province
         = Some rep)
    ∧ Hierarchy.steps_to_province (Models.loc_type Sample.province) = Some n
    ∧ (LocationTree.height rep ≤ 4 - n)%nat.
Proof.
  apply (valid_tree_is_finite Sample.db 1 Sample.province).
  - exact sample_stored_valid.
  - vm_compute. reflexivity.
Defined.

Lemma own_parent_never_ends_witness :
  LocationTree.to_representation 50 SampleLoop.db 9 SampleLoop.loop = None.
Proof.
  apply (own_parent_never_ends SampleLoop.db 9 SampleLoop.loop 50);
    reflexivity.
Defined.
(* ===================================================================== *)
(** * The rows of an inventory listing *)
(* ===================================================================== *)

Section ListingFacts.
Import Models Http Views.

Variable fold : string → string.
Variable clean : list (string * list string) → option Filters.InventoryParams.

Lemma page_rows_sublist {A} (queryset rows : list A) (request : HttpRequest) :
  Pagination.paginate_queryset queryset request = Pagination.Page rows →
  rows `sublist_of` queryset.
Proof.
  intros Hsuper%page_of_super. revert Hsuper.
  unfold Pagination.super_paginate_queryset.
  destruct (Pagination.get_page_size request =? 0); [done |].
  destruct (Pagination.paginator_page _ _ _) as [page|] eqn:Hpage; [| done].
  intros [= <-]. unfold Pagination.paginator_page in Hpage.
  destruct (match query_get Pagination.page_query_param (GET request) with
            | Some s => _ | None => _ end) as [n|]; [| done].
  destruct (_ || _); [done |]. injection Hpage as <-.
  etrans; [apply sublist_take | apply sublist_drop].
Qed.

(** X28: what an inventory listing returns.  When a listing whose
    cleaned parameters carry no price bound is served, its rows are
    rows of the inventory, in the order of the inventory, and every one
    of them passes every filter of the cleaned parameters; there are at
    most 100 of them unless the whole query set was asked for with
    [page=0]. *)
Theorem listing_returns_matching_rows (request : HttpRequest) (w : World)
    (response : Response) (p : Filters.InventoryParams) :
  clean (GET request) = Some p →
  Filters.p_price_min p = None → Filters.p_price_max p = None →
  super_list fold clean request w = Ok response →
  status_code response = 200
  ∧ results response `sublist_of` inventory w
  ∧ (∀ r, r ∈ results response →
       forallb (λ f, f p r) (Filters.declared_filters fold (tables w)) = true)
  ∧ ((length (results response) ≤ 100)%nat
     ∨ results response
       = Filters.filter_queryset fold (tables w) p (inventory w)).
Proof.
  intros Hclean _ _. unfold super_list. rewrite Hclean.
  set (qs := Filters.filter_queryset fold (tables w) p (inventory w)).
  assert (Hqs : qs `sublist_of` inventory w).
  { subst qs. rewrite filter_queryset_eq. apply filter_sublist. }
  unfold Pagination.listed.
  destruct (Pagination.paginate_queryset qs request) as [|rows| |e] eqn:Hpage;
    [| | done | done]; intros [= <-]; cbn.
  - split; [done |]. split; [exact Hqs |]. split; [| by right].
    intros r Hr. by apply (elem_of_filter_queryset fold (tables w) p (inventory w)).
  - pose proof (page_rows_sublist qs rows request Hpage) as Hrows.
    split; [done |]. split; [by etrans |]. split.
    + intros r Hr.
      apply (elem_of_filter_queryset fold (tables w) p (inventory w)).
      by eapply elem_of_sublist.
    + left. pose proof (page_rows_bounded qs rows request Hpage) as Hlen.
      pose proof (page_size_bounds request) as Hb.
      unfold Pagination.max_page_size in Hb. lia.
Qed.

End ListingFacts.

(** A search by city over the two sample rows returns the row of the
    pharmacy in the district. *)
Lemma listing_returns_matching_rows_witness :
  let request :=
    SampleRequests.search "location_city=tehran"
      [("location_city", ["tehran"])] in
  let rows := [Sample.stock 1 1 10] in
  rows `sublist_of` Http.inventory SampleRequests.stocked_world
  ∧ (∀ r, r ∈ rows →
       forallb (λ f, f (Filters.only_ancestor Filters.City "tehran") r)
         (Filters.declared_filters Py.lower
            (Http.tables SampleRequests.stocked_world)) = true)
  ∧ ((length rows ≤ 100)%nat
     ∨ rows
       = Filters.filter_queryset Py.lower
           (Http.tables SampleRequests.stocked_world)
           (Filters.only_ancestor Filters.City "tehran")
           (Http.inventory SampleRequests.stocked_world)).
Proof.
  intros request rows.
  apply (listing_returns_matching_rows Py.lower Views.sample_clean request
           SampleRequests.stocked_world
           {| Http.status_code := 200; Http.results := rows |}
           (Filters.only_ancestor Filters.City "tehran"));
    reflexivity.
Defined.

(** The listing of that search, and of the twelve rows of a larger
    inventory, of which a page of five is returned. *)
Example listing_samples :
  Views.super_list Py.lower Views.sample_clean
    (SampleRequests.search "location_city=tehran"
       [("location_city", ["tehran"])])
    SampleRequests.stocked_world
  = Http.Ok {| Http.status_code := 200; Http.results := [Sample.stock 1 1 10] |}
  ∧ (Http.results <$>
       match
         Views.super_list Py.lower Views.sample_clean
           (SampleRequests.search "page=3" [("page", ["3"])])
           {| Http.tables := Sample.db;
              Http.inventory := (λ i, Sample.stock i 1 10) <$> seqZ 1 12;
              Http.search_logs := []; Http.request_logs := [] |}
       with
       | Http.Ok response => Some response
       | Http.Raise _ => None
       end)
    = Some [Sample.stock 11 1 10; Sample.stock 12 1 10].
Proof. by vm_compute. Qed.
